(** * pycodex: the catalog indexer and the query engine

    A shallow embedding of [pycodex/models/database.py],
    [pycodex/core/indexer.py] and [pycodex/core/search.py], and the
    properties of re-indexing, atomicity, query dispatch, truncation and
    file views that their specification states.

    Conventions of the embedding.
    - Text is [string], one [ascii] per character: the character whose
      Unicode code point is the number of the [ascii], 0 to 255 (ASCII and
      the Latin-1 supplement).  On these characters [str.lower], [str.strip]
      and the class [\w] of [re] are Python's, which know the letters and
      the white space of the supplement; [lower()] and [LIKE] are SQLite's,
      which fold the letters A to Z only and read a text up to its first
      NUL.  A [LIKE] pattern is taken to be within SQLite's limit on the
      length of a pattern (50000 bytes).
    - Integers ([id], [lineno], [limit], [max_length]) are [Z]; time stamps
      are [Z] read from a clock.
    - A table is the list of its rows in rowid order.  A fresh row gets the
      rowid SQLite gives an [INTEGER PRIMARY KEY] column declared without
      AUTOINCREMENT: one more than the largest rowid in the table, 1 in an
      empty table.
    - SQL conditions are three-valued: [option bool], [None] being NULL.
    - A session is the durable store, the working copy of the open
      transaction, and two counters: the statements sent so far and the
      clock readings taken so far. *)

From Stdlib Require Import List String Ascii ZArith Bool Lia Sorted Permutation.
From Stdlib Require Import DecimalString.
Import ListNotations.

Open Scope string_scope.
Open Scope Z_scope.

(** ** Python and SQLite text primitives *)

Module Py.

Definition code (c : ascii) : nat := nat_of_ascii c.

Definition between (lo hi : nat) (c : ascii) : bool :=
  (Nat.leb lo (code c) && Nat.leb (code c) hi)%bool.

(** [str.lower] on one character: the letters A to Z of ASCII, and the
    capital letters of the Latin-1 supplement (all of 192 to 222 but the
    multiplication sign 215), lie 32 below their small letters. *)
Definition lower_char (c : ascii) : ascii :=
  if (between 65 90 c || between 192 214 c || between 216 222 c)%bool
  then ascii_of_nat (code c + 32)
  else c.

(** [str.lower()]. *)
Fixpoint lower (s : string) : string :=
  match s with
  | EmptyString => EmptyString
  | String c r => String (lower_char c) (lower r)
  end.

(** [str.isspace] on one character: TAB..CR, FS..US, the blank, NEL
    (133) and the no-break space (160). *)
Definition is_space (c : ascii) : bool :=
  (between 9 13 c || between 28 32 c || between 133 133 c || between 160 160 c)%bool.

Fixpoint lstrip (s : string) : string :=
  match s with
  | EmptyString => EmptyString
  | String c r => if is_space c then lstrip r else s
  end.

(** [rstrip]: a character is dropped when it is white space and all that
    follows it has been dropped. *)
Fixpoint rstrip (s : string) : string :=
  match s with
  | EmptyString => EmptyString
  | String c r =>
      match rstrip r with
      | EmptyString => if is_space c then EmptyString else String c EmptyString
      | r' => String c r'
      end
  end.

(** [str.strip()]. *)
Definition strip (s : string) : string := rstrip (lstrip s).

(** [c in s] for a one-character [c]. *)
Fixpoint contains (c : ascii) (s : string) : bool :=
  match s with
  | EmptyString => false
  | String d r => (Ascii.eqb c d || contains c r)%bool
  end.

(** [len(s)]. *)
Definition len (s : string) : Z := Z.of_nat (String.length s).

(** [bool(s)] of an optional text: [None] and the empty text are falsy. *)
Definition truthy (t : option string) : bool :=
  match t with
  | None => false
  | Some EmptyString => false
  | Some _ => true
  end.

(** [s[:n]]: the first [n] characters, and for a negative [n] all but the
    last [-n]. *)
Definition slice_to (s : string) (n : Z) : string :=
  if n <? 0
  then substring 0 (Z.to_nat (len s + n)) s
  else substring 0 (Z.to_nat n) s.

(** The text an f-string puts for an optional value. *)
Definition fmt (t : option string) : string :=
  match t with
  | None => "None"
  | Some s => s
  end.

(** The class [\w] of the [re] module on a [str] pattern: the underscore
    and every character that is alphanumeric for [str.isalnum].  Below 256
    these are the digits and letters of ASCII and, in the supplement, the
    ordinal indicators (170, 186), the micro sign (181), the superscript
    digits (178, 179, 185), the fractions (188 to 190) and the letters
    (192 to 255 but the signs 215 and 247). *)
Definition is_word (c : ascii) : bool :=
  (between 48 57 c || between 65 90 c || between 97 122 c || Ascii.eqb c "_"
   || between 170 170 c || between 178 179 c || between 181 181 c
   || between 185 186 c || between 188 190 c
   || between 192 214 c || between 216 246 c || between 248 255 c)%bool.

Definition is_newline (c : ascii) : bool := Ascii.eqb c "010".

(** The longest prefix of word characters, and what follows it. *)
Fixpoint span_word (s : string) : string * string :=
  match s with
  | EmptyString => (EmptyString, EmptyString)
  | String c r =>
      if is_word c
      then let (w, rest) := span_word r in (String c w, rest)
      else (EmptyString, s)
  end.

(** The longest prefix without a newline: what a greedy [.+] takes. *)
Fixpoint until_newline (s : string) : string :=
  match s with
  | EmptyString => EmptyString
  | String c r => if is_newline c then EmptyString else String c (until_newline r)
  end.

(** [re.match(r"(\w+):(.+)", query)] and its two groups.  The match is
    anchored at the start only.  [\w+] is greedy and a colon is no word
    character, so the first group is the whole leading run of word
    characters, which a colon must follow; [.+] then takes at least one
    character, up to the first newline. *)
Definition re_match (query : string) : option (string * string) :=
  match span_word query with
  | (EmptyString, _) => None
  | (kind, String ":" rest) =>
      match until_newline rest with
      | EmptyString => None
      | term => Some (kind, term)
      end
  | _ => None
  end.

(** SQLite's [lower()] on one character, which is also the case folding of
    its [LIKE]: the letters A to Z only. *)
Definition sqlite_lower_char (c : ascii) : ascii :=
  if between 65 90 c then ascii_of_nat (code c + 32) else c.

(** SQLite's [lower()]: every character of the text is mapped, a NUL and
    what follows it included. *)
Fixpoint sqlite_lower (s : string) : string :=
  match s with
  | EmptyString => EmptyString
  | String c r => String (sqlite_lower_char c) (sqlite_lower r)
  end.

Definition is_nul (c : ascii) : bool := Ascii.eqb c zero.

(** A text as SQLite's pattern matcher reads it: up to its first NUL. *)
Fixpoint until_nul (s : string) : string :=
  match s with
  | EmptyString => EmptyString
  | String c r => if is_nul c then EmptyString else String c (until_nul r)
  end.

(** The pattern matcher of [LIKE] with no escape character: [%] stands for
    any run of characters, [_] for any one character, any other character
    for itself up to the case of the letters A to Z. *)
Fixpoint like_text (pattern text : string) : bool :=
  match pattern with
  | EmptyString =>
      match text with EmptyString => true | _ => false end
  | String p pattern' =>
      if Ascii.eqb p "%" then
        (fix skip (t : string) : bool :=
           (like_text pattern' t ||
            match t with
            | EmptyString => false
            | String _ t' => skip t'
            end)%bool) text
      else
        match text with
        | EmptyString => false
        | String c text' =>
            ((Ascii.eqb p "_"
              || Ascii.eqb (sqlite_lower_char p) (sqlite_lower_char c))
             && like_text pattern' text')%bool
        end
  end.

(** SQLite's [text LIKE pattern]: the matcher reads the pattern and the
    text as C strings, so each ends at its first NUL. *)
Definition like (pattern text : string) : bool :=
  like_text (until_nul pattern) (until_nul text).

(** The parts of a POSIX path between its slashes. *)
Fixpoint split_slash (s : string) : list string :=
  match s with
  | EmptyString => [EmptyString]
  | String c r =>
      if Ascii.eqb c "/" then EmptyString :: split_slash r
      else match split_slash r with
           | part :: parts => String c part :: parts
           | [] => [String c EmptyString]
           end
  end.

(** [pathlib.PurePath.name]: the last component of the path; empty parts
    and the parts [.] are no components, so the paths [.] and [/] have the
    empty name. *)
Definition path_name (path : string) : string :=
  last (filter (fun part => negb (String.eqb part EmptyString || String.eqb part "."))
               (split_slash path))
       EmptyString.

Fixpoint rfind_dot (i : nat) (s : string) : option nat :=
  match s with
  | EmptyString => None
  | String c r =>
      match rfind_dot (S i) r with
      | Some j => Some j
      | None => if Ascii.eqb c "." then Some i else None
      end
  end.

(** [pathlib.PurePath.stem]: the name without its last suffix; a dot that
    starts or ends the name starts no suffix. *)
Definition stem (path : string) : string :=
  let name := path_name path in
  match rfind_dot 0 name with
  | Some i =>
      if (Nat.ltb 0 i && Nat.ltb i (String.length name - 1))%bool
      then substring 0 i name
      else name
  | None => name
  end.

(** [json.dumps] of a list of texts, with its default separators and
    [ensure_ascii]: the quote and the backslash are escaped, and so is every
    character outside the range from the blank to the tilde, DEL (127)
    included. *)
Definition hex_digit (n : nat) : ascii :=
  if Nat.ltb n 10 then ascii_of_nat (48 + n) else ascii_of_nat (87 + n).

Definition dquote : ascii := ascii_of_nat 34.
Definition backslash : ascii := ascii_of_nat 92.

Definition json_char (c : ascii) : string :=
  let n := code c in
  if Nat.eqb n 34 then String backslash (String dquote EmptyString)
  else if Nat.eqb n 92 then "\\"
  else if Nat.eqb n 10 then "\n"
  else if Nat.eqb n 13 then "\r"
  else if Nat.eqb n 9 then "\t"
  else if Nat.eqb n 8 then "\b"
  else if Nat.eqb n 12 then "\f"
  else if (Nat.ltb n 32 || Nat.leb 127 n)%bool
       then "\u00" ++ String (hex_digit (Nat.div n 16))
                        (String (hex_digit (Nat.modulo n 16)) EmptyString)
  else String c EmptyString.

Fixpoint json_escape (s : string) : string :=
  match s with
  | EmptyString => EmptyString
  | String c r => json_char c ++ json_escape r
  end.

Definition json_string (s : string) : string :=
  String dquote (json_escape s ++ String dquote EmptyString).

Fixpoint json_items (l : list string) : string :=
  match l with
  | [] => EmptyString
  | [s] => json_string s
  | s :: r => json_string s ++ ", " ++ json_items r
  end.

Definition json_dumps (l : list string) : string :=
  "[" ++ json_items l ++ "]".

(** The text of one newline. *)
Definition newline : string := String "010" EmptyString.

(** [str(n)] of an integer. *)
Definition str_of_int (n : Z) : string := NilZero.string_of_int (Z.to_int n).

(** [str.upper] on one character, and [str.capitalize()]. *)
Definition upper_char (c : ascii) : ascii :=
  if between 97 122 c then ascii_of_nat (code c - 32) else c.

Definition capitalize (s : string) : string :=
  match s with
  | EmptyString => EmptyString
  | String c r => String (upper_char c) (lower r)
  end.

(** [text or default] for an optional text. *)
Definition or_else (text : option string) (default : string) : string :=
  match text with
  | Some (String c r) => String c r
  | _ => default
  end.

(** A [dict] with text keys, in the order of its [items()]:
    [d[key] = value] replaces the value of a key that is there, in place,
    and puts a new key last. *)
Fixpoint dict_set {V : Type} (key : string) (value : V) (d : list (string * V))
    : list (string * V) :=
  match d with
  | [] => [(key, value)]
  | (k, v) :: rest =>
      if String.eqb k key then (key, value) :: rest
      else (k, v) :: dict_set key value rest
  end.

(** [d.get(key)]. *)
Fixpoint dict_get {V : Type} (key : string) (d : list (string * V)) : option V :=
  match d with
  | [] => None
  | (k, v) :: rest => if String.eqb k key then Some v else dict_get key rest
  end.

End Py.

(** ** The catalog schema ([models/database.py]) *)

Module Database.

Record Project := {
  project_id : Z;
  project_name : string;
  project_root_path : string;
  project_created_at : Z;
  project_updated_at : Z
}.

Record Module_ := {
  mod_id : Z;
  mod_project_id : Z;
  mod_name : string;
  mod_path : string;
  mod_docstring : option string;
  mod_last_indexed : Z
}.

Record Function_ := {
  fn_id : Z;
  fn_module_id : Z;
  fn_class_id : option Z;
  fn_name : string;
  fn_docstring : option string;
  fn_lineno : Z;
  fn_end_lineno : Z;
  fn_args : option string;
  fn_decorators : option string;
  fn_return_annotation : option string
}.

Record Class_ := {
  cls_id : Z;
  cls_module_id : Z;
  cls_name : string;
  cls_docstring : option string;
  cls_lineno : Z;
  cls_end_lineno : Z;
  cls_base_classes : option string;
  cls_decorators : option string
}.

Record Import_ := {
  imp_id : Z;
  imp_module_id : Z;
  imp_module_name : string;
  imp_alias : option string;
  imp_is_from_import : bool;
  imp_parent_module : option string
}.

Record Variable_ := {
  var_id : Z;
  var_module_id : Z;
  var_name : string;
  var_lineno : Z;
  var_value : option string
}.

(** The six tables of the SQLite file. *)
Record Store := {
  projects : list Project;
  modules : list Module_;
  functions : list Function_;
  classes : list Class_;
  imports : list Import_;
  variables : list Variable_
}.

(** What [init_database] leaves in a new file. *)
Definition empty_store : Store :=
  {| projects := []; modules := []; functions := []; classes := [];
     imports := []; variables := [] |}.

(** The rowid of the next row of a table whose rowids are [ids]. *)
Definition next_id (ids : list Z) : Z := 1 + fold_right Z.max 0 ids.

Definition optZ_eqb (a b : option Z) : bool :=
  match a, b with
  | None, None => true
  | Some x, Some y => x =? y
  | _, _ => false
  end.

End Database.

(** ** The parsed-module description ([core/parser.py], the dataclasses) *)

Module Parser.

Record ImportInfo := {
  ii_module_name : string;
  ii_alias : option string;
  ii_is_from_import : bool;
  ii_parent_module : option string
}.

Record FunctionInfo := {
  fi_name : string;
  fi_docstring : option string;
  fi_lineno : Z;
  fi_end_lineno : Z;
  fi_args : list string;
  fi_decorators : list string;
  fi_return_annotation : option string
}.

Record ClassInfo := {
  ci_name : string;
  ci_docstring : option string;
  ci_lineno : Z;
  ci_end_lineno : Z;
  ci_methods : list FunctionInfo;
  ci_base_classes : list string;
  ci_decorators : list string
}.

(** [mi_path] is [str(path)]; [mi_variables] is the dict in the order of
    its [items()]. *)
Record ModuleInfo := {
  mi_path : string;
  mi_docstring : option string;
  mi_imports : list ImportInfo;
  mi_functions : list FunctionInfo;
  mi_classes : list ClassInfo;
  mi_variables : list (string * (Z * string))
}.

(** The property [ModuleInfo.module_name]. *)
Definition module_name (m : ModuleInfo) : string := Py.stem (mi_path m).

(** The nodes of an astroid module that [PyParser] tells apart, each with
    the attributes the parser reads; source text ([as_string()]) is given
    as text. *)
Inductive Target : Type :=
| AssignName (name : string)
| Name (name : string)
| OtherTarget.

Record FunctionDef := {
  fd_name : string;
  fd_doc : option string;
  fd_lineno : Z;
  fd_end_lineno : option Z;
  fd_args : list string;
  fd_decorators : option (list string);
  fd_returns : option string
}.

#[warnings="-register-all"]
Inductive Node : Type :=
| Import (names : list (string * option string))
| ImportFrom (modname : string) (names : list (string * option string))
| FunctionDefNode (f : FunctionDef)
| ClassDef (name : string) (doc : option string) (lineno : Z)
    (end_lineno : option Z) (body : list Node) (bases : list string)
    (decorators : option (list string))
| Assign (targets : list Target) (value : string) (lineno : Z)
| AnnAssign (target : Target) (annotation : string) (lineno : Z)
| OtherNode.

(** [node.doc or None] *)
Definition doc_or_none (doc : option string) : option string :=
  if Py.truthy doc then doc else None.

(** [node.end_lineno or node.lineno] *)
Definition end_or_lineno (end_lineno : option Z) (lineno : Z) : Z :=
  match end_lineno with
  | Some e => if e =? 0 then lineno else e
  | None => lineno
  end.

(** [[d.as_string() for d in node.decorators.nodes] if node.decorators else []] *)
Definition decorator_list (decorators : option (list string)) : list string :=
  match decorators with
  | Some l => l
  | None => []
  end.

Definition _parse_imports (body : list Node) : list ImportInfo :=
  flat_map
    (fun node =>
       match node with
       | Import names =>
           map (fun '(name, alias) =>
                  {| ii_module_name := name; ii_alias := alias;
                     ii_is_from_import := false; ii_parent_module := None |}) names
       | ImportFrom modname names =>
           map (fun '(name, alias) =>
                  {| ii_module_name := name; ii_alias := alias;
                     ii_is_from_import := true;
                     ii_parent_module := Some modname |}) names
       | _ => []
       end) body.

Definition _function_to_info (node : FunctionDef) : FunctionInfo :=
  {| fi_name := fd_name node;
     fi_docstring := doc_or_none (fd_doc node);
     fi_lineno := fd_lineno node;
     fi_end_lineno := end_or_lineno (fd_end_lineno node) (fd_lineno node);
     fi_args := fd_args node;
     fi_decorators := decorator_list (fd_decorators node);
     fi_return_annotation := fd_returns node |}.

Definition function_defs (body : list Node) : list FunctionDef :=
  flat_map (fun node => match node with FunctionDefNode f => [f] | _ => [] end) body.

Definition _parse_functions (body : list Node) : list FunctionInfo :=
  map _function_to_info (function_defs body).

Definition _parse_classes (body : list Node) : list ClassInfo :=
  flat_map
    (fun node =>
       match node with
       | ClassDef name doc lineno end_lineno class_body bases decorators =>
           [ {| ci_name := name;
                ci_docstring := doc_or_none doc;
                ci_lineno := lineno;
                ci_end_lineno := end_or_lineno end_lineno lineno;
                ci_methods := map _function_to_info (function_defs class_body);
                ci_base_classes := bases;
                ci_decorators := decorator_list decorators |} ]
       | _ => []
       end) body.

(** The bindings [_parse_variables] records, in source order: the
    [AssignName] targets of an assignment, and the [Name] target of an
    annotated assignment. *)
Definition bindings (body : list Node) : list (string * (Z * string)) :=
  flat_map
    (fun node =>
       match node with
       | Assign targets value lineno =>
           flat_map (fun target =>
                       match target with
                       | AssignName name => [(name, (lineno, value))]
                       | _ => []
                       end) targets
       | AnnAssign (Name name) annotation lineno => [(name, (lineno, annotation))]
       | _ => []
       end) body.

Definition _parse_variables (body : list Node) : list (string * (Z * string)) :=
  fold_left (fun variables binding => Py.dict_set (fst binding) (snd binding) variables)
    (bindings body) [].

(** The [try] block of [parse_file], on the module astroid parsed. *)
Definition parse_module (path : string) (doc : option string) (body : list Node)
    : ModuleInfo :=
  {| mi_path := path;
     mi_docstring := doc_or_none doc;
     mi_imports := _parse_imports body;
     mi_functions := _parse_functions body;
     mi_classes := _parse_classes body;
     mi_variables := _parse_variables body |}.

End Parser.

(** ** The indexer ([core/indexer.py]) *)

Module Indexer.
Import Database Parser.

Definition Exception := string.

Inductive outcome (A : Type) : Type :=
| Returned (a : A)
| Raised (e : Exception).
Arguments Returned {A} a.
Arguments Raised {A} e.

(** The session of one call: the store as committed, the store as the open
    transaction sees it, the number of statements sent and the number of
    clock readings taken. *)
Record Session := {
  durable : Store;
  work : Store;
  statements : nat;
  readings : nat
}.

Definition M (A : Type) : Type := Session -> Session * outcome A.

Definition ret {A} (a : A) : M A := fun s => (s, Returned a).

Definition bind {A B} (m : M A) (k : A -> M B) : M B :=
  fun s =>
    match m s with
    | (s', Returned a) => k a s'
    | (s', Raised e) => (s', Raised e)
    end.

Notation "x <- m ;; k" := (bind m (fun x => k))
  (at level 61, m at next level, right associativity).
Notation "m ;; k" := (bind m (fun _ => k))
  (at level 61, right associativity).

Fixpoint for_each {A} (xs : list A) (body : A -> M unit) : M unit :=
  match xs with
  | [] => ret tt
  | x :: rest => body x ;; for_each rest body
  end.

Definition get_work : M Store := fun s => (s, Returned (work s)).

Definition put_work (w : Store) : M unit :=
  fun s =>
    ({| durable := durable s; work := w;
        statements := statements s; readings := readings s |}, Returned tt).

Definition set_projects (w : Store) (l : list Project) : Store :=
  {| projects := l; modules := modules w; functions := functions w;
     classes := classes w; imports := imports w; variables := variables w |}.
Definition set_modules (w : Store) (l : list Module_) : Store :=
  {| projects := projects w; modules := l; functions := functions w;
     classes := classes w; imports := imports w; variables := variables w |}.
Definition set_functions (w : Store) (l : list Function_) : Store :=
  {| projects := projects w; modules := modules w; functions := l;
     classes := classes w; imports := imports w; variables := variables w |}.
Definition set_classes (w : Store) (l : list Class_) : Store :=
  {| projects := projects w; modules := modules w; functions := functions w;
     classes := l; imports := imports w; variables := variables w |}.
Definition set_imports (w : Store) (l : list Import_) : Store :=
  {| projects := projects w; modules := modules w; functions := functions w;
     classes := classes w; imports := l; variables := variables w |}.
Definition set_variables (w : Store) (l : list Variable_) : Store :=
  {| projects := projects w; modules := modules w; functions := functions w;
     classes := classes w; imports := imports w; variables := l |}.

(** [self.Session()]: the transaction opens on the committed store. *)
Definition open_session (db : Store) : Session :=
  {| durable := db; work := db; statements := 0; readings := 0 |}.

(** [session.rollback()]. *)
Definition rollback (s : Session) : Session :=
  {| durable := durable s; work := durable s;
     statements := statements s; readings := readings s |}.

Section PyIndexer.

(** [fault n] is the exception the store raises on the statement number [n]
    of the call, if it raises one; [clock n] is the clock reading number
    [n]; [import_time] is the clock at the import of the models, which the
    column default of [Module.last_indexed] holds. *)
Variable fault : nat -> option Exception.
Variable clock : nat -> Z.
Variable import_time : Z.

(** One round trip to the store. *)
Definition statement : M unit :=
  fun s =>
    let s' := {| durable := durable s; work := work s;
                 statements := S (statements s); readings := readings s |} in
    match fault (statements s) with
    | Some e => (s', Raised e)
    | None => (s', Returned tt)
    end.

(** [datetime.datetime.now(UTC)] and [datetime.datetime.utcnow()]. *)
Definition now : M Z :=
  fun s =>
    ({| durable := durable s; work := work s;
        statements := statements s; readings := S (readings s) |},
     Returned (clock (readings s))).

(** [session.flush()].  A row enters the working copy when it is added: the
    code reads no pending row before its flush, and every query and bulk
    delete flushes first, so each table sees its inserts and deletes in
    program order. *)
Definition flush : M unit := statement.

(** [session.commit()]. *)
Definition commit : M unit :=
  statement ;;
  fun s =>
    ({| durable := work s; work := work s;
        statements := statements s; readings := readings s |}, Returned tt).

(** [session.query(Project).filter_by(root_path=root_path).first()] *)
Definition query_project (root_path : string) : M (option Project) :=
  statement ;;
  w <- get_work ;;
  ret (find (fun p => String.eqb (project_root_path p) root_path) (projects w)).

(** [session.query(Module).filter_by(project_id=..., path=...).first()] *)
Definition query_module (project_id : Z) (path : string) : M (option Module_) :=
  statement ;;
  w <- get_work ;;
  ret (find (fun m => ((mod_project_id m =? project_id)
                       && String.eqb (mod_path m) path)%bool) (modules w)).

(** [Project(name=name, root_path=root_path)] and [session.add]; both time
    columns take their default, one clock reading each. *)
Definition add_project (name root_path : string) : M Project :=
  created <- now ;;
  updated <- now ;;
  w <- get_work ;;
  let p := {| project_id := next_id (map project_id (projects w));
              project_name := name;
              project_root_path := root_path;
              project_created_at := created;
              project_updated_at := updated |} in
  put_work (set_projects w (projects w ++ [p])) ;;
  ret p.

Definition add_module (project_id : Z) (module_info : ModuleInfo) : M Module_ :=
  w <- get_work ;;
  let m := {| mod_id := next_id (map mod_id (modules w));
              mod_project_id := project_id;
              mod_name := module_name module_info;
              mod_path := mi_path module_info;
              mod_docstring := mi_docstring module_info;
              mod_last_indexed := import_time |} in
  put_work (set_modules w (modules w ++ [m])) ;;
  ret m.

(** The four bulk deletes of [_index_module].  [Query.delete()] sends one
    DELETE statement for the rows the filter selects and nothing else: no
    relationship is followed, the schema declares no ON DELETE action, and
    the engine is created without foreign-key enforcement. *)
Definition delete_toplevel_functions (module_id : Z) : M unit :=
  statement ;;
  w <- get_work ;;
  put_work (set_functions w
    (filter (fun f => negb ((fn_module_id f =? module_id)
                            && optZ_eqb (fn_class_id f) None)) (functions w))).

Definition delete_classes (module_id : Z) : M unit :=
  statement ;;
  w <- get_work ;;
  put_work (set_classes w
    (filter (fun c => negb (cls_module_id c =? module_id)) (classes w))).

Definition delete_imports (module_id : Z) : M unit :=
  statement ;;
  w <- get_work ;;
  put_work (set_imports w
    (filter (fun i => negb (imp_module_id i =? module_id)) (imports w))).

Definition delete_variables (module_id : Z) : M unit :=
  statement ;;
  w <- get_work ;;
  put_work (set_variables w
    (filter (fun v => negb (var_module_id v =? module_id)) (variables w))).

Definition _index_import (module_id : Z) (import_info : ImportInfo) : M Import_ :=
  w <- get_work ;;
  let import_db := {| imp_id := next_id (map imp_id (imports w));
                      imp_module_id := module_id;
                      imp_module_name := ii_module_name import_info;
                      imp_alias := ii_alias import_info;
                      imp_is_from_import := ii_is_from_import import_info;
                      imp_parent_module := ii_parent_module import_info |} in
  put_work (set_imports w (imports w ++ [import_db])) ;;
  ret import_db.

Definition _index_function (module_id : Z) (class_id : option Z)
    (func_info : FunctionInfo) : M Function_ :=
  w <- get_work ;;
  let function := {| fn_id := next_id (map fn_id (functions w));
                     fn_module_id := module_id;
                     fn_class_id := class_id;
                     fn_name := fi_name func_info;
                     fn_docstring := fi_docstring func_info;
                     fn_lineno := fi_lineno func_info;
                     fn_end_lineno := fi_end_lineno func_info;
                     fn_args := Some (Py.json_dumps (fi_args func_info));
                     fn_decorators := Some (Py.json_dumps (fi_decorators func_info));
                     fn_return_annotation := fi_return_annotation func_info |} in
  put_work (set_functions w (functions w ++ [function])) ;;
  ret function.

Definition _index_class (module_id : Z) (class_info : ClassInfo) : M Class_ :=
  w <- get_work ;;
  let class_db := {| cls_id := next_id (map cls_id (classes w));
                     cls_module_id := module_id;
                     cls_name := ci_name class_info;
                     cls_docstring := ci_docstring class_info;
                     cls_lineno := ci_lineno class_info;
                     cls_end_lineno := ci_end_lineno class_info;
                     cls_base_classes := Some (Py.json_dumps (ci_base_classes class_info));
                     cls_decorators := Some (Py.json_dumps (ci_decorators class_info)) |} in
  put_work (set_classes w (classes w ++ [class_db])) ;;
  flush ;;
  for_each (ci_methods class_info)
    (fun method_info =>
       _index_function module_id (Some (cls_id class_db)) method_info ;; ret tt) ;;
  ret class_db.

Definition _index_variable (module_id : Z) (name : string) (lineno : Z)
    (value : string) : M Variable_ :=
  w <- get_work ;;
  let variable := {| var_id := next_id (map var_id (variables w));
                     var_module_id := module_id;
                     var_name := name;
                     var_lineno := lineno;
                     var_value := Some value |} in
  put_work (set_variables w (variables w ++ [variable])) ;;
  ret variable.

(** [module.last_indexed = ...]: the row of this primary key is updated. *)
Definition stamp (module_id : Z) (t : Z) (m : Module_) : Module_ :=
  if mod_id m =? module_id
  then {| mod_id := mod_id m; mod_project_id := mod_project_id m;
          mod_name := mod_name m; mod_path := mod_path m;
          mod_docstring := mod_docstring m; mod_last_indexed := t |}
  else m.

Definition set_last_indexed (module : Module_) : M Module_ :=
  t <- now ;;
  w <- get_work ;;
  put_work (set_modules w (map (stamp (mod_id module) t) (modules w))) ;;
  ret (stamp (mod_id module) t module).

Definition _index_module (project_id : Z) (module_info : ModuleInfo) : M Module_ :=
  found <- query_module project_id (mi_path module_info) ;;
  module <- match found with
            | Some module =>
                delete_toplevel_functions (mod_id module) ;;
                delete_classes (mod_id module) ;;
                delete_imports (mod_id module) ;;
                delete_variables (mod_id module) ;;
                ret module
            | None =>
                module <- add_module project_id module_info ;;
                flush ;;
                ret module
            end ;;
  for_each (mi_imports module_info)
    (fun import_info => _index_import (mod_id module) import_info ;; ret tt) ;;
  for_each (mi_variables module_info)
    (fun item =>
       let '(name, (lineno, value)) := item in
       _index_variable (mod_id module) name lineno value ;; ret tt) ;;
  for_each (mi_classes module_info)
    (fun class_info => _index_class (mod_id module) class_info ;; ret tt) ;;
  for_each (mi_functions module_info)
    (fun func_info => _index_function (mod_id module) None func_info ;; ret tt) ;;
  set_last_indexed module.

(** The [try] block of [index_project] down to [session.commit()]. *)
Definition index_project_transaction (name root_path : string)
    (modules : list ModuleInfo) : M Project :=
  found <- query_project root_path ;;
  project <- match found with
             | Some project => ret project
             | None =>
                 project <- add_project name root_path ;;
                 flush ;;
                 ret project
             end ;;
  for_each modules
    (fun module_info => _index_module (project_id project) module_info ;; ret tt) ;;
  commit ;;
  ret project.

(** An attribute of a row read after the commit.  The commit expires every
    row the session holds ([expire_on_commit], the default of
    [sessionmaker]), so the first attribute read afterwards loads the row
    again: one SELECT, in a transaction of its own.  The row is the one the
    session loaded or added and committed. *)
Definition load_expired (project : Project) : M Project :=
  statement ;;
  ret project.

(** The [try] block of [index_project]: the transaction, and
    [return project.id], which reads the id of the expired row. *)
Definition index_project_body (name root_path : string)
    (modules : list ModuleInfo) : M Z :=
  project <- index_project_transaction name root_path modules ;;
  project <- load_expired project ;;
  ret (project_id project).

(** [index_project]: the store the call leaves behind, and what the call
    returns or raises.  The [except] clause rolls back the transaction that
    is open, which is not the one already committed, and raises the
    exception it caught; [session.close()] leaves the store as it is. *)
Definition index_project (name root_path : string) (modules : list ModuleInfo)
    (db : Store) : Store * outcome Z :=
  match index_project_body name root_path modules (open_session db) with
  | (s, Returned project_id) => (durable s, Returned project_id)
  | (s, Raised e) => (durable (rollback s), Raised e)
  end.

End PyIndexer.

(** A store that raises nothing. *)
Definition no_fault : nat -> option Exception := fun _ => None.

End Indexer.

(** ** The query engine ([core/search.py]) *)

Module Search.
Import Database.

(** *** SQL expressions *)

(** [func.lower(column)]: NULL for a NULL column. *)
Definition sql_lower (column : option string) : option string :=
  option_map Py.sqlite_lower column.

(** [expression.like(pattern)]: NULL for a NULL operand. *)
Definition sql_like (expression : option string) (pattern : string) : option bool :=
  option_map (Py.like pattern) expression.

Definition sql_or (a b : option bool) : option bool :=
  match a, b with
  | Some true, _ => Some true
  | _, Some true => Some true
  | Some false, Some false => Some false
  | _, _ => None
  end.

Definition sql_and (a b : option bool) : option bool :=
  match a, b with
  | Some false, _ => Some false
  | _, Some false => Some false
  | Some true, Some true => Some true
  | _, _ => None
  end.

(** A WHERE clause keeps the rows whose condition is true; false and NULL
    both drop the row. *)
Definition holds (condition : option bool) : bool :=
  match condition with
  | Some true => true
  | _ => false
  end.

(** [.limit(limit)]; SQLite reads a negative LIMIT as no limit. *)
Definition sql_limit {A} (limit : Z) (rows : list A) : list A :=
  if limit <? 0 then rows else firstn (Z.to_nat limit) rows.

(** [base_filters]: [Module.project_id == project_id] when a project is
    given, nothing otherwise. *)
Definition base_filters (project_id : option Z) (m : Module_) : option bool :=
  match project_id with
  | Some p => Some (mod_project_id m =? p)
  | None => Some true
  end.

(** [.join(Module)]: each row with the Module row its [module_id] names;
    a row that names none is not in the join. *)
Definition join_module {A} (module_id : A -> Z) (db : Store) (rows : list A)
    : list (A * Module_) :=
  flat_map (fun r =>
              match find (fun m => mod_id m =? module_id r) (modules db) with
              | Some m => [(r, m)]
              | None => []
              end) rows.

(** [Module.docstring is None], [Class.docstring is None] and the like in
    [search.py] test the mapped attribute of the model class, an object of
    the mapper, and no row: the test is false whatever the table holds. *)
Definition attribute_is_none : bool := false.

(** *** Result shapes *)

Record ModuleHit := {
  mh_id : Z; mh_name : string; mh_path : string; mh_docstring : option string
}.

Record ClassHit := {
  ch_id : Z; ch_name : string; ch_module_name : string; ch_path : string;
  ch_lineno : Z; ch_docstring : option string
}.

Record FunctionHit := {
  fh_id : Z; fh_name : string; fh_module_name : string;
  fh_class_name : option string; fh_path : string; fh_lineno : Z;
  fh_docstring : option string
}.

Record VariableHit := {
  vh_id : Z; vh_name : string; vh_module_name : string; vh_path : string;
  vh_lineno : Z; vh_value : option string
}.

Record Results := {
  r_modules : list ModuleHit;
  r_classes : list ClassHit;
  r_functions : list FunctionHit;
  r_variables : list VariableHit
}.

(** [_truncate_text(text, max_length)] *)
Definition _truncate_text (text : option string) (max_length : Z) : option string :=
  if negb (Py.truthy text) then None
  else match text with
       | None => None
       | Some t =>
           if Py.len t <=? max_length then Some t
           else Some (Py.slice_to t max_length ++ "...")
       end.

Definition module_hit (m : Module_) : ModuleHit :=
  {| mh_id := mod_id m; mh_name := mod_name m; mh_path := mod_path m;
     mh_docstring := _truncate_text (mod_docstring m) 200 |}.

Definition class_hit (row : Class_ * Module_) : ClassHit :=
  let (c, m) := row in
  {| ch_id := cls_id c; ch_name := cls_name c; ch_module_name := mod_name m;
     ch_path := mod_path m; ch_lineno := cls_lineno c;
     ch_docstring := _truncate_text (cls_docstring c) 200 |}.

(** The class name of a function row: looked up when [function.class_id] is
    truthy, that is neither NULL nor 0. *)
Definition class_name_of (db : Store) (f : Function_) : option string :=
  match fn_class_id f with
  | None => None
  | Some class_id =>
      if class_id =? 0 then None
      else option_map cls_name (find (fun c => cls_id c =? class_id) (classes db))
  end.

Definition function_hit (db : Store) (row : Function_ * Module_) : FunctionHit :=
  let (f, m) := row in
  {| fh_id := fn_id f; fh_name := fn_name f; fh_module_name := mod_name m;
     fh_class_name := class_name_of db f; fh_path := mod_path m;
     fh_lineno := fn_lineno f;
     fh_docstring := _truncate_text (fn_docstring f) 200 |}.

Definition variable_hit (row : Variable_ * Module_) : VariableHit :=
  let (v, m) := row in
  {| vh_id := var_id v; vh_name := var_name v; vh_module_name := mod_name m;
     vh_path := mod_path m; vh_lineno := var_lineno v;
     vh_value := _truncate_text (var_value v) 100 |}.

(** The module-category result synthesized for an Import row. *)
Definition import_hit (row : Import_ * Module_) : ModuleHit :=
  let (i, m) := row in
  let name :=
    if imp_is_from_import i
    then "from " ++ Py.fmt (imp_parent_module i) ++ " import " ++ imp_module_name i
    else "import " ++ imp_module_name i in
  let name :=
    if Py.truthy (imp_alias i) then name ++ " as " ++ Py.fmt (imp_alias i) else name in
  {| mh_id := imp_module_id i; mh_name := name; mh_path := mod_path m;
     mh_docstring := Some ("Import in " ++ mod_name m) |}.

Definition no_results : Results :=
  {| r_modules := []; r_classes := []; r_functions := []; r_variables := [] |}.

(** *** Free-text search *)

Definition free_module_condition (query_lower : string) (m : Module_) : option bool :=
  sql_or (sql_like (sql_lower (Some (mod_name m))) query_lower)
         (if negb attribute_is_none
          then sql_like (sql_lower (mod_docstring m)) query_lower
          else Some false).

Definition free_class_condition (query_lower : string) (c : Class_) : option bool :=
  if attribute_is_none
  then sql_like (sql_lower (Some (cls_name c))) query_lower
  else sql_or (sql_like (sql_lower (Some (cls_name c))) query_lower)
              (sql_like (sql_lower (cls_docstring c)) query_lower).

Definition free_function_condition (query_lower : string) (f : Function_) : option bool :=
  sql_or (sql_like (sql_lower (Some (fn_name f))) query_lower)
         (if negb attribute_is_none
          then sql_like (sql_lower (fn_docstring f)) query_lower
          else Some false).

Definition name_condition (pattern : string) (name : string) : option bool :=
  sql_like (sql_lower (Some name)) pattern.

(** The four statements of a search, each a filter and a limit. *)
Definition select_modules (db : Store) (condition : Module_ -> option bool)
    (project_id : option Z) (limit : Z) : list ModuleHit :=
  map module_hit
    (sql_limit limit
       (filter (fun m => holds (sql_and (condition m) (base_filters project_id m)))
               (modules db))).

Definition select_joined {A} (module_id : A -> Z) (table : list A) (db : Store)
    (condition : A -> option bool) (project_id : option Z) (limit : Z)
    : list (A * Module_) :=
  sql_limit limit
    (filter (fun row => holds (sql_and (condition (fst row))
                                       (base_filters project_id (snd row))))
            (join_module module_id db table)).

Definition _free_text_search (db : Store) (query : string)
    (project_id : option Z) (limit : Z) : Results :=
  let query_lower := "%" ++ Py.lower query ++ "%" in
  {| r_modules :=
       select_modules db (free_module_condition query_lower) project_id limit;
     r_classes :=
       map class_hit
         (select_joined cls_module_id (classes db) db
            (free_class_condition query_lower) project_id limit);
     r_functions :=
       map (function_hit db)
         (select_joined fn_module_id (functions db) db
            (free_function_condition query_lower) project_id limit);
     r_variables :=
       map variable_hit
         (select_joined var_module_id (variables db) db
            (fun v => name_condition query_lower (var_name v)) project_id limit) |}.

(** *** Structured search *)

Definition import_condition (pattern : string) (i : Import_) : option bool :=
  sql_or (sql_like (sql_lower (Some (imp_module_name i))) pattern)
         (if negb attribute_is_none
          then sql_like (sql_lower (imp_parent_module i)) pattern
          else Some false).

Definition doc_condition (pattern : string) (docstring : option string) : option bool :=
  if negb attribute_is_none
  then sql_like (sql_lower docstring) pattern
  else Some false.

Definition _structured_search (db : Store) (query : string)
    (project_id : option Z) (limit : Z) : Results :=
  match Py.re_match query with
  | None => _free_text_search db query project_id limit
  | Some (search_type, search_term) =>
      let search_term := Py.strip search_term in
      let search_term_lower := "%" ++ Py.lower search_term ++ "%" in
      if String.eqb search_type "module" then
        {| r_modules :=
             select_modules db (fun m => name_condition search_term_lower (mod_name m))
               project_id limit;
           r_classes := []; r_functions := []; r_variables := [] |}
      else if String.eqb search_type "class" then
        {| r_modules := [];
           r_classes :=
             map class_hit
               (select_joined cls_module_id (classes db) db
                  (fun c => name_condition search_term_lower (cls_name c))
                  project_id limit);
           r_functions := []; r_variables := [] |}
      else if (String.eqb search_type "function" || String.eqb search_type "method")%bool then
        {| r_modules := []; r_classes := [];
           r_functions :=
             map (function_hit db)
               (select_joined fn_module_id (functions db) db
                  (fun f => name_condition search_term_lower (fn_name f))
                  project_id limit);
           r_variables := [] |}
      else if (String.eqb search_type "var" || String.eqb search_type "variable")%bool then
        {| r_modules := []; r_classes := []; r_functions := [];
           r_variables :=
             map variable_hit
               (select_joined var_module_id (variables db) db
                  (fun v => name_condition search_term_lower (var_name v))
                  project_id limit) |}
      else if String.eqb search_type "import" then
        {| r_modules :=
             map import_hit
               (select_joined imp_module_id (imports db) db
                  (import_condition search_term_lower) project_id limit);
           r_classes := []; r_functions := []; r_variables := [] |}
      else if (String.eqb search_type "doc" || String.eqb search_type "docstring")%bool then
        {| r_modules :=
             select_modules db
               (fun m => doc_condition search_term_lower (mod_docstring m))
               project_id limit;
           r_classes :=
             map class_hit
               (select_joined cls_module_id (classes db) db
                  (fun c => doc_condition search_term_lower (cls_docstring c))
                  project_id limit);
           r_functions :=
             map (function_hit db)
               (select_joined fn_module_id (functions db) db
                  (fun f => doc_condition search_term_lower (fn_docstring f))
                  project_id limit);
           r_variables := [] |}
      else _free_text_search db search_term project_id limit
  end.

Definition search_code (db : Store) (query : string) (project_id : option Z)
    (limit : Z) : Results :=
  if Py.contains ":" query
  then _structured_search db query project_id limit
  else _free_text_search db query project_id limit.

(** The kinds [_structured_search] has a branch for. *)
Definition recognized_kinds : list string :=
  ["module"; "class"; "function"; "method"; "var"; "variable"; "import";
   "doc"; "docstring"].

(** *** File view *)

(** What an element carries besides type, name and line: a function, class
    or method has [end_lineno] and [docstring], a variable has [value]. *)
Inductive Detail : Type :=
| Documented (end_lineno : Z) (docstring : option string)
| Valued (value : option string).

Record Element := {
  el_type : string;
  el_name : string;
  el_lineno : Z;
  el_detail : Detail
}.

(** [elements.sort(key=lineno)].  [list.sort] is stable, and the stable
    ascending arrangement of a list is unique ([stable_sort_unique] below),
    so inserting each element before the first one that does not precede it
    gives the list that [list.sort] gives. *)
Fixpoint insert_by_lineno (e : Element) (l : list Element) : list Element :=
  match l with
  | [] => [e]
  | x :: rest =>
      if el_lineno e <=? el_lineno x then e :: l
      else x :: insert_by_lineno e rest
  end.

Definition sort_by_lineno (l : list Element) : list Element :=
  fold_right insert_by_lineno [] l.

Definition function_element (f : Function_) : Element :=
  {| el_type := "function"; el_name := fn_name f; el_lineno := fn_lineno f;
     el_detail := Documented (fn_end_lineno f) (fn_docstring f) |}.

Definition class_element (c : Class_) : Element :=
  {| el_type := "class"; el_name := cls_name c; el_lineno := cls_lineno c;
     el_detail := Documented (cls_end_lineno c) (cls_docstring c) |}.

Definition method_element (c : Class_) (f : Function_) : Element :=
  {| el_type := "method"; el_name := cls_name c ++ "." ++ fn_name f;
     el_lineno := fn_lineno f;
     el_detail := Documented (fn_end_lineno f) (fn_docstring f) |}.

Definition variable_element (v : Variable_) : Element :=
  {| el_type := "variable"; el_name := var_name v; el_lineno := var_lineno v;
     el_detail := Valued (var_value v) |}.

(** The [elements] list of [get_file_content] before it is sorted. *)
Definition collect_elements (db : Store) (module : Module_) : list Element :=
  map function_element
    (filter (fun f => ((fn_module_id f =? mod_id module)
                       && optZ_eqb (fn_class_id f) None)%bool) (functions db))
  ++ flat_map
       (fun c =>
          class_element c
          :: map (method_element c)
               (filter (fun f => optZ_eqb (fn_class_id f) (Some (cls_id c)))
                       (functions db)))
       (filter (fun c => cls_module_id c =? mod_id module) (classes db))
  ++ map variable_element
       (filter (fun v => var_module_id v =? mod_id module) (variables db)).

Section FileSystem.

(** [open(path).read()]: the text of the file, or the exception raised. *)
Variable read_text : string -> string + string.

(** [get_file_content]: the lines printed, and the value returned ([None]
    for not found). *)
Definition get_file_content (db : Store) (path : string)
    : list string * option (string * list Element) :=
  match find (fun m => String.eqb (mod_path m) path) (modules db) with
  | None => ([], None)
  | Some module =>
      let (printed, content) :=
        match read_text path with
        | inl text => ([], text)
        | inr e => (["Error reading file " ++ path ++ ": " ++ e],
                    "Error reading file: " ++ e)
        end in
      (printed, Some (content, sort_by_lineno (collect_elements db module)))
  end.

End FileSystem.

(** *** Projects *)

Record ProjectEntry := {
  pe_id : Z;
  pe_name : string;
  pe_root_path : string;
  pe_file_count : Z;
  pe_created_at : string;
  pe_updated_at : string
}.

Section Isoformat.

(** [datetime.isoformat()] of a time stamp. *)
Variable isoformat : Z -> string.

(** [select(func.count()).select_from(Module).filter_by(project_id=...)] *)
Definition file_count (db : Store) (project_id : Z) : Z :=
  Z.of_nat (List.length (filter (fun m => mod_project_id m =? project_id) (modules db))).

Definition project_entry (db : Store) (file_count_of : Z) (project : Project)
    : ProjectEntry :=
  {| pe_id := project_id project;
     pe_name := project_name project;
     pe_root_path := project_root_path project;
     pe_file_count := file_count db file_count_of;
     pe_created_at := isoformat (project_created_at project);
     pe_updated_at := isoformat (project_updated_at project) |}.

Definition get_projects (db : Store) : list ProjectEntry :=
  map (fun project => project_entry db (project_id project) project) (projects db).

End Isoformat.

End Search.

(** ** The tool server ([server.py]) *)

Module Server.
Import Database Search.

(** An entry of the formatted results; [fo_line] is the line of
    [location], which a module entry does not have. *)
Record Formatted := {
  fo_type : string;
  fo_name : string;
  fo_path : string;
  fo_line : option Z;
  fo_description : string
}.

Definition format_module (m : ModuleHit) : Formatted :=
  {| fo_type := "module"; fo_name := mh_name m; fo_path := mh_path m;
     fo_line := None;
     fo_description := Py.or_else (mh_docstring m) ("Module " ++ mh_name m) |}.

Definition format_class (c : ClassHit) : Formatted :=
  {| fo_type := "class"; fo_name := ch_name c; fo_path := ch_path c;
     fo_line := Some (ch_lineno c);
     fo_description :=
       Py.or_else (ch_docstring c)
         ("Class " ++ ch_name c ++ " in " ++ ch_module_name c) |}.

Definition format_function (f : FunctionHit) : Formatted :=
  let (name, type_) :=
    if Py.truthy (fh_class_name f)
    then (Py.fmt (fh_class_name f) ++ "." ++ fh_name f, "method")
    else (fh_name f, "function") in
  {| fo_type := type_; fo_name := name; fo_path := fh_path f;
     fo_line := Some (fh_lineno f);
     fo_description :=
       Py.or_else (fh_docstring f)
         (Py.capitalize type_ ++ " " ++ name ++ " in " ++ fh_module_name f) |}.

Definition format_variable (v : VariableHit) : Formatted :=
  {| fo_type := "variable"; fo_name := vh_name v; fo_path := vh_path v;
     fo_line := Some (vh_lineno v);
     fo_description := "Variable " ++ vh_name v ++ " = " ++ Py.fmt (vh_value v) |}.

Definition _format_search_results (results : Results) : list Formatted :=
  map format_module (r_modules results)
  ++ map format_class (r_classes results)
  ++ map format_function (r_functions results)
  ++ map format_variable (r_variables results).

(** The tool [search_code]: the query and the formatted results of a
    search with the default limit. *)
Definition search_code_tool (db : Store) (query : string) (project_id : option Z)
    : string * list Formatted :=
  (query, _format_search_results (search_code db query project_id 20)).

(** The tool [get_file_content]: an error text, or path, content and
    elements. *)
Definition get_file_content_tool (read_text : string -> string + string)
    (db : Store) (path : string) : string + (string * string * list Element) :=
  match snd (get_file_content read_text db path) with
  | None => inl ("File not found or not indexed: " ++ path)
  | Some (content, elements) => inr (path, content, elements)
  end.

(** The resource [pycodex://project/{project_id}]: an error text, or the
    entry of the project. *)
Definition get_project (isoformat : Z -> string) (db : Store) (project_id : Z)
    : string + ProjectEntry :=
  match find (fun p => Database.project_id p =? project_id) (projects db) with
  | None => inl ("Project not found: " ++ Py.str_of_int project_id)
  | Some project => inr (project_entry isoformat db project_id project)
  end.

End Server.

(** ** The command line ([cli.py]) *)

Module Cli.
Import Database Search.

(** What [console.print] is given. *)
Inductive Printed : Type :=
| Line (text : string)
| Panel (content title : string)
| Table (rows : list (string * string * string * string)).

(** [element.get("docstring", "")] and [element.get("value", "")]: the
    value of the key, which may be [None], or the empty text when the
    element has no such key. *)
Definition element_info (e : Element) : option string :=
  if (String.eqb (el_type e) "function" || String.eqb (el_type e) "method"
      || String.eqb (el_type e) "class")%bool then
    match el_detail e with
    | Documented _ docstring => docstring
    | Valued _ => Some EmptyString
    end
  else if String.eqb (el_type e) "variable" then
    match el_detail e with
    | Valued value => value
    | Documented _ _ => Some EmptyString
    end
  else Some EmptyString.

(** [info[:50] + ("..." if info and len(info) > 50 else "")]; slicing
    [None] raises a [TypeError]. *)
Definition info_cell (info : option string) : string + string :=
  match info with
  | None => inr "'NoneType' object is not subscriptable"
  | Some text =>
      inl (Py.slice_to text 50
           ++ (if (Py.truthy (Some text) && (50 <? Py.len text))%bool
               then "..." else EmptyString))
  end.

(** The rows added to the table until an element raises. *)
Fixpoint table_rows (elements : list Element)
    : list (string * string * string * string) + string :=
  match elements with
  | [] => inl []
  | e :: rest =>
      match info_cell (element_info e) with
      | inr error => inr error
      | inl cell =>
          match table_rows rest with
          | inr error => inr error
          | inl rows =>
              inl ((Py.capitalize (el_type e), el_name e,
                    Py.str_of_int (el_lineno e), cell) :: rows)
          end
      end
  end.

Section View.

(** [open(path).read()], and [str(pathlib.Path(path).resolve())]. *)
Variable read_text : string -> string + string.
Variable resolve : string -> string.

(** The command [view]: what it prints, the line printed by
    [get_file_content] on a failed read included. *)
Definition view (db : Store) (path : string) : list Printed :=
  let (printed, result) := get_file_content read_text db (resolve path) in
  map Line printed
  ++ match result with
     | None => [Line ("[bold red]File not found or not indexed: " ++ path ++ "[/]")]
     | Some (content, elements) =>
         Panel content ("File: " ++ path)
         :: match elements with
            | [] => []
            | _ =>
                Line (Py.newline ++ "[bold green]File Elements:[/]" ++ Py.newline)
                :: match table_rows elements with
                   | inl rows => [Table rows]
                   | inr error => [Line ("[bold red]Error viewing file:[/] " ++ error)]
                   end
            end
     end.

End View.

End Cli.

(** ** Predicates used to state the properties *)

Module Props.
Import Database Indexer Search.

(** A non-empty text of word characters: what the group [(\w+)] can be. *)
Fixpoint all_word (s : string) : bool :=
  match s with
  | EmptyString => true
  | String c r => (Py.is_word c && all_word r)%bool
  end.

Definition is_kind (s : string) : bool :=
  match s with
  | EmptyString => false
  | _ => all_word s
  end.

(** A non-empty text without a newline: what the group [(.+)] can be. *)
Fixpoint no_newline (s : string) : bool :=
  match s with
  | EmptyString => true
  | String c r => (negb (Py.is_newline c) && no_newline r)%bool
  end.

Definition is_term (s : string) : bool :=
  match s with
  | EmptyString => false
  | _ => no_newline s
  end.

(** A text of [n] copies of a character. *)
Fixpoint replicate (n : nat) (c : ascii) : string :=
  match n with
  | O => EmptyString
  | S k => String c (replicate k c)
  end.

(** Ascending line numbers. *)
Definition lineno_le (a b : Element) : Prop := el_lineno a <= el_lineno b.

(** The elements of a list that sit on line [k], in their order. *)
Definition on_line (k : Z) (l : list Element) : list Element :=
  filter (fun e => el_lineno e =? k) l.

(** A Module row without its time stamp. *)
Definition module_identity (m : Module_) : Z * Z * string * string * option string :=
  (mod_id m, mod_project_id m, mod_name m, mod_path m, mod_docstring m).

(** The match of a name, and of an optional docstring that matches only
    when it is there. *)
Definition name_matches (pattern name : string) : bool :=
  Py.like pattern (Py.sqlite_lower name).

Definition docstring_matches (pattern : string) (docstring : option string) : bool :=
  match docstring with
  | None => false
  | Some d => Py.like pattern (Py.sqlite_lower d)
  end.

Definition in_project (project_id : option Z) (m : Module_) : bool :=
  match project_id with
  | Some p => mod_project_id m =? p
  | None => true
  end.

(** [keeps R a]: whatever [a] does, returning or raising, the session it
    leaves is related by [R] to the session it found. *)
Definition keeps {A} (R : Session -> Session -> Prop) (a : M A) : Prop :=
  forall s s' r, a s = (s', r) -> R s s'.

(** The relation of two sessions with the same value of [f]. *)
Definition same {B} (f : Session -> B) (s s' : Session) : Prop := f s' = f s.

(** An action, as a function of the faults of the store, is [faithful]
    when it returns if the store raises nothing; when it returns, it did
    what it does without faults and none of the statements it sent met a
    fault; and when it raises, it raises the fault of the last statement it
    sent, the first fault any of its statements met, and that statement is
    one the action sends when the store raises nothing. *)
Definition faithful {A} (a : (nat -> option Exception) -> M A) : Prop :=
  forall fault s,
    (exists x, snd (a no_fault s) = Returned x)
    /\ (statements s <= statements (fst (a fault s)))%nat
    /\ match snd (a fault s) with
       | Returned _ =>
           a no_fault s = a fault s
           /\ forall m, (statements s <= m < statements (fst (a fault s)))%nat ->
                        fault m = None
       | Raised e =>
           exists n,
             statements (fst (a fault s)) = S n
             /\ (statements s <= n < statements (fst (a no_fault s)))%nat
             /\ fault n = Some e
             /\ forall m, (statements s <= m < n)%nat -> fault m = None
       end.

(** What the operations on the rows of one module leave alone: the
    Project and Module tables, the clock and the committed store. *)
Definition outside_children (s : Session) : list Project * list Module_ * nat * Store :=
  (projects (work s), modules (work s), readings s, durable s).

(** What the indexing of a module leaves alone. *)
Definition outside_modules (s : Session) : list Project * Store :=
  (projects (work s), durable s).

(** The rows of a module in each child table. *)
Definition functions_of (module_id : Z) (db : Store) : list Function_ :=
  filter (fun f => fn_module_id f =? module_id) (functions db).

Definition classes_of (module_id : Z) (db : Store) : list Class_ :=
  filter (fun c => cls_module_id c =? module_id) (classes db).

Definition imports_of (module_id : Z) (db : Store) : list Import_ :=
  filter (fun i => imp_module_id i =? module_id) (imports db).

Definition variables_of (module_id : Z) (db : Store) : list Variable_ :=
  filter (fun v => var_module_id v =? module_id) (variables db).

(** *** The writes of [_index_module] as functions on the store *)

Definition import_row (id module_id : Z) (info : Parser.ImportInfo) : Import_ :=
  {| imp_id := id; imp_module_id := module_id;
     imp_module_name := Parser.ii_module_name info;
     imp_alias := Parser.ii_alias info;
     imp_is_from_import := Parser.ii_is_from_import info;
     imp_parent_module := Parser.ii_parent_module info |}.

Definition variable_row (id module_id : Z) (item : string * (Z * string)) : Variable_ :=
  {| var_id := id; var_module_id := module_id; var_name := fst item;
     var_lineno := fst (snd item); var_value := Some (snd (snd item)) |}.

Definition function_row (id module_id : Z) (class_id : option Z)
    (info : Parser.FunctionInfo) : Function_ :=
  {| fn_id := id; fn_module_id := module_id; fn_class_id := class_id;
     fn_name := Parser.fi_name info;
     fn_docstring := Parser.fi_docstring info;
     fn_lineno := Parser.fi_lineno info;
     fn_end_lineno := Parser.fi_end_lineno info;
     fn_args := Some (Py.json_dumps (Parser.fi_args info));
     fn_decorators := Some (Py.json_dumps (Parser.fi_decorators info));
     fn_return_annotation := Parser.fi_return_annotation info |}.

Definition class_row (id module_id : Z) (info : Parser.ClassInfo) : Class_ :=
  {| cls_id := id; cls_module_id := module_id;
     cls_name := Parser.ci_name info;
     cls_docstring := Parser.ci_docstring info;
     cls_lineno := Parser.ci_lineno info;
     cls_end_lineno := Parser.ci_end_lineno info;
     cls_base_classes := Some (Py.json_dumps (Parser.ci_base_classes info));
     cls_decorators := Some (Py.json_dumps (Parser.ci_decorators info)) |}.

Definition insert_import (module_id : Z) (w : Store) (info : Parser.ImportInfo) : Store :=
  set_imports w
    (imports w ++ [import_row (next_id (map imp_id (imports w))) module_id info]).

Definition insert_variable (module_id : Z) (w : Store)
    (item : string * (Z * string)) : Store :=
  set_variables w
    (variables w ++ [variable_row (next_id (map var_id (variables w))) module_id item]).

Definition insert_function (module_id : Z) (class_id : option Z) (w : Store)
    (info : Parser.FunctionInfo) : Store :=
  set_functions w
    (functions w
     ++ [function_row (next_id (map fn_id (functions w))) module_id class_id info]).

Definition insert_class (module_id : Z) (w : Store) (info : Parser.ClassInfo) : Store :=
  let id := next_id (map cls_id (classes w)) in
  fold_left (insert_function module_id (Some id)) (Parser.ci_methods info)
    (set_classes w (classes w ++ [class_row id module_id info])).

(** The four bulk deletes. *)
Definition clear_module (module_id : Z) (w : Store) : Store :=
  {| projects := projects w;
     modules := modules w;
     functions :=
       filter (fun f => negb ((fn_module_id f =? module_id)
                              && optZ_eqb (fn_class_id f) None)) (functions w);
     classes := filter (fun c => negb (cls_module_id c =? module_id)) (classes w);
     imports := filter (fun i => negb (imp_module_id i =? module_id)) (imports w);
     variables := filter (fun v => negb (var_module_id v =? module_id)) (variables w) |}.

(** The four loops. *)
Definition insert_children (module_id : Z) (info : Parser.ModuleInfo) (w : Store) : Store :=
  fold_left (insert_function module_id None) (Parser.mi_functions info)
    (fold_left (insert_class module_id) (Parser.mi_classes info)
       (fold_left (insert_variable module_id) (Parser.mi_variables info)
          (fold_left (insert_import module_id) (Parser.mi_imports info) w))).

Definition stamp_module (module_id t : Z) (w : Store) : Store :=
  set_modules w (map (stamp module_id t) (modules w)).

(** The Module row of a path seen for the first time. *)
Definition new_module_row (import_time project_id : Z) (info : Parser.ModuleInfo)
    (w : Store) : Module_ :=
  {| mod_id := next_id (map mod_id (modules w));
     mod_project_id := project_id;
     mod_name := Parser.module_name info;
     mod_path := Parser.mi_path info;
     mod_docstring := Parser.mi_docstring info;
     mod_last_indexed := import_time |}.

(** The table [rows] after one row is made for each item of [xs], each
    with the rowid the table gives it at that point. *)
Fixpoint append_rows {Row X : Type} (id : Row -> Z) (mk : Z -> X -> Row)
    (xs : list X) (rows : list Row) : list Row :=
  match xs with
  | [] => rows
  | x :: rest => append_rows id mk rest (rows ++ [mk (next_id (map id rows)) x])
  end.

(** The id of the Module row that [_index_module] works on: the row it
    finds, or the row it adds. *)
Definition target_module_id (project_id : Z) (info : Parser.ModuleInfo) (w : Store) : Z :=
  match find (fun m => ((mod_project_id m =? project_id)
                        && String.eqb (mod_path m) (Parser.mi_path info))%bool)
             (modules w) with
  | Some row => mod_id row
  | None => next_id (map mod_id (modules w))
  end.

(** The store after [_index_module] has written a module at the time [t]:
    the rows of the module cleared when its Module row is there, or the
    Module row added when it is not; the rows of the description inserted;
    the time stamp set. *)
Definition module_writes (import_time t project_id : Z) (info : Parser.ModuleInfo)
    (w : Store) : Store :=
  match find (fun m => ((mod_project_id m =? project_id)
                        && String.eqb (mod_path m) (Parser.mi_path info))%bool)
             (modules w) with
  | Some row =>
      stamp_module (mod_id row) t
        (insert_children (mod_id row) info (clear_module (mod_id row) w))
  | None =>
      let row := new_module_row import_time project_id info w in
      stamp_module (mod_id row) t
        (insert_children (mod_id row) info
           (set_modules w (modules w ++ [row])))
  end.

(** The store after the modules of a call are written one after the other,
    each at the next reading of the clock, [n] being the first. *)
Fixpoint modules_writes (clock : nat -> Z) (import_time project_id : Z) (n : nat)
    (infos : list Parser.ModuleInfo) (w : Store) : Store :=
  match infos with
  | [] => w
  | info :: rest =>
      modules_writes clock import_time project_id (S n) rest
        (module_writes import_time (clock n) project_id info w)
  end.

(** All the writes of one call of [index_project], and the project id they
    are made for: the id of the first Project row with the root path, or of
    a new row, made at the first two readings of the clock. *)
Definition project_writes (clock : nat -> Z) (import_time : Z)
    (name root_path : string) (infos : list Parser.ModuleInfo) (db : Store)
    : Store * Z :=
  match find (fun p => String.eqb (project_root_path p) root_path) (projects db) with
  | Some p => (modules_writes clock import_time (project_id p) 0 infos db, project_id p)
  | None =>
      let p := {| project_id := next_id (map project_id (projects db));
                  project_name := name;
                  project_root_path := root_path;
                  project_created_at := clock 0%nat;
                  project_updated_at := clock 1%nat |} in
      (modules_writes clock import_time (project_id p) 2 infos
         (set_projects db (projects db ++ [p])),
       project_id p)
  end.

(** The number of statements a call sends when the store raises nothing. *)
Definition call_statements (clock : nat -> Z) (import_time : Z)
    (name root_path : string) (infos : list Parser.ModuleInfo) (db : Store) : nat :=
  statements
    (fst (index_project_body no_fault clock import_time name root_path infos
            (open_session db))).

(** The Project rows with a root path. *)
Definition rooted_at (root_path : string) (db : Store) : list Project :=
  filter (fun p => String.eqb (project_root_path p) root_path) (projects db).

(** A call of [index_project]: its arguments, and the faults and the clock
    it meets. *)
Record Call := {
  call_fault : nat -> option Exception;
  call_clock : nat -> Z;
  call_import_time : Z;
  call_name : string;
  call_root_path : string;
  call_modules : list Parser.ModuleInfo
}.

(** The store after a call, returned or raised, and after a sequence of
    calls. *)
Definition run_call (c : Call) (db : Store) : Store :=
  fst (index_project (call_fault c) (call_clock c) (call_import_time c)
         (call_name c) (call_root_path c) (call_modules c) db).

Definition run_calls (calls : list Call) (db : Store) : Store :=
  fold_left (fun db c => run_call c db) calls db.

(** Every rowid of a table is its own in the table. *)
Definition unique_ids (db : Store) : Prop :=
  NoDup (map project_id (projects db))
  /\ NoDup (map mod_id (modules db))
  /\ NoDup (map fn_id (functions db))
  /\ NoDup (map cls_id (classes db))
  /\ NoDup (map imp_id (imports db))
  /\ NoDup (map var_id (variables db)).

(** Every Module row names a Project row, and every Function, Class,
    Import and Variable row names a Module row. *)
Definition owners_exist (db : Store) : Prop :=
  (forall m, In m (modules db) -> In (mod_project_id m) (map project_id (projects db)))
  /\ (forall f, In f (functions db) -> In (fn_module_id f) (map mod_id (modules db)))
  /\ (forall c, In c (classes db) -> In (cls_module_id c) (map mod_id (modules db)))
  /\ (forall i, In i (imports db) -> In (imp_module_id i) (map mod_id (modules db)))
  /\ (forall v, In v (variables db) -> In (var_module_id v) (map mod_id (modules db))).

Definition well_formed (db : Store) : Prop := unique_ids db /\ owners_exist db.

(** The paths of all the results of a search. *)
Definition result_paths (r : Results) : list string :=
  map mh_path (r_modules r) ++ map ch_path (r_classes r)
  ++ map fh_path (r_functions r) ++ map vh_path (r_variables r).

(** The number of results of a search. *)
Definition result_count (r : Results) : nat :=
  List.length (r_modules r) + List.length (r_classes r)
  + List.length (r_functions r) + List.length (r_variables r).

(** A text without the wild cards of [LIKE]. *)
Fixpoint no_wildcard (s : string) : bool :=
  match s with
  | EmptyString => true
  | String c r => (negb (Ascii.eqb c "%") && negb (Ascii.eqb c "_") && no_wildcard r)%bool
  end.

(** A text without a NUL. *)
Fixpoint no_nul (s : string) : bool :=
  match s with
  | EmptyString => true
  | String c r => (negb (Py.is_nul c) && no_nul r)%bool
  end.

(** What a description says of a row, and what a row says of itself,
    apart from its ids. *)
Definition import_content (i : Import_) : string * option string * bool * option string :=
  (imp_module_name i, imp_alias i, imp_is_from_import i, imp_parent_module i).

Definition import_info_content (info : Parser.ImportInfo)
    : string * option string * bool * option string :=
  (Parser.ii_module_name info, Parser.ii_alias info,
   Parser.ii_is_from_import info, Parser.ii_parent_module info).

Definition variable_content (v : Variable_) : string * Z * option string :=
  (var_name v, var_lineno v, var_value v).

Definition variable_item_content (item : string * (Z * string))
    : string * Z * option string :=
  (fst item, fst (snd item), Some (snd (snd item))).

Definition class_content (c : Class_)
    : string * option string * Z * Z * option string * option string :=
  (cls_name c, cls_docstring c, cls_lineno c, cls_end_lineno c,
   cls_base_classes c, cls_decorators c).

Definition class_info_content (info : Parser.ClassInfo)
    : string * option string * Z * Z * option string * option string :=
  (Parser.ci_name info, Parser.ci_docstring info, Parser.ci_lineno info,
   Parser.ci_end_lineno info,
   Some (Py.json_dumps (Parser.ci_base_classes info)),
   Some (Py.json_dumps (Parser.ci_decorators info))).

Definition function_content (f : Function_)
    : string * option string * Z * Z * option string * option string * option string :=
  (fn_name f, fn_docstring f, fn_lineno f, fn_end_lineno f,
   fn_args f, fn_decorators f, fn_return_annotation f).

Definition function_info_content (info : Parser.FunctionInfo)
    : string * option string * Z * Z * option string * option string * option string :=
  (Parser.fi_name info, Parser.fi_docstring info, Parser.fi_lineno info,
   Parser.fi_end_lineno info,
   Some (Py.json_dumps (Parser.fi_args info)),
   Some (Py.json_dumps (Parser.fi_decorators info)),
   Parser.fi_return_annotation info).

(** A method row: the class it names, and what it says of itself. *)
Definition method_content (f : Function_) :=
  (fn_class_id f, function_content f).

(** The methods a description gives, class by class, each with the id of
    the row of its class. *)
Definition methods_by_class (rows : list Class_) (infos : list Parser.ClassInfo) :=
  flat_map (fun ci => map (fun m => (Some (cls_id (fst ci)), function_info_content m))
                          (Parser.ci_methods (snd ci)))
           (combine rows infos).

(** The top-level Function rows of a module. *)
Definition toplevel_functions_of (module_id : Z) (db : Store) : list Function_ :=
  filter (fun f => ((fn_module_id f =? module_id)
                    && optZ_eqb (fn_class_id f) None)%bool) (functions db).

(** The Function rows of a module that are methods. *)
Definition methods_of (module_id : Z) (db : Store) : list Function_ :=
  filter (fun f => ((fn_module_id f =? module_id)
                    && negb (optZ_eqb (fn_class_id f) None))%bool) (functions db).

(** The unsorted methods a description has, class by class. *)
Definition described_methods (info : Parser.ModuleInfo) : list Parser.FunctionInfo :=
  flat_map Parser.ci_methods (Parser.mi_classes info).

End Props.

(** ** Example inputs *)

Module Examples.
Import Database Parser Indexer Search Props.

Definition radius_info : FunctionInfo :=
  {| fi_name := "radius"; fi_docstring := None; fi_lineno := 7;
     fi_end_lineno := 8; fi_args := ["self"]; fi_decorators := [];
     fi_return_annotation := Some "float" |}.

Definition area_info : FunctionInfo :=
  {| fi_name := "area"; fi_docstring := Some "Area of a shape.";
     fi_lineno := 10; fi_end_lineno := 12; fi_args := ["shape"];
     fi_decorators := []; fi_return_annotation := None |}.

Definition circle_info : ClassInfo :=
  {| ci_name := "Circle"; ci_docstring := None; ci_lineno := 5;
     ci_end_lineno := 8; ci_methods := [radius_info];
     ci_base_classes := ["Shape"]; ci_decorators := [] |}.

(** A module with a variable on line 1, a class on line 5 with a method on
    line 7, and a function on line 10. *)
Definition shapes_info : ModuleInfo :=
  {| mi_path := "/srv/demo/shapes.py";
     mi_docstring := Some "Shapes.";
     mi_imports :=
       [ {| ii_module_name := "os"; ii_alias := None;
            ii_is_from_import := false; ii_parent_module := None |};
         {| ii_module_name := "List"; ii_alias := Some "L";
            ii_is_from_import := true; ii_parent_module := Some "typing" |} ];
     mi_functions := [area_info];
     mi_classes := [circle_info];
     mi_variables := [("unit", (1, "1"))] |}.

(** The same file parsed again after the class was removed and the module
    docstring rewritten. *)
Definition shapes_info_later : ModuleInfo :=
  {| mi_path := "/srv/demo/shapes.py";
     mi_docstring := Some "Shapes, revised.";
     mi_imports := [];
     mi_functions := [area_info];
     mi_classes := [];
     mi_variables := [] |}.

Definition demo_clock (n : nat) : Z := 1000 + Z.of_nat n.

Definition index_demo (name : string) (modules : list ModuleInfo) (db : Store)
    : Store * outcome Z :=
  index_project no_fault demo_clock 0 name "/srv/demo" modules db.

(** The catalog after the first index of the project. *)
Definition demo_store : Store :=
  fst (index_demo "demo" [shapes_info] empty_store).

(** The catalog after the same description is indexed a second time. *)
Definition demo_store_again : Store :=
  fst (index_demo "demo" [shapes_info] demo_store).

(** The catalog after the later description is indexed over the first. *)
Definition demo_store_later : Store :=
  fst (index_demo "demo" [shapes_info_later] demo_store).

(** The Module row a run of [_index_module] returned. *)
Definition snd_module (run : Session * outcome Module_) : Module_ :=
  match snd run with
  | Returned m => m
  | Raised _ => Build_Module_ 0 0 EmptyString EmptyString None 0
  end.

(** The run of [_index_module] that indexes the later description over
    [demo_store]. *)
Definition demo_reindex : Session * outcome Module_ :=
  _index_module no_fault demo_clock 0 1 shapes_info_later (open_session demo_store).

(** The run of [_index_module] that indexes the first description a second
    time. *)
Definition demo_reindex_same : Session * outcome Module_ :=
  _index_module no_fault demo_clock 0 1 shapes_info (open_session demo_store).

(** A second file of the demo project. *)
Definition tools_info : ModuleInfo :=
  {| mi_path := "/srv/demo/tools.py";
     mi_docstring := None;
     mi_imports :=
       [ {| ii_module_name := "sys"; ii_alias := None;
            ii_is_from_import := false; ii_parent_module := None |} ];
     mi_functions :=
       [ {| fi_name := "main"; fi_docstring := None; fi_lineno := 3;
            fi_end_lineno := 4; fi_args := []; fi_decorators := [];
            fi_return_annotation := None |} ];
     mi_classes := [];
     mi_variables := [("DEBUG", (1, "False"))] |}.

(** The catalog after both files are indexed. *)
Definition demo_store_two : Store :=
  fst (index_demo "demo" [shapes_info; tools_info] empty_store).

(** The run of [_index_module] that indexes the later description of
    [shapes.py] over [demo_store_two]. *)
Definition demo_reindex_two : Session * outcome Module_ :=
  _index_module no_fault demo_clock 0 1 shapes_info_later
    (open_session demo_store_two).

(** The catalog with the demo project and no module, and the run of
    [_index_module] that indexes [shapes.py] for the first time over it. *)
Definition demo_project_store : Store :=
  fst (index_demo "demo" [] empty_store).

Definition demo_index_shapes : Session * outcome Module_ :=
  _index_module no_fault demo_clock 0 1 shapes_info (open_session demo_project_store).

(** The result of a function search for the method of the demo class. *)
Definition radius_hit : FunctionHit :=
  {| fh_id := 1; fh_name := "radius"; fh_module_name := "shapes";
     fh_class_name := Some "Circle"; fh_path := "/srv/demo/shapes.py";
     fh_lineno := 7; fh_docstring := None |}.

(** A module body: two imports, a name bound three times, a function and
    a class. *)
Definition demo_body : list Node :=
  [ Import [("os", None); ("sys", Some "system")];
    ImportFrom "typing" [("List", None)];
    Assign [AssignName "limit"] "1" 3;
    Assign [AssignName "debug"; OtherTarget] "False" 4;
    Assign [AssignName "limit"] "2" 5;
    AnnAssign (Name "limit") "int" 6;
    AnnAssign (AssignName "ratio") "float" 7;
    FunctionDefNode
      {| fd_name := "main"; fd_doc := Some EmptyString; fd_lineno := 9;
         fd_end_lineno := None; fd_args := []; fd_decorators := None;
         fd_returns := None |};
    OtherNode ].

(** A store that fails on its statement number 3. *)
Definition disk_full (n : nat) : option Exception :=
  if Nat.eqb n 3 then Some "database or disk is full" else None.

(** A store that fails on its statement number [n] only. *)
Definition fails_at (n : nat) (e : Exception) (m : nat) : option Exception :=
  if Nat.eqb m n then Some e else None.

(** A call that indexes another project, and a call that indexes the demo
    project under another name on a store that fails. *)
Definition other_call : Call :=
  {| call_fault := no_fault; call_clock := demo_clock; call_import_time := 0;
     call_name := "other"; call_root_path := "/srv/other";
     call_modules := [tools_info] |}.

Definition failing_call : Call :=
  {| call_fault := disk_full; call_clock := demo_clock; call_import_time := 0;
     call_name := "again"; call_root_path := "/srv/demo";
     call_modules := [shapes_info_later] |}.

(** A file system on which no file can be read. *)
Definition unreadable (path : string) : string + string :=
  inr "[Errno 13] Permission denied".

Definition readable (path : string) : string + string :=
  inl "unit = 1".

(** The Module row of [shapes.py] in [demo_store]. *)
Definition demo_module_row : Module_ :=
  {| mod_id := 1; mod_project_id := 1; mod_name := "shapes";
     mod_path := "/srv/demo/shapes.py"; mod_docstring := Some "Shapes.";
     mod_last_indexed := 1002 |}.

(** The elements of the view of [shapes.py], in the order returned. *)
Definition demo_elements : list Element :=
  [ {| el_type := "variable"; el_name := "unit"; el_lineno := 1;
       el_detail := Valued (Some "1") |};
    {| el_type := "class"; el_name := "Circle"; el_lineno := 5;
       el_detail := Documented 8 None |};
    {| el_type := "method"; el_name := "Circle.radius"; el_lineno := 7;
       el_detail := Documented 8 None |};
    {| el_type := "function"; el_name := "area"; el_lineno := 10;
       el_detail := Documented 12 (Some "Area of a shape.") |} ].

End Examples.

(** ** Text lemmas *)

Import Database Parser Indexer Search Props Examples.

Lemma substring_prefix (n : nat) (t : string) :
  (n <= String.length t)%nat ->
  exists rest, t = substring 0 n t ++ rest /\ String.length (substring 0 n t) = n.
Proof.
  revert n. induction t as [|c t IH]; intros n Hn.
  - destruct n; simpl in *; [|lia]. exists EmptyString. split; reflexivity.
  - destruct n as [|n]; simpl.
    + exists (String c t). split; reflexivity.
    + simpl in Hn. destruct (IH n ltac:(lia)) as [rest [Heq Hlen]].
      exists rest. split; [congruence | now rewrite Hlen].
Qed.

Lemma append_not_empty (a b : string) :
  b <> EmptyString -> a ++ b <> EmptyString.
Proof.
  destruct a; simpl; [tauto | discriminate].
Qed.

Lemma span_word_kind (kind rest : string) :
  all_word kind = true ->
  Py.span_word (kind ++ String ":" rest) = (kind, String ":" rest).
Proof.
  induction kind as [|c kind IH]; simpl; intros H.
  - reflexivity.
  - apply andb_prop in H. destruct H as [Hc Hk].
    rewrite Hc, (IH Hk). reflexivity.
Qed.

Lemma until_newline_term (term : string) :
  no_newline term = true -> Py.until_newline term = term.
Proof.
  induction term as [|c term IH]; simpl; intros H.
  - reflexivity.
  - apply andb_prop in H. destruct H as [Hc Ht].
    apply negb_true_iff in Hc. rewrite Hc, (IH Ht). reflexivity.
Qed.

Lemma re_match_kind_term (kind term : string) :
  is_kind kind = true -> is_term term = true ->
  Py.re_match (kind ++ String ":" term) = Some (kind, term).
Proof.
  intros Hk Ht. unfold Py.re_match.
  destruct kind as [|c kind]; [discriminate|].
  destruct term as [|d term]; [discriminate|].
  unfold is_kind in Hk. unfold is_term in Ht.
  rewrite (span_word_kind _ _ Hk).
  rewrite (until_newline_term _ Ht).
  reflexivity.
Qed.

Lemma contains_colon (kind rest : string) :
  Py.contains ":" (kind ++ String ":" rest) = true.
Proof.
  induction kind as [|c kind IH]; simpl.
  - reflexivity.
  - rewrite IH. apply orb_true_r.
Qed.

(** ** Truncation *)

(** C5. For a maximum length [max_length] that is a length (not negative):
    an absent or empty text gives an absent value; a non-empty text of at
    most [max_length] characters is returned as it is; a longer text gives
    its first [max_length] characters followed by the marker of three
    dots; and the result is never the empty text. *)
Theorem truncate_text_policy (text : option string) (max_length : Z)
    (Hmax : 0 <= max_length) :
  match text with
  | None => _truncate_text text max_length = None
  | Some t =>
      (t = EmptyString -> _truncate_text text max_length = None) /\
      (t <> EmptyString -> Py.len t <= max_length ->
       _truncate_text text max_length = Some t) /\
      (max_length < Py.len t ->
       exists head rest,
         t = head ++ rest /\ Py.len head = max_length /\
         _truncate_text text max_length = Some (head ++ "..."))
  end
  /\ _truncate_text text max_length <> Some EmptyString.
Proof.
  destruct text as [[|c t]|]; unfold _truncate_text; simpl Py.truthy; simpl negb;
    cbv iota.
  - split; [|discriminate]. repeat split.
    + intros H _. now elim H.
    + unfold Py.len. simpl. lia.
  - destruct (Py.len (String c t) <=? max_length) eqn:Hle.
    + apply Z.leb_le in Hle. split; [|discriminate].
      repeat split; try discriminate; try reflexivity. lia.
    + apply Z.leb_gt in Hle. split.
      * repeat split; try discriminate; try lia.
        intros _. unfold Py.slice_to.
        destruct (max_length <? 0) eqn:Hneg; [apply Z.ltb_lt in Hneg; lia|].
        destruct (substring_prefix (Z.to_nat max_length) (String c t)) as [rest [Heq Hlen]].
        { unfold Py.len in Hle. lia. }
        exists (substring 0 (Z.to_nat max_length) (String c t)), rest.
        repeat split; [exact Heq | unfold Py.len; rewrite Hlen; lia].
      * intros H. injection H as H. revert H. apply append_not_empty. discriminate.
  - split; [reflexivity | discriminate].
Qed.

(** The docstring of 250 characters: 200 of them and the marker. *)
Lemma truncate_text_policy_witness :
  0 <= 200 /\
  _truncate_text (Some (replicate 250 "a")) 200 = Some (replicate 200 "a" ++ "...") /\
  _truncate_text (Some (replicate 150 "a")) 200 = Some (replicate 150 "a") /\
  _truncate_text (Some (replicate 250 "a")) 200 <> Some EmptyString.
Proof.
  split; [lia|].
  split; [vm_compute; reflexivity|].
  split; [vm_compute; reflexivity|].
  exact (proj2 (truncate_text_policy (Some (replicate 250 "a")) 200 ltac:(lia))).
Defined.

(** A negative [max_length] is no length: the slice then counts from the
    end of the text. *)
Remark truncate_text_negative :
  _truncate_text (Some "abcdef") (-2) = Some "abcd...".
Proof. reflexivity. Qed.

(** ** Query dispatch *)

Lemma eqb_not_recognized (kind : string) :
  ~ In kind recognized_kinds ->
  String.eqb kind "module" = false /\ String.eqb kind "class" = false /\
  String.eqb kind "function" = false /\ String.eqb kind "method" = false /\
  String.eqb kind "var" = false /\ String.eqb kind "variable" = false /\
  String.eqb kind "import" = false /\ String.eqb kind "doc" = false /\
  String.eqb kind "docstring" = false.
Proof.
  intros H. unfold recognized_kinds in H. simpl in H.
  repeat split; apply String.eqb_neq; intros E; apply H; subst; tauto.
Qed.

(** C4. A query [kind:term] whose kind is a word that is none of the
    recognized kinds is answered by the free-text search of the term alone,
    trimmed as every structured term is; so ["bogus:Foo"] is answered as
    ["Foo"] is. *)
Theorem structured_search_unknown_kind (db : Store) (kind term : string)
    (project_id : option Z) (limit : Z)
    (Hkind : is_kind kind = true) (Hterm : is_term term = true)
    (Hunknown : ~ In kind recognized_kinds) :
  search_code db (kind ++ ":" ++ term) project_id limit
  = _free_text_search db (Py.strip term) project_id limit
  /\ search_code db "bogus:Foo" project_id limit
     = search_code db "Foo" project_id limit.
Proof.
  split.
  - unfold search_code. change (":" ++ term) with (String ":" term).
    rewrite contains_colon. unfold _structured_search.
    rewrite (re_match_kind_term _ _ Hkind Hterm).
    destruct (eqb_not_recognized kind Hunknown)
      as (H1 & H2 & H3 & H4 & H5 & H6 & H7 & H8 & H9).
    rewrite H1, H2, H3, H4, H5, H6, H7, H8, H9. reflexivity.
  - reflexivity.
Qed.

Lemma structured_search_unknown_kind_witness :
  is_kind "bogus" = true /\ is_term "  Circle " = true /\
  ~ In "bogus" recognized_kinds /\
  search_code demo_store "bogus:  Circle " None 20
  = _free_text_search demo_store "Circle" None 20.
Proof.
  assert (Hunknown : ~ In "bogus" recognized_kinds).
  { unfold recognized_kinds. simpl. intuition discriminate. }
  split; [reflexivity|]. split; [reflexivity|]. split; [exact Hunknown|].
  exact (proj1 (structured_search_unknown_kind demo_store "bogus" "  Circle "
                  None 20 eq_refl eq_refl Hunknown)).
Defined.

(** ** Free-text search and absent docstrings *)

Lemma holds_and_base (c : option bool) (project_id : option Z) (m : Module_) :
  holds (sql_and c (base_filters project_id m))
  = (holds c && in_project project_id m)%bool.
Proof.
  unfold base_filters, in_project.
  destruct c as [[|]|]; destruct project_id as [p|]; simpl;
    try destruct (mod_project_id m =? p); reflexivity.
Qed.

Lemma holds_name_or_docstring (pattern name : string) (docstring : option string) :
  holds (sql_or (sql_like (sql_lower (Some name)) pattern)
                (sql_like (sql_lower docstring) pattern))
  = (name_matches pattern name || docstring_matches pattern docstring)%bool.
Proof.
  unfold name_matches, docstring_matches. destruct docstring as [d|]; simpl.
  - destruct (Py.like pattern (Py.sqlite_lower name)),
      (Py.like pattern (Py.sqlite_lower d)); reflexivity.
  - destruct (Py.like pattern (Py.sqlite_lower name)); reflexivity.
Qed.

Lemma filter_ext_eq {A} (f g : A -> bool) (l : list A) :
  (forall x, f x = g x) -> filter f l = filter g l.
Proof.
  intros H. induction l as [|x l IH]; simpl; [reflexivity|].
  rewrite H, IH. reflexivity.
Qed.

(** C8. In a free-text search a Module, Class or Function row is selected
    when its name matches or its docstring is there and matches: a row
    whose docstring is absent is selected by its name alone, and never by
    its docstring. *)
Theorem free_text_absent_docstring (db : Store) (query : string)
    (project_id : option Z) (limit : Z) :
  let pattern := "%" ++ Py.lower query ++ "%" in
  r_modules (_free_text_search db query project_id limit)
  = map module_hit
      (sql_limit limit
         (filter (fun m =>
                    ((name_matches pattern (mod_name m)
                      || docstring_matches pattern (mod_docstring m))
                     && in_project project_id m)%bool)
                 (modules db)))
  /\ r_classes (_free_text_search db query project_id limit)
     = map class_hit
         (sql_limit limit
            (filter (fun row =>
                       ((name_matches pattern (cls_name (fst row))
                         || docstring_matches pattern (cls_docstring (fst row)))
                        && in_project project_id (snd row))%bool)
                    (join_module cls_module_id db (classes db))))
  /\ r_functions (_free_text_search db query project_id limit)
     = map (function_hit db)
         (sql_limit limit
            (filter (fun row =>
                       ((name_matches pattern (fn_name (fst row))
                         || docstring_matches pattern (fn_docstring (fst row)))
                        && in_project project_id (snd row))%bool)
                    (join_module fn_module_id db (functions db))))
  /\ (forall name, docstring_matches pattern None = false
                   /\ (name_matches pattern name
                       || docstring_matches pattern None)%bool
                      = name_matches pattern name).
Proof.
  intros pattern. unfold _free_text_search. simpl.
  fold pattern. unfold select_modules, select_joined.
  repeat split.
  - f_equal. f_equal. apply filter_ext_eq. intros m.
    rewrite holds_and_base. unfold free_module_condition, attribute_is_none.
    simpl negb. cbv iota. rewrite holds_name_or_docstring. reflexivity.
  - f_equal. f_equal. apply filter_ext_eq. intros [c m].
    rewrite holds_and_base. unfold free_class_condition, attribute_is_none.
    cbv iota. simpl fst. rewrite holds_name_or_docstring. reflexivity.
  - f_equal. f_equal. apply filter_ext_eq. intros [f m].
    rewrite holds_and_base. unfold free_function_condition, attribute_is_none.
    simpl negb. cbv iota. simpl fst. rewrite holds_name_or_docstring. reflexivity.
  - simpl. apply orb_false_r.
Qed.

(** A class without a docstring is found by its name, and a module with a
    docstring by its docstring. *)
Example free_text_demo :
  map ch_name (r_classes (search_code demo_store "circ" None 20)) = ["Circle"]
  /\ map mh_name (r_modules (search_code demo_store "Shapes." None 20)) = ["shapes"]
  /\ r_classes (search_code demo_store "Shapes." None 20) = [].
Proof. repeat split. Qed.

(** ** Import search *)

Lemma in_sql_limit {A} (limit : Z) (l : list A) (x : A) :
  In x (sql_limit limit l) -> In x l.
Proof.
  unfold sql_limit. destruct (limit <? 0); [tauto|].
  revert l. induction (Z.to_nat limit) as [|n IH]; intros l H; simpl in H.
  - contradiction.
  - destruct l as [|y l]; simpl in *; [contradiction|].
    destruct H as [H|H]; [left; exact H | right; apply IH; exact H].
Qed.

Lemma in_join_module {A} (module_id : A -> Z) (db : Store) (rows : list A)
    (r : A) (m : Module_) :
  In (r, m) (join_module module_id db rows) ->
  In r rows /\ In m (modules db) /\ mod_id m = module_id r.
Proof.
  unfold join_module. rewrite in_flat_map. intros [r' [Hin Hrow]].
  destruct (find (fun m0 => mod_id m0 =? module_id r') (modules db)) as [m'|] eqn:Hfind;
    simpl in Hrow; [|contradiction].
  destruct Hrow as [Hrow|[]]. injection Hrow as -> ->.
  apply find_some in Hfind. destruct Hfind as [Hm Hid].
  apply Z.eqb_eq in Hid. repeat split; assumption.
Qed.

(** C10. Every result of a structured [import] search is built from an
    Import row and carries, as its [id], that row's [module_id], which is
    the id of the owning Module row; two Import rows of one module give
    results with one and the same [id]. *)
Theorem import_search_result_id (db : Store) (query term : string)
    (project_id : option Z) (limit : Z)
    (Hquery : Py.re_match query = Some ("import", term)) :
  (forall hit, In hit (r_modules (_structured_search db query project_id limit)) ->
     exists i m, In i (imports db) /\ In m (modules db) /\
                 hit = import_hit (i, m) /\
                 mh_id hit = imp_module_id i /\ mh_id hit = mod_id m)
  /\ (forall i1 m1 i2 m2, imp_module_id i1 = imp_module_id i2 ->
        mh_id (import_hit (i1, m1)) = mh_id (import_hit (i2, m2))).
Proof.
  split.
  - unfold _structured_search. rewrite Hquery. simpl.
    intros hit Hin. apply in_map_iff in Hin. destruct Hin as [[i m] [Hhit Hrow]].
    unfold select_joined in Hrow. apply in_sql_limit in Hrow.
    apply filter_In in Hrow. destruct Hrow as [Hrow _].
    apply in_join_module in Hrow. destruct Hrow as (Hi & Hm & Hid).
    exists i, m. subst hit. simpl. repeat split; try assumption. now rewrite Hid.
  - intros i1 m1 i2 m2 H. simpl. exact H.
Qed.

(** The two imports of the demo module are two Import rows, found as two
    results with the id of the module. *)
Lemma import_search_result_id_witness :
  Py.re_match "import:s" = Some ("import", "s")
  /\ map imp_id (imports demo_store) = [1; 2]
  /\ map mh_id (r_modules (search_code demo_store "import:s" None 20)) = [1; 1]
  /\ (forall hit, In hit (r_modules (_structured_search demo_store "import:s" None 20)) ->
        exists i m, In i (imports demo_store) /\ In m (modules demo_store) /\
                    hit = import_hit (i, m) /\
                    mh_id hit = imp_module_id i /\ mh_id hit = mod_id m).
Proof.
  split; [reflexivity|]. split; [reflexivity|]. split; [reflexivity|].
  exact (proj1 (import_search_result_id demo_store "import:s" "s" None 20 eq_refl)).
Defined.

(** ** File view *)

Section StableSort.

Lemma insert_by_lineno_perm (e : Element) (l : list Element) :
  Permutation (e :: l) (insert_by_lineno e l).
Proof.
  induction l as [|x l IH]; simpl.
  - apply Permutation_refl.
  - destruct (el_lineno e <=? el_lineno x).
    + apply Permutation_refl.
    + eapply Permutation_trans; [apply perm_swap|].
      apply perm_skip. exact IH.
Qed.

Lemma sort_by_lineno_perm (l : list Element) :
  Permutation l (sort_by_lineno l).
Proof.
  induction l as [|e l IH]; simpl.
  - apply perm_nil.
  - eapply Permutation_trans; [apply perm_skip; exact IH|].
    apply insert_by_lineno_perm.
Qed.

Lemma insert_by_lineno_hd (e x : Element) (l : list Element) :
  lineno_le x e -> HdRel lineno_le x l -> HdRel lineno_le x (insert_by_lineno e l).
Proof.
  intros Hxe Hhd. destruct l as [|y l]; simpl.
  - constructor. exact Hxe.
  - destruct (el_lineno e <=? el_lineno y); constructor.
    + exact Hxe.
    + inversion Hhd; assumption.
Qed.

Lemma insert_by_lineno_sorted (e : Element) (l : list Element) :
  Sorted lineno_le l -> Sorted lineno_le (insert_by_lineno e l).
Proof.
  induction l as [|x l IH]; simpl; intros Hs.
  - repeat constructor.
  - destruct (el_lineno e <=? el_lineno x) eqn:Hle.
    + constructor; [exact Hs|]. constructor. apply Z.leb_le. exact Hle.
    + inversion Hs as [|? ? Hs' Hhd]; subst.
      constructor; [apply IH; exact Hs'|].
      apply insert_by_lineno_hd; [|exact Hhd].
      apply Z.leb_gt in Hle. unfold lineno_le. lia.
Qed.

Lemma sort_by_lineno_sorted (l : list Element) :
  Sorted lineno_le (sort_by_lineno l).
Proof.
  induction l as [|e l IH]; simpl.
  - constructor.
  - apply insert_by_lineno_sorted. exact IH.
Qed.

Lemma on_line_insert (k : Z) (e : Element) (l : list Element) :
  on_line k (insert_by_lineno e l) = on_line k (e :: l).
Proof.
  induction l as [|x l IH]; simpl.
  - reflexivity.
  - destruct (el_lineno e <=? el_lineno x) eqn:Hle.
    + reflexivity.
    + unfold on_line in *. simpl in *. rewrite IH.
      apply Z.leb_gt in Hle.
      destruct (el_lineno e =? k) eqn:He, (el_lineno x =? k) eqn:Hx;
        try reflexivity.
      apply Z.eqb_eq in He, Hx. lia.
Qed.

Lemma sort_by_lineno_stable (k : Z) (l : list Element) :
  on_line k (sort_by_lineno l) = on_line k l.
Proof.
  induction l as [|e l IH]; simpl.
  - reflexivity.
  - rewrite on_line_insert. unfold on_line in *. simpl. rewrite IH. reflexivity.
Qed.

Lemma sorted_head_least (a : Element) (l : list Element) :
  Sorted lineno_le (a :: l) -> forall x, In x l -> el_lineno a <= el_lineno x.
Proof.
  intros Hs. apply Sorted_StronglySorted in Hs.
  - inversion Hs as [|? ? _ Hall]; subst.
    intros x Hx. rewrite Forall_forall in Hall. apply Hall. exact Hx.
  - intros x y z Hxy Hyz. unfold lineno_le in *. lia.
Qed.

Lemma on_line_head (a : Element) (l : list Element) :
  on_line (el_lineno a) (a :: l) = a :: on_line (el_lineno a) l.
Proof.
  unfold on_line. simpl. rewrite Z.eqb_refl. reflexivity.
Qed.

Lemma on_line_in (k : Z) (x : Element) (l : list Element) :
  In x (on_line k l) -> In x l /\ el_lineno x = k.
Proof.
  unfold on_line. rewrite filter_In. intros [H1 H2].
  apply Z.eqb_eq in H2. split; assumption.
Qed.

(** Two ascending lists that agree line by line are one list: a stable
    sort has one possible result. *)
Lemma stable_sort_unique (l1 l2 : list Element) :
  Sorted lineno_le l1 -> Sorted lineno_le l2 ->
  (forall k, on_line k l1 = on_line k l2) -> l1 = l2.
Proof.
  revert l2. induction l1 as [|a l1 IH]; intros l2 Hs1 Hs2 Hlines.
  - destruct l2 as [|b l2]; [reflexivity|].
    specialize (Hlines (el_lineno b)). rewrite on_line_head in Hlines.
    discriminate.
  - destruct l2 as [|b l2].
    { specialize (Hlines (el_lineno a)). rewrite on_line_head in Hlines.
      discriminate. }
    assert (Hab : el_lineno a = el_lineno b).
    { destruct (Z.lt_trichotomy (el_lineno a) (el_lineno b)) as [Hlt|[Heq|Hgt]];
        [|exact Heq|].
      - pose proof (Hlines (el_lineno a)) as H. rewrite on_line_head in H.
        assert (Hin : In a (on_line (el_lineno a) (b :: l2)))
          by (rewrite <- H; left; reflexivity).
        apply on_line_in in Hin. destruct Hin as [[Hin|Hin] _].
        + subst. lia.
        + pose proof (sorted_head_least b l2 Hs2 a Hin). lia.
      - pose proof (Hlines (el_lineno b)) as H. rewrite on_line_head in H.
        assert (Hin : In b (on_line (el_lineno b) (a :: l1)))
          by (rewrite H; left; reflexivity).
        apply on_line_in in Hin. destruct Hin as [[Hin|Hin] _].
        + subst. lia.
        + pose proof (sorted_head_least a l1 Hs1 b Hin). lia. }
    pose proof (Hlines (el_lineno a)) as Hk.
    rewrite on_line_head in Hk. rewrite Hab in Hk at 2.
    rewrite on_line_head in Hk. injection Hk as Heq Htail. subst b.
    f_equal. apply IH.
    + inversion Hs1; assumption.
    + inversion Hs2; assumption.
    + intros k. destruct (Z.eq_dec k (el_lineno a)) as [->|Hne].
      * exact Htail.
      * specialize (Hlines k). unfold on_line in *. simpl in Hlines.
        destruct (el_lineno a =? k) eqn:E; [apply Z.eqb_eq in E; congruence|].
        exact Hlines.
Qed.

End StableSort.

Lemma method_in_collect (db : Store) (module : Module_) (e : Element) :
  In e (collect_elements db module) -> el_type e = "method" ->
  exists c f, In c (classes db) /\ In f (functions db) /\
              fn_class_id f = Some (cls_id c) /\
              el_name e = cls_name c ++ "." ++ fn_name f.
Proof.
  unfold collect_elements. intros Hin Htype.
  apply in_app_or in Hin. destruct Hin as [Hin|Hin].
  { apply in_map_iff in Hin. destruct Hin as [f [<- _]]. discriminate. }
  apply in_app_or in Hin. destruct Hin as [Hin|Hin].
  - apply in_flat_map in Hin. destruct Hin as [c [Hc [Hin|Hin]]].
    { subst e. discriminate. }
    apply in_map_iff in Hin. destruct Hin as [f [<- Hf]].
    apply filter_In in Hc. apply filter_In in Hf.
    destruct Hc as [Hc _]. destruct Hf as [Hf Hid].
    exists c, f. repeat split; try assumption.
    unfold optZ_eqb in Hid. destruct (fn_class_id f) as [i|]; [|discriminate].
    apply Z.eqb_eq in Hid. now subst.
  - apply in_map_iff in Hin. destruct Hin as [v [<- _]]. discriminate.
Qed.

(** C6. The elements of a file view are those collected for the module
    (top-level functions, then each class followed by its methods, then
    variables), arranged in ascending [lineno]; elements on one line keep
    the order in which they were collected; a method is named after its
    class and itself, joined by a dot. *)
Theorem file_view_elements_sorted (read_text : string -> string + string)
    (db : Store) (path : string) (printed : list string) (content : string)
    (elements : list Element)
    (Hview : get_file_content read_text db path = (printed, Some (content, elements))) :
  exists module,
    find (fun m => String.eqb (mod_path m) path) (modules db) = Some module
    /\ Sorted lineno_le elements
    /\ Permutation (collect_elements db module) elements
    /\ (forall k, on_line k elements = on_line k (collect_elements db module))
    /\ (forall e, In e elements -> el_type e = "method" ->
          exists c f, In c (classes db) /\ In f (functions db) /\
                      fn_class_id f = Some (cls_id c) /\
                      el_name e = cls_name c ++ "." ++ fn_name f).
Proof.
  unfold get_file_content in Hview.
  destruct (find (fun m => String.eqb (mod_path m) path) (modules db))
    as [module|] eqn:Hfind; [|discriminate].
  exists module. split; [reflexivity|].
  assert (Hel : elements = sort_by_lineno (collect_elements db module)).
  { destruct (read_text path); injection Hview as _ _ H; congruence. }
  subst elements. repeat split.
  - apply sort_by_lineno_sorted.
  - apply sort_by_lineno_perm.
  - intros k. apply sort_by_lineno_stable.
  - intros e Hin. apply (method_in_collect db module).
    eapply Permutation_in; [apply Permutation_sym, sort_by_lineno_perm | exact Hin].
Qed.

(** C7. A path that no Module row has gives the not-found value and raises
    nothing; when the file of an indexed path cannot be read, the content
    is the text that describes the error, and the elements are the ones
    returned when the file can be read. *)
Theorem get_file_content_errors (read_text : string -> string + string)
    (db : Store) (path : string) :
  (find (fun m => String.eqb (mod_path m) path) (modules db) = None ->
   get_file_content read_text db path = ([], None))
  /\ (forall module e,
        find (fun m => String.eqb (mod_path m) path) (modules db) = Some module ->
        read_text path = inr e ->
        get_file_content read_text db path
        = (["Error reading file " ++ path ++ ": " ++ e],
           Some ("Error reading file: " ++ e,
                 sort_by_lineno (collect_elements db module)))
        /\ forall read_text' text,
             read_text' path = inl text ->
             get_file_content read_text' db path
             = ([], Some (text, sort_by_lineno (collect_elements db module)))).
Proof.
  unfold get_file_content. split.
  - intros ->. reflexivity.
  - intros module e -> Hread. rewrite Hread. split; [reflexivity|].
    intros read_text' text ->. reflexivity.
Qed.



(** The view of the demo module: variable (1), class (5), method (7) and
    function (10). *)
Lemma file_view_elements_sorted_witness :
  get_file_content readable demo_store "/srv/demo/shapes.py"
  = ([], Some ("unit = 1", demo_elements))
  /\ Sorted lineno_le demo_elements
  /\ (forall k, on_line k demo_elements
                = on_line k (collect_elements demo_store demo_module_row)).
Proof.
  assert (Hview : get_file_content readable demo_store "/srv/demo/shapes.py"
                  = ([], Some ("unit = 1", demo_elements)))
    by (vm_compute; reflexivity).
  assert (Hrow : find (fun m => String.eqb (mod_path m) "/srv/demo/shapes.py")
                   (modules demo_store) = Some demo_module_row)
    by (vm_compute; reflexivity).
  split; [exact Hview|].
  destruct (file_view_elements_sorted readable demo_store "/srv/demo/shapes.py"
              [] "unit = 1" demo_elements Hview)
    as [module [Hfind [Hsorted [_ [Hstable _]]]]].
  split; [exact Hsorted|].
  rewrite Hrow in Hfind. injection Hfind as <-. exact Hstable.
Defined.

Lemma get_file_content_errors_witness :
  get_file_content unreadable demo_store "/srv/demo/missing.py" = ([], None)
  /\ get_file_content unreadable demo_store "/srv/demo/shapes.py"
     = (["Error reading file /srv/demo/shapes.py: [Errno 13] Permission denied"],
        Some ("Error reading file: [Errno 13] Permission denied", demo_elements))
  /\ get_file_content readable demo_store "/srv/demo/shapes.py"
     = ([], Some ("unit = 1", demo_elements)).
Proof.
  assert (Hnone : find (fun m => String.eqb (mod_path m) "/srv/demo/missing.py")
                    (modules demo_store) = None) by (vm_compute; reflexivity).
  assert (Hsome : find (fun m => String.eqb (mod_path m) "/srv/demo/shapes.py")
                    (modules demo_store) = Some demo_module_row)
    by (vm_compute; reflexivity).
  assert (Hsort : sort_by_lineno (collect_elements demo_store demo_module_row)
                  = demo_elements) by (vm_compute; reflexivity).
  split.
  - exact (proj1 (get_file_content_errors unreadable demo_store
                    "/srv/demo/missing.py") Hnone).
  - destruct (proj2 (get_file_content_errors unreadable demo_store
                       "/srv/demo/shapes.py") demo_module_row
                "[Errno 13] Permission denied" Hsome eq_refl) as [Herr Hok].
    rewrite Hsort in Herr, Hok.
    split; [exact Herr | exact (Hok readable "unit = 1" eq_refl)].
Defined.

(** ** The session monad *)

Section SessionLemmas.

Context {A B : Type}.

Lemma bind_returned (a : M A) (k : A -> M B) (s s' : Session) (y : B) :
  bind a k s = (s', Returned y) ->
  exists s1 x, a s = (s1, Returned x) /\ k x s1 = (s', Returned y).
Proof.
  unfold bind. destruct (a s) as [s1 [x|e]]; intros H.
  - exists s1, x. split; [reflexivity | exact H].
  - discriminate.
Qed.

Lemma bind_raised (a : M A) (k : A -> M B) (s s' : Session) (e : Exception) :
  bind a k s = (s', Raised e) ->
  a s = (s', Raised e)
  \/ exists s1 x, a s = (s1, Returned x) /\ k x s1 = (s', Raised e).
Proof.
  unfold bind. destruct (a s) as [s1 [x|e1]]; intros H.
  - right. exists s1, x. split; [reflexivity | exact H].
  - left. injection H as -> ->. reflexivity.
Qed.

Variable R : Session -> Session -> Prop.
Hypothesis R_refl : forall s, R s s.
Hypothesis R_trans : forall s1 s2 s3, R s1 s2 -> R s2 s3 -> R s1 s3.

Lemma keeps_ret (x : A) : keeps R (ret x).
Proof.
  intros s s' r H. unfold ret in H. injection H as <- _. apply R_refl.
Qed.

Lemma keeps_bind (a : M A) (k : A -> M B) :
  keeps R a -> (forall x, keeps R (k x)) -> keeps R (bind a k).
Proof.
  intros Ha Hk s s' r H. unfold bind in H.
  destruct (a s) as [s1 [x|e]] eqn:Has.
  - eapply R_trans; [eapply Ha; exact Has | eapply Hk; exact H].
  - injection H as <- _. eapply Ha. exact Has.
Qed.

End SessionLemmas.

Lemma keeps_for_each {A} (R : Session -> Session -> Prop)
    (R_refl : forall s, R s s)
    (R_trans : forall s1 s2 s3, R s1 s2 -> R s2 s3 -> R s1 s3)
    (xs : list A) (body : A -> M unit) :
  (forall x, keeps R (body x)) -> keeps R (for_each xs body).
Proof.
  intros Hbody. induction xs as [|x xs IH]; simpl.
  - apply keeps_ret. exact R_refl.
  - apply keeps_bind; [exact R_trans | apply Hbody | intros _; exact IH].
Qed.

Lemma same_refl {B} (f : Session -> B) (s : Session) : same f s s.
Proof. reflexivity. Qed.

Lemma same_trans {B} (f : Session -> B) (s1 s2 s3 : Session) :
  same f s1 s2 -> same f s2 s3 -> same f s1 s3.
Proof. unfold same. congruence. Qed.

(** *** Actions that raise only what the store raises *)

Lemma faithful_pure {A} (a : M A) :
  (forall s, (exists x, snd (a s) = Returned x)
             /\ statements (fst (a s)) = statements s) ->
  faithful (fun _ => a).
Proof.
  intros H fault s. destruct (H s) as [[x Hx] Hs].
  split; [exists x; exact Hx|]. split; [rewrite Hs; apply Nat.le_refl|].
  rewrite Hx. split; [reflexivity|]. intros m Hm. rewrite Hs in Hm. lia.
Qed.

Lemma faithful_ret {A} (x : A) : faithful (fun _ => ret x).
Proof.
  apply faithful_pure. intros s. split; [exists x|]; reflexivity.
Qed.

Lemma faithful_bind {A B} (a : (nat -> option Exception) -> M A)
    (k : A -> (nat -> option Exception) -> M B) :
  faithful a -> (forall x, faithful (k x)) ->
  faithful (fun fault => bind (a fault) (fun x => k x fault)).
Proof.
  intros Ha Hk fault s. unfold bind.
  destruct (Ha fault s) as ([x0 Hx0] & Hle & Hrun).
  destruct (a no_fault s) as [s0 r0] eqn:Hnf. simpl in Hx0. subst r0.
  destruct (Hk x0 no_fault s0) as (Hret0 & Hle0 & _).
  split; [exact Hret0|].
  destruct (a fault s) as [s1 [x|e]] eqn:Hf; simpl in Hrun, Hle.
  - destruct Hrun as [Heq Hnone]. injection Heq as -> ->.
    destruct (Hk x fault s1) as (_ & Hle1 & Hkrun).
    split; [lia|].
    destruct (k x fault s1) as [s2 [y|e]]; simpl in *.
    + destruct Hkrun as [Hsame Hnone1]. split; [exact Hsame|].
      intros m Hm. destruct (Nat.lt_ge_cases m (statements s1)).
      * apply Hnone. lia.
      * apply Hnone1. lia.
    + destruct Hkrun as (n & Hn & Hrange & Hfault & Hnone1).
      exists n. split; [exact Hn|]. split; [lia|]. split; [exact Hfault|].
      intros m Hm. destruct (Nat.lt_ge_cases m (statements s1)).
      * apply Hnone. lia.
      * apply Hnone1. lia.
  - simpl. split; [exact Hle|].
    destruct Hrun as (n & Hn & Hrange & Hfault & Hnone).
    exists n. split; [exact Hn|]. split; [simpl in Hrange; lia|].
    split; [exact Hfault | exact Hnone].
Qed.

Lemma faithful_for_each {A} (xs : list A)
    (body : A -> (nat -> option Exception) -> M unit) :
  (forall x, faithful (body x)) ->
  faithful (fun fault => for_each xs (fun x => body x fault)).
Proof.
  intros Hbody. induction xs as [|x xs IH]; simpl.
  - apply faithful_ret.
  - apply (faithful_bind (body x) (fun _ fault => for_each xs (fun x => body x fault))).
    + apply Hbody.
    + intros _. exact IH.
Qed.

Lemma faithful_statement : faithful statement.
Proof.
  intros fault s. unfold statement. split; [exists tt; reflexivity|].
  destruct (fault (statements s)) as [e|] eqn:Hf; simpl.
  - split; [lia|]. exists (statements s).
    split; [reflexivity|]. split; [lia|]. split; [exact Hf|]. intros m Hm. lia.
  - split; [lia|]. split; [reflexivity|].
    intros m Hm. assert (m = statements s) as -> by lia. exact Hf.
Qed.

Ltac faithful_step :=
  lazymatch goal with
  | |- faithful (fun fault => bind (@?a fault) (fun x => @?k x fault)) =>
      apply (faithful_bind a (fun x fault => k x fault)); [|intro]
  | |- faithful (fun fault => for_each ?xs (fun x => @?body x fault)) =>
      apply (faithful_for_each xs (fun x fault => body x fault)); intro
  | |- faithful (fun _ => ret _) => apply faithful_ret
  | |- faithful (fun fault => statement fault) => apply faithful_statement
  | |- faithful (fun fault => flush fault) => apply faithful_statement
  | |- faithful statement => apply faithful_statement
  | |- faithful (fun _ => _) =>
      apply faithful_pure; intros ?s; split; [eexists|]; reflexivity
  end.

Ltac pure_loop_step IH :=
  match goal with
  | |- (exists x, snd (_ ?s1) = Returned x) /\ _ =>
      let Hx := fresh "Hx" in
      let Hs := fresh "Hs" in
      destruct (IH s1) as [Hx Hs]; split; [exact Hx | exact Hs]
  end.

Lemma faithful_commit : faithful commit.
Proof.
  unfold commit.
  apply (faithful_bind statement (fun _ _ => _)); [apply faithful_statement|].
  intros _. apply faithful_pure. intros s. split; [eexists|]; reflexivity.
Qed.

Lemma faithful_load_expired (project : Project) :
  faithful (fun fault => load_expired fault project).
Proof. unfold load_expired. repeat faithful_step. Qed.

Lemma faithful_query_project (root_path : string) :
  faithful (fun fault => query_project fault root_path).
Proof. unfold query_project. repeat faithful_step. Qed.

Lemma faithful_query_module (project_id : Z) (path : string) :
  faithful (fun fault => query_module fault project_id path).
Proof. unfold query_module. repeat faithful_step. Qed.

Lemma faithful_deletes (module_id : Z) :
  faithful (fun fault => delete_toplevel_functions fault module_id)
  /\ faithful (fun fault => delete_classes fault module_id)
  /\ faithful (fun fault => delete_imports fault module_id)
  /\ faithful (fun fault => delete_variables fault module_id).
Proof.
  unfold delete_toplevel_functions, delete_classes, delete_imports, delete_variables.
  split; [|split; [|split]]; repeat faithful_step.
Qed.

Lemma faithful_index_class (module_id : Z) (class_info : ClassInfo) :
  faithful (fun fault => _index_class fault module_id class_info).
Proof. unfold _index_class. repeat faithful_step. Qed.

Lemma faithful_index_module (clock : nat -> Z) (import_time : Z)
    (project_id : Z) (module_info : ModuleInfo) :
  faithful (fun fault => _index_module fault clock import_time project_id module_info).
Proof.
  unfold _index_module.
  apply (faithful_bind (fun fault => query_module fault project_id (mi_path module_info))
           (fun found fault => _)); [apply faithful_query_module|].
  intros found.
  apply (faithful_bind
           (fun fault =>
              match found with
              | Some module =>
                  delete_toplevel_functions fault (mod_id module) ;;
                  delete_classes fault (mod_id module) ;;
                  delete_imports fault (mod_id module) ;;
                  delete_variables fault (mod_id module) ;;
                  ret module
              | None =>
                  module <- add_module import_time project_id module_info ;;
                  flush fault ;;
                  ret module
              end) (fun module fault => _)).
  - destruct found as [module|].
    + destruct (faithful_deletes (mod_id module)) as (H1 & H2 & H3 & H4).
      apply (faithful_bind _ (fun _ fault => _) H1). intros _.
      apply (faithful_bind _ (fun _ fault => _) H2). intros _.
      apply (faithful_bind _ (fun _ fault => _) H3). intros _.
      apply (faithful_bind _ (fun _ fault => _) H4). intros _.
      apply faithful_ret.
    + repeat faithful_step.
  - intros module.
    apply (faithful_bind (fun _ => for_each (mi_imports module_info) _)
             (fun _ fault => _)).
    { apply faithful_pure. intros s.
      induction (mi_imports module_info) as [|x xs IH] in s |- *; simpl.
      - split; [eexists|]; reflexivity.
      - unfold bind at 1 3. simpl. pure_loop_step IH. }
    intros _.
    apply (faithful_bind (fun _ => for_each (mi_variables module_info) _)
             (fun _ fault => _)).
    { apply faithful_pure. intros s.
      induction (mi_variables module_info) as [|[name [lineno value]] xs IH] in s |- *;
        simpl.
      - split; [eexists|]; reflexivity.
      - unfold bind at 1 3. simpl. pure_loop_step IH. }
    intros _.
    apply (faithful_bind
             (fun fault => for_each (mi_classes module_info)
                (fun class_info =>
                   _index_class fault (mod_id module) class_info ;; ret tt))
             (fun _ fault => _)).
    { apply (faithful_for_each (mi_classes module_info)
               (fun class_info fault =>
                  _index_class fault (mod_id module) class_info ;; ret tt)).
      intros class_info.
      apply (faithful_bind (fun fault => _index_class fault (mod_id module) class_info)
               (fun _ _ => ret tt)).
      - apply faithful_index_class.
      - intros _. apply faithful_ret. }
    intros _.
    apply (faithful_bind (fun _ => for_each (mi_functions module_info) _)
             (fun _ fault => _)).
    { apply faithful_pure. intros s.
      induction (mi_functions module_info) as [|x xs IH] in s |- *; simpl.
      - split; [eexists|]; reflexivity.
      - unfold bind at 1 3. simpl. pure_loop_step IH. }
    intros _. apply faithful_pure. intros s. split; [eexists|]; reflexivity.
Qed.

Lemma faithful_index_project_transaction (clock : nat -> Z) (import_time : Z)
    (name root_path : string) (modules : list ModuleInfo) :
  faithful (fun fault =>
              index_project_transaction fault clock import_time name root_path modules).
Proof.
  unfold index_project_transaction.
  apply (faithful_bind (fun fault => query_project fault root_path)
           (fun found fault => _)); [apply faithful_query_project|].
  intros found.
  apply (faithful_bind
           (fun fault =>
              match found with
              | Some project => ret project
              | None =>
                  project <- add_project clock name root_path ;;
                  flush fault ;;
                  ret project
              end) (fun project fault => _)).
  - destruct found as [project|]; repeat faithful_step.
  - intros project.
    apply (faithful_bind
             (fun fault => for_each modules
                (fun module_info =>
                   _index_module fault clock import_time (project_id project) module_info ;;
                   ret tt))
             (fun _ fault => _)).
    { apply (faithful_for_each modules
               (fun module_info fault =>
                  _index_module fault clock import_time (project_id project) module_info ;;
                  ret tt)).
      intros module_info.
      apply (faithful_bind
               (fun fault => _index_module fault clock import_time (project_id project)
                               module_info)
               (fun _ _ => ret tt)).
      - apply faithful_index_module.
      - intros _. apply faithful_ret. }
    intros _.
    apply (faithful_bind commit (fun _ _ => _)); [apply faithful_commit|].
    intros _. apply faithful_ret.
Qed.

Lemma faithful_index_project_body (clock : nat -> Z) (import_time : Z)
    (name root_path : string) (modules : list ModuleInfo) :
  faithful (fun fault => index_project_body fault clock import_time name root_path modules).
Proof.
  unfold index_project_body.
  apply (faithful_bind
           (fun fault =>
              index_project_transaction fault clock import_time name root_path modules)
           (fun project fault => _));
    [apply faithful_index_project_transaction|].
  intros project.
  apply (faithful_bind (fun fault => load_expired fault project) (fun _ _ => _));
    [apply faithful_load_expired|].
  intros reloaded. apply faithful_ret.
Qed.

(** *** What the operations leave alone *)

Section Frames.

Variable fault : nat -> option Exception.
Variable clock : nat -> Z.
Variable import_time : Z.

Ltac frame_primitive :=
  let s := fresh "s" in
  let s' := fresh "s'" in
  let r := fresh "r" in
  let H := fresh "H" in
  intros s s' r H;
  cbv [bind ret statement flush get_work put_work now] in H;
  repeat match type of H with
         | context [fault ?n] => destruct (fault n)
         end;
  injection H as <- _; reflexivity.

Lemma children_statement : keeps (same outside_children) (statement fault).
Proof. frame_primitive. Qed.

Lemma children_deletes (module_id : Z) :
  keeps (same outside_children) (delete_toplevel_functions fault module_id)
  /\ keeps (same outside_children) (delete_classes fault module_id)
  /\ keeps (same outside_children) (delete_imports fault module_id)
  /\ keeps (same outside_children) (delete_variables fault module_id).
Proof.
  unfold delete_toplevel_functions, delete_classes, delete_imports, delete_variables.
  split; [|split; [|split]]; frame_primitive.
Qed.

Lemma children_index_import (module_id : Z) (import_info : ImportInfo) :
  keeps (same outside_children) (_index_import module_id import_info).
Proof. unfold _index_import. frame_primitive. Qed.

Lemma children_index_variable (module_id : Z) (name : string) (lineno : Z)
    (value : string) :
  keeps (same outside_children) (_index_variable module_id name lineno value).
Proof. unfold _index_variable. frame_primitive. Qed.

Lemma children_index_function (module_id : Z) (class_id : option Z)
    (func_info : FunctionInfo) :
  keeps (same outside_children) (_index_function module_id class_id func_info).
Proof. unfold _index_function. frame_primitive. Qed.

Lemma children_index_class (module_id : Z) (class_info : ClassInfo) :
  keeps (same outside_children) (_index_class fault module_id class_info).
Proof.
  unfold _index_class. intros s s' r H.
  unfold bind at 1 2 in H. unfold get_work, put_work in H.
  match type of H with
  | ?rest ?s1 = _ =>
      assert (Hrest : keeps (same outside_children) rest);
      [|apply Hrest in H; unfold same in *; rewrite H; reflexivity]
  end.
  apply keeps_bind; [apply same_trans | apply children_statement | intros _].
  apply keeps_bind; [apply same_trans | | intros _; apply keeps_ret; apply same_refl].
  apply keeps_for_each; [apply same_refl | apply same_trans | intros method_info].
  apply keeps_bind; [apply same_trans | apply children_index_function|].
  intros _. apply keeps_ret. apply same_refl.
Qed.

(** The four loops of [_index_module]. *)
Lemma children_loop_imports (module_id : Z) (l : list ImportInfo) :
  keeps (same outside_children)
    (for_each l (fun import_info => _index_import module_id import_info ;; ret tt)).
Proof.
  apply keeps_for_each; [apply same_refl | apply same_trans | intros x].
  apply keeps_bind; [apply same_trans | apply children_index_import|].
  intros _. apply keeps_ret. apply same_refl.
Qed.

Lemma children_loop_variables (module_id : Z) (l : list (string * (Z * string))) :
  keeps (same outside_children)
    (for_each l
       (fun item =>
          let '(name, (lineno, value)) := item in
          _index_variable module_id name lineno value ;; ret tt)).
Proof.
  apply keeps_for_each; [apply same_refl | apply same_trans |].
  intros [name [lineno value]].
  apply keeps_bind; [apply same_trans | apply children_index_variable|].
  intros _. apply keeps_ret. apply same_refl.
Qed.

Lemma children_loop_classes (module_id : Z) (l : list ClassInfo) :
  keeps (same outside_children)
    (for_each l (fun class_info => _index_class fault module_id class_info ;; ret tt)).
Proof.
  apply keeps_for_each; [apply same_refl | apply same_trans | intros x].
  apply keeps_bind; [apply same_trans | apply children_index_class|].
  intros _. apply keeps_ret. apply same_refl.
Qed.

Lemma children_loop_functions (module_id : Z) (l : list FunctionInfo) :
  keeps (same outside_children)
    (for_each l (fun func_info => _index_function module_id None func_info ;; ret tt)).
Proof.
  apply keeps_for_each; [apply same_refl | apply same_trans | intros x].
  apply keeps_bind; [apply same_trans | apply children_index_function|].
  intros _. apply keeps_ret. apply same_refl.
Qed.

(** The bulk deletes of the branch for a module that is already there. *)
Lemma children_clear (module : Module_) :
  keeps (same outside_children)
    (delete_toplevel_functions fault (mod_id module) ;;
     delete_classes fault (mod_id module) ;;
     delete_imports fault (mod_id module) ;;
     delete_variables fault (mod_id module) ;;
     ret module).
Proof.
  destruct (children_deletes (mod_id module)) as (H1 & H2 & H3 & H4).
  apply keeps_bind; [apply same_trans | exact H1 | intros _].
  apply keeps_bind; [apply same_trans | exact H2 | intros _].
  apply keeps_bind; [apply same_trans | exact H3 | intros _].
  apply keeps_bind; [apply same_trans | exact H4 | intros _].
  apply keeps_ret. apply same_refl.
Qed.

Lemma clear_returns (module x : Module_) (s s' : Session) :
  (delete_toplevel_functions fault (mod_id module) ;;
   delete_classes fault (mod_id module) ;;
   delete_imports fault (mod_id module) ;;
   delete_variables fault (mod_id module) ;;
   ret module) s = (s', Returned x) -> x = module.
Proof.
  intros H.
  apply bind_returned in H. destruct H as (s1 & [] & _ & H).
  apply bind_returned in H. destruct H as (s2 & [] & _ & H).
  apply bind_returned in H. destruct H as (s3 & [] & _ & H).
  apply bind_returned in H. destruct H as (s4 & [] & _ & H).
  unfold ret in H. congruence.
Qed.

Lemma query_module_spec (project_id : Z) (path : string) (s s' : Session)
    (r : outcome (option Module_)) :
  query_module fault project_id path s = (s', r) ->
  work s' = work s /\ readings s' = readings s /\ durable s' = durable s
  /\ forall found, r = Returned found ->
        found = find (fun m => ((mod_project_id m =? project_id)
                                && String.eqb (mod_path m) path)%bool)
                     (modules (work s)).
Proof.
  unfold query_module. cbv [bind ret statement get_work]. intros H.
  destruct (fault (statements s)); injection H as <- <-; simpl;
    repeat split; try discriminate.
  intros found Hf. injection Hf as <-. reflexivity.
Qed.

Lemma query_project_spec (root_path : string) (s s' : Session)
    (r : outcome (option Project)) :
  query_project fault root_path s = (s', r) ->
  work s' = work s /\ readings s' = readings s /\ durable s' = durable s
  /\ forall found, r = Returned found ->
        found = find (fun p => String.eqb (project_root_path p) root_path)
                     (projects (work s)).
Proof.
  unfold query_project. cbv [bind ret statement get_work]. intros H.
  destruct (fault (statements s)); injection H as <- <-; simpl;
    repeat split; try discriminate.
  intros found Hf. injection Hf as <-. reflexivity.
Qed.

Lemma set_last_indexed_spec (module : Module_) (s s' : Session)
    (r : outcome Module_) :
  set_last_indexed clock module s = (s', r) ->
  r = Returned (stamp (mod_id module) (clock (readings s)) module)
  /\ modules (work s')
     = map (stamp (mod_id module) (clock (readings s))) (modules (work s))
  /\ projects (work s') = projects (work s)
  /\ durable s' = durable s.
Proof.
  unfold set_last_indexed. cbv [bind ret now get_work put_work]. intros H.
  injection H as <- <-. simpl. repeat split.
Qed.

Lemma children_modules {A} (a : M A) :
  keeps (same outside_children) a -> keeps (same outside_modules) a.
Proof.
  intros H s s' r Hrun. apply H in Hrun. unfold same, outside_children in Hrun.
  unfold same, outside_modules. congruence.
Qed.

Lemma stamp_identity (module_id t : Z) (m : Module_) :
  module_identity (stamp module_id t m) = module_identity m.
Proof. unfold stamp. destruct (mod_id m =? module_id); reflexivity. Qed.

Lemma map_stamp_identity (module_id t : Z) (l : list Module_) :
  map module_identity (map (stamp module_id t) l) = map module_identity l.
Proof.
  rewrite map_map. apply map_ext. intros m. apply stamp_identity.
Qed.

(** The loops and the time stamp that end [_index_module]. *)
Lemma index_module_tail (module : Module_) (module_info : ModuleInfo)
    (s s' : Session) (r : outcome Module_) :
  (for_each (mi_imports module_info)
     (fun import_info => _index_import (mod_id module) import_info ;; ret tt) ;;
   for_each (mi_variables module_info)
     (fun item =>
        let '(name, (lineno, value)) := item in
        _index_variable (mod_id module) name lineno value ;; ret tt) ;;
   for_each (mi_classes module_info)
     (fun class_info => _index_class fault (mod_id module) class_info ;; ret tt) ;;
   for_each (mi_functions module_info)
     (fun func_info => _index_function (mod_id module) None func_info ;; ret tt) ;;
   set_last_indexed clock module) s = (s', r) ->
  projects (work s') = projects (work s)
  /\ durable s' = durable s
  /\ map module_identity (modules (work s')) = map module_identity (modules (work s))
  /\ forall result, r = Returned result ->
        result = stamp (mod_id module) (clock (readings s)) module
        /\ modules (work s')
           = map (stamp (mod_id module) (clock (readings s))) (modules (work s)).
Proof.
  intros H.
  unfold bind at 1 in H.
  destruct (for_each (mi_imports module_info) _ s) as [s1 [[]|e]] eqn:E1;
    apply children_loop_imports in E1; unfold same, outside_children in E1;
    injection E1 as Ep1 Em1 Er1 Ed1;
    [|injection H as <- <-; repeat split; try congruence; discriminate].
  unfold bind at 1 in H.
  destruct (for_each (mi_variables module_info) _ s1) as [s2 [[]|e]] eqn:E2;
    apply children_loop_variables in E2; unfold same, outside_children in E2;
    injection E2 as Ep2 Em2 Er2 Ed2;
    [|injection H as <- <-; repeat split; try congruence; discriminate].
  unfold bind at 1 in H.
  destruct (for_each (mi_classes module_info) _ s2) as [s3 [[]|e]] eqn:E3;
    apply children_loop_classes in E3; unfold same, outside_children in E3;
    injection E3 as Ep3 Em3 Er3 Ed3;
    [|injection H as <- <-; repeat split; try congruence; discriminate].
  unfold bind at 1 in H.
  destruct (for_each (mi_functions module_info) _ s3) as [s4 [[]|e]] eqn:E4;
    apply children_loop_functions in E4; unfold same, outside_children in E4;
    injection E4 as Ep4 Em4 Er4 Ed4;
    [|injection H as <- <-; repeat split; try congruence; discriminate].
  apply set_last_indexed_spec in H. destruct H as (Hr & Hm & Hp & Hd).
  assert (Hmod : modules (work s4) = modules (work s)) by congruence.
  assert (Hread : readings s4 = readings s) by congruence.
  rewrite Hmod, Hread in Hm. rewrite Hread in Hr.
  repeat split; try congruence.
  rewrite Hm. apply map_stamp_identity.
Qed.

Lemma add_module_spec (project_id : Z) (module_info : ModuleInfo)
    (s s' : Session) (r : outcome Module_) :
  (module <- add_module import_time project_id module_info ;;
   flush fault ;;
   ret module) s = (s', r) ->
  projects (work s') = projects (work s)
  /\ durable s' = durable s
  /\ readings s' = readings s
  /\ exists row,
       modules (work s') = (modules (work s) ++ [row])%list
       /\ mod_id row = next_id (map mod_id (modules (work s)))
       /\ forall module, r = Returned module -> module = row.
Proof.
  unfold add_module. cbv [bind ret statement flush get_work put_work]. simpl.
  intros H.
  destruct (fault (statements s)); injection H as <- <-; simpl;
    repeat split; eexists; repeat split; try discriminate.
  intros module Hm. injection Hm as <-. reflexivity.
Qed.

(** What one run of [_index_module] does to the Project and Module
    tables, whether it returns or raises. *)
Lemma index_module_run (project_id : Z) (module_info : ModuleInfo)
    (s s' : Session) (r : outcome Module_) :
  _index_module fault clock import_time project_id module_info s = (s', r) ->
  projects (work s') = projects (work s)
  /\ durable s' = durable s
  /\ match find (fun m => ((mod_project_id m =? project_id)
                           && String.eqb (mod_path m) (mi_path module_info))%bool)
                (modules (work s)) with
     | Some row =>
         map module_identity (modules (work s'))
         = map module_identity (modules (work s))
         /\ forall result, r = Returned result ->
              result = stamp (mod_id row) (clock (readings s)) row
              /\ modules (work s')
                 = map (stamp (mod_id row) (clock (readings s))) (modules (work s))
     | None =>
         exists extra,
           map module_identity (modules (work s'))
           = (map module_identity (modules (work s)) ++ extra)%list
     end.
Proof.
  intros H. unfold _index_module in H. unfold bind at 1 in H.
  destruct (query_module fault project_id (mi_path module_info) s)
    as [s1 [found|e]] eqn:Eq;
    apply query_module_spec in Eq; destruct Eq as (Hw & Hr & Hd & Hf).
  2:{ injection H as <- <-. rewrite Hw. repeat split; try assumption.
      destruct (find _ (modules (work s))).
      - split; [reflexivity | discriminate].
      - exists []. now rewrite app_nil_r. }
  specialize (Hf found eq_refl). subst found.
  destruct (find _ (modules (work s))) as [row|] eqn:Hfind.
  - unfold bind at 1 in H.
    match type of H with
    | match ?c s1 with _ => _ end = _ => destruct (c s1) as [s2 [x|e]] eqn:Ec
    end.
    + pose proof (clear_returns _ _ _ _ Ec) as ->.
      apply children_clear in Ec. unfold same, outside_children in Ec.
      injection Ec as Ep Em Er Ed.
      apply index_module_tail in H. destruct H as (Hp & Hdur & Hid & Hres).
      rewrite Em, Hw in Hid. rewrite Em, Er, Hw, Hr in Hres.
      split; [congruence|]. split; [congruence|]. split; [exact Hid | exact Hres].
    + apply children_clear in Ec. unfold same, outside_children in Ec.
      injection Ec as Ep Em Er Ed. injection H as <- <-.
      repeat split; try congruence; discriminate.
  - unfold bind at 1 in H.
    match type of H with
    | match ?c s1 with _ => _ end = _ => destruct (c s1) as [s2 [x|e]] eqn:Ea
    end;
      apply add_module_spec in Ea;
      destruct Ea as (Ep & Ed & Er & row & Hrows & Hid & Hret).
    + apply index_module_tail in H. destruct H as (Hp & Hdur & Hident & _).
      repeat split; try congruence.
      exists [module_identity row].
      rewrite Hident, Hrows, map_app, Hw. reflexivity.
    + injection H as <- <-. repeat split; try congruence.
      exists [module_identity row]. rewrite Hrows, map_app, Hw. reflexivity.
Qed.

Lemma modules_index_module (project_id : Z) (module_info : ModuleInfo) :
  keeps (same outside_modules)
    (_index_module fault clock import_time project_id module_info).
Proof.
  intros s s' r H. apply index_module_run in H. destruct H as (Hp & Hd & _).
  unfold same, outside_modules. congruence.
Qed.

End Frames.

(** ** Re-indexing a module *)

(** C9. When [_index_module] finds a Module row for the project and path
    and returns, the Module table is the one it found with the time stamp
    of that row set to the clock: no row is added, and the name and the
    docstring of the row (as its id, project and path) are the ones stored
    before, whatever the description holds. *)
Theorem reindex_keeps_module_row (fault : nat -> option Exception)
    (clock : nat -> Z) (import_time : Z) (project_id : Z)
    (module_info : ModuleInfo) (s s' : Session) (row result : Module_)
    (Hfound : find (fun m => ((mod_project_id m =? project_id)
                              && String.eqb (mod_path m) (mi_path module_info))%bool)
                   (modules (work s)) = Some row)
    (Hrun : _index_module fault clock import_time project_id module_info s
            = (s', Returned result)) :
  modules (work s') = map (stamp (mod_id row) (clock (readings s))) (modules (work s))
  /\ result = stamp (mod_id row) (clock (readings s)) row
  /\ map module_identity (modules (work s')) = map module_identity (modules (work s))
  /\ mod_name result = mod_name row
  /\ mod_docstring result = mod_docstring row.
Proof.
  apply index_module_run in Hrun. destruct Hrun as (_ & _ & Hrow).
  rewrite Hfound in Hrow. destruct Hrow as [Hid Hres].
  destruct (Hres result eq_refl) as [-> Hmods].
  repeat split; try assumption.
  - pose proof (stamp_identity (mod_id row) (clock (readings s)) row) as H.
    unfold module_identity in H. congruence.
  - pose proof (stamp_identity (mod_id row) (clock (readings s)) row) as H.
    unfold module_identity in H. congruence.
Qed.

Lemma reindex_keeps_module_row_witness :
  find (fun m => ((mod_project_id m =? 1)
                  && String.eqb (mod_path m) (mi_path shapes_info_later))%bool)
       (modules (work (open_session demo_store))) = Some demo_module_row
  /\ _index_module no_fault demo_clock 0 1 shapes_info_later (open_session demo_store)
     = (fst demo_reindex, Returned (stamp 1 1000 demo_module_row))
  /\ mod_docstring (stamp 1 1000 demo_module_row) = mod_docstring demo_module_row
  /\ mod_docstring demo_module_row <> mi_docstring shapes_info_later.
Proof.
  assert (Hfound : find (fun m => ((mod_project_id m =? 1)
                  && String.eqb (mod_path m) (mi_path shapes_info_later))%bool)
       (modules (work (open_session demo_store))) = Some demo_module_row)
    by (vm_compute; reflexivity).
  assert (Hrun : _index_module no_fault demo_clock 0 1 shapes_info_later
                   (open_session demo_store)
                 = (fst demo_reindex, Returned (stamp 1 1000 demo_module_row)))
    by (vm_compute; reflexivity).
  split; [exact Hfound|]. split; [exact Hrun|]. split.
  - exact (proj2 (proj2 (proj2 (proj2
             (reindex_keeps_module_row no_fault demo_clock 0 1 shapes_info_later
                (open_session demo_store) (fst demo_reindex) demo_module_row
                (stamp 1 1000 demo_module_row) Hfound Hrun))))).
  - discriminate.
Defined.

(** The catalog after the later description was indexed: the Module row
    still has the docstring of the first index. *)
Example reindex_docstring_demo :
  map mod_docstring (modules demo_store_later) = [Some "Shapes."]
  /\ mi_docstring shapes_info_later = Some "Shapes, revised.".
Proof. split; [vm_compute; reflexivity | reflexivity]. Qed.

(** ** Indexing a project *)

Section IndexProject.

Variable fault : nat -> option Exception.
Variable clock : nat -> Z.
Variable import_time : Z.

Lemma add_project_spec (name root_path : string) (s s' : Session)
    (r : outcome Project) :
  (project <- add_project clock name root_path ;;
   flush fault ;;
   ret project) s = (s', r) ->
  durable s' = durable s
  /\ exists p,
       projects (work s') = (projects (work s) ++ [p])%list
       /\ project_root_path p = root_path
       /\ project_name p = name
       /\ project_id p = next_id (map project_id (projects (work s)))
       /\ forall project, r = Returned project -> project = p.
Proof.
  unfold add_project. cbv [bind ret statement flush get_work put_work now]. simpl.
  intros H.
  destruct (fault (statements s)); injection H as <- <-; simpl;
    split; try reflexivity; eexists; repeat split; try discriminate.
  intros project Hp. injection Hp as <-. reflexivity.
Qed.

Lemma commit_spec (s s' : Session) (r : outcome unit) :
  commit fault s = (s', r) ->
  work s' = work s
  /\ match r with
     | Returned _ => durable s' = work s
     | Raised _ => durable s' = durable s
     end.
Proof.
  unfold commit. cbv [bind statement]. intros H.
  destruct (fault (statements s)); injection H as <- <-; simpl; split; reflexivity.
Qed.

Lemma modules_loop (project_id : Z) (modules : list ModuleInfo) :
  keeps (same outside_modules)
    (for_each modules
       (fun module_info =>
          _index_module fault clock import_time project_id module_info ;; ret tt)).
Proof.
  apply keeps_for_each; [apply same_refl | apply same_trans | intros module_info].
  apply keeps_bind; [apply same_trans | apply modules_index_module|].
  intros _. apply keeps_ret. apply same_refl.
Qed.

(** What one run of the transaction does to the committed store and to
    the Project table. *)
Lemma index_project_transaction_run (name root_path : string)
    (modules : list ModuleInfo) (s s' : Session) (r : outcome Project) :
  index_project_transaction fault clock import_time name root_path modules s
  = (s', r) ->
  match r with
  | Raised _ => durable s' = durable s
  | Returned project =>
      durable s' = work s'
      /\ match find (fun p => String.eqb (project_root_path p) root_path)
                    (projects (work s)) with
         | Some p => project = p /\ projects (work s') = projects (work s)
         | None =>
             projects (work s') = (projects (work s) ++ [project])%list
             /\ project_root_path project = root_path
             /\ project_name project = name
             /\ project_id project = next_id (map project_id (projects (work s)))
         end
  end.
Proof.
  intros H. unfold index_project_transaction in H. unfold bind at 1 in H.
  destruct (query_project fault root_path s) as [s1 [found|e]] eqn:Eq;
    apply query_project_spec in Eq; destruct Eq as (Hw & _ & Hd & Hf);
    [|injection H as <- <-; exact Hd].
  specialize (Hf found eq_refl). subst found.
  unfold bind at 1 in H.
  match type of H with
  | match ?c s1 with _ => _ end = _ => destruct (c s1) as [s2 [project|e]] eqn:Ep
  end.
  2:{ injection H as <- <-.
      destruct (find _ (projects (work s))).
      - unfold ret in Ep. discriminate.
      - apply add_project_spec in Ep. destruct Ep as [Hd2 _]. congruence. }
  unfold bind at 1 in H.
  match type of H with
  | match ?c s2 with _ => _ end = _ => destruct (c s2) as [s3 [[]|e]] eqn:El
  end;
    apply modules_loop in El; unfold same, outside_modules in El;
    injection El as Elp Eld.
  2:{ injection H as <- <-.
      destruct (find _ (projects (work s))).
      - unfold ret in Ep. injection Ep as <- _. congruence.
      - apply add_project_spec in Ep. destruct Ep as [Hd2 _]. congruence. }
  unfold bind at 1 in H.
  destruct (commit fault s3) as [s4 [[]|e]] eqn:Ec;
    apply commit_spec in Ec; destruct Ec as [Hcw Hcd].
  2:{ injection H as <- <-.
      destruct (find _ (projects (work s))).
      - unfold ret in Ep. injection Ep as <- _. congruence.
      - apply add_project_spec in Ep. destruct Ep as [Hd2 _]. congruence. }
  unfold ret in H. injection H as <- <-.
  split; [congruence|].
  destruct (find _ (projects (work s))) as [p|].
  - unfold ret in Ep. injection Ep as <- <-. split; [reflexivity | congruence].
  - apply add_project_spec in Ep.
    destruct Ep as (_ & p & Hrows & Hroot & Hname & Hid & Hret).
    rewrite (Hret project eq_refl).
    repeat split; try assumption; congruence.
Qed.

(** A run of the [try] block is a run of the transaction that raised, or a
    run of the transaction that returned followed by the statement that
    loads the row again, which returns the id or raises. *)
Lemma index_project_body_cases (name root_path : string)
    (modules : list ModuleInfo) (s s' : Session) (r : outcome Z) :
  index_project_body fault clock import_time name root_path modules s = (s', r) ->
  (exists e,
     r = Raised e
     /\ index_project_transaction fault clock import_time name root_path modules s
        = (s', Raised e))
  \/ exists s4 project,
       index_project_transaction fault clock import_time name root_path modules s
       = (s4, Returned project)
       /\ durable s' = durable s4 /\ work s' = work s4
       /\ statements s' = S (statements s4)
       /\ match r with
          | Returned pid => pid = project_id project /\ fault (statements s4) = None
          | Raised e => fault (statements s4) = Some e
          end.
Proof.
  unfold index_project_body. unfold bind at 1.
  destruct (index_project_transaction fault clock import_time name root_path modules s)
    as [s4 [project|e]].
  - intros H. right. exists s4, project. split; [reflexivity|].
    unfold load_expired in H. cbv [bind statement ret] in H.
    destruct (fault (statements s4)) as [e|]; injection H as <- <-; simpl;
      repeat split; reflexivity.
  - intros H. injection H as <- <-. left. exists e. split; reflexivity.
Qed.

End IndexProject.

(** What a call does to the Project table: nothing when it raised before
    its commit; otherwise the row it works for is the first one with the
    root path, or a new last row. *)
Lemma index_project_run (fault : nat -> option Exception) (clock : nat -> Z)
    (import_time : Z) (name root_path : string) (modules : list ModuleInfo)
    (db db' : Store) (r : outcome Z) :
  index_project fault clock import_time name root_path modules db = (db', r) ->
  (db' = db /\ exists e, r = Raised e)
  \/ exists project,
       (forall pid, r = Returned pid -> pid = project_id project)
       /\ match find (fun p => String.eqb (project_root_path p) root_path)
                     (projects db) with
          | Some p => project = p /\ projects db' = projects db
          | None =>
              projects db' = (projects db ++ [project])%list
              /\ project_root_path project = root_path
              /\ project_name project = name
              /\ project_id project = next_id (map project_id (projects db))
          end.
Proof.
  unfold index_project. intros H.
  destruct (index_project_body fault clock import_time name root_path modules
              (open_session db)) as [s [pid|e]] eqn:Hbody;
    apply index_project_body_cases in Hbody;
    destruct Hbody as [(e0 & Hr & Ht) | (s4 & project & Ht & Hd & Hw & _ & Hout)];
    try discriminate; injection H as <- <-;
    apply index_project_transaction_run in Ht.
  - right. exists project. destruct Hout as [-> _].
    split; [intros ? Hp; now injection Hp as <-|].
    destruct Ht as [Hd4 Hp]. simpl in Hp. rewrite Hd, Hd4. exact Hp.
  - left. split; [exact Ht | exists e; reflexivity].
  - right. exists project. split; [discriminate|].
    destruct Ht as [Hd4 Hp]. simpl in Hp. simpl. rewrite Hd, Hd4. exact Hp.
Qed.

Lemma index_project_returns (clock : nat -> Z) (import_time : Z)
    (name root_path : string) (modules : list ModuleInfo) (db : Store) :
  exists pid,
    snd (index_project no_fault clock import_time name root_path modules db)
    = Returned pid.
Proof.
  destruct (faithful_index_project_body clock import_time name root_path modules
              no_fault (open_session db)) as [[pid Hpid] _].
  unfold index_project.
  destruct (index_project_body no_fault clock import_time name root_path modules
              (open_session db)) as [s r].
  simpl in Hpid. subst r. exists pid. reflexivity.
Qed.

Lemma find_app_last {A} (f : A -> bool) (l : list A) (x : A) :
  find f l = None -> f x = true -> find f (l ++ [x]) = Some x.
Proof.
  induction l as [|y l IH]; simpl; intros Hnone Hx.
  - now rewrite Hx.
  - destruct (f y); [discriminate | apply IH; assumption].
Qed.

Lemma find_app_first {A} (f : A -> bool) (l l' : list A) (x : A) :
  find f l = Some x -> find f (l ++ l') = Some x.
Proof.
  induction l as [|y l IH]; simpl; [discriminate|].
  destruct (f y); [trivial | exact IH].
Qed.

Lemma find_none_filter {A} (f : A -> bool) (l : list A) :
  find f l = None -> filter f l = [].
Proof.
  induction l as [|y l IH]; simpl; [reflexivity|].
  destruct (f y); [discriminate | exact IH].
Qed.

(** After a call that returned [pid], the first Project row with the root
    path is the one whose id is [pid]; it is the only one when the call
    found none, and then it has the name of the call. *)
Lemma project_found_after_index (fault : nat -> option Exception)
    (clock : nat -> Z) (import_time : Z) (name root_path : string)
    (modules : list ModuleInfo) (db db' : Store) (pid : Z) :
  index_project fault clock import_time name root_path modules db
  = (db', Returned pid) ->
  exists p,
    find (fun p => String.eqb (project_root_path p) root_path) (projects db') = Some p
    /\ project_id p = pid
    /\ (find (fun p => String.eqb (project_root_path p) root_path) (projects db) = None ->
        rooted_at root_path db' = [p] /\ project_name p = name
        /\ projects db' = (projects db ++ [p])%list).
Proof.
  intros H. apply index_project_run in H.
  destruct H as [[_ [e He]] | (project & Hpid & Hp)]; [discriminate|].
  specialize (Hpid pid eq_refl). subst pid.
  destruct (find _ (projects db)) as [p|] eqn:Hfind.
  - destruct Hp as [-> Hp]. exists p. rewrite Hp.
    split; [exact Hfind|]. split; [reflexivity | discriminate].
  - destruct Hp as (Hrows & Hroot & Hname & _).
    assert (Hself : String.eqb (project_root_path project) root_path = true)
      by (rewrite Hroot; apply String.eqb_refl).
    exists project. rewrite Hrows. split; [|split; [reflexivity|]].
    + apply find_app_last; [exact Hfind | exact Hself].
    + intros _. unfold rooted_at. rewrite Hrows, filter_app.
      rewrite (find_none_filter _ _ Hfind). simpl. rewrite Hself.
      repeat split. exact Hname.
Qed.

(** A store that has a Project row with a root path keeps its first such
    row as the first, and has no other such row than it had, after any
    call of [index_project], for this root path or another, returned or
    raised. *)
Lemma call_keeps_project (c : Call) (root_path : string) (db : Store) (p : Project) :
  find (fun p => String.eqb (project_root_path p) root_path) (projects db) = Some p ->
  find (fun p => String.eqb (project_root_path p) root_path)
       (projects (run_call c db)) = Some p
  /\ rooted_at root_path (run_call c db) = rooted_at root_path db.
Proof.
  intros Hfind. unfold run_call.
  destruct (index_project (call_fault c) (call_clock c) (call_import_time c)
              (call_name c) (call_root_path c) (call_modules c) db)
    as [db' r] eqn:Hrun.
  apply index_project_run in Hrun. simpl.
  destruct Hrun as [[-> _] | (project & _ & Hp)]; [split; [exact Hfind | reflexivity]|].
  destruct (find (fun p0 => String.eqb (project_root_path p0) (call_root_path c))
                 (projects db)) as [q|] eqn:Hq.
  - destruct Hp as [_ Hp]. unfold rooted_at. rewrite Hp.
    split; [exact Hfind | reflexivity].
  - destruct Hp as (Hrows & Hroot & _).
    assert (Hother : String.eqb (project_root_path project) root_path = false).
    { destruct (String.eqb (project_root_path project) root_path) eqn:E;
        [|reflexivity].
      apply String.eqb_eq in E. rewrite Hroot in E. subst root_path.
      rewrite Hfind in Hq. discriminate. }
    unfold rooted_at. rewrite Hrows, filter_app. simpl. rewrite Hother, app_nil_r.
    split; [apply find_app_first; exact Hfind | reflexivity].
Qed.

Lemma calls_keep_project (calls : list Call) (root_path : string) (db : Store)
    (p : Project) :
  find (fun p => String.eqb (project_root_path p) root_path) (projects db) = Some p ->
  find (fun p => String.eqb (project_root_path p) root_path)
       (projects (run_calls calls db)) = Some p
  /\ rooted_at root_path (run_calls calls db) = rooted_at root_path db.
Proof.
  revert db. induction calls as [|c calls IH]; intros db Hfind; simpl.
  - split; [exact Hfind | reflexivity].
  - destruct (call_keeps_project c root_path db p Hfind) as [Hf Hr].
    destruct (IH _ Hf) as [Hf' Hr']. split; [exact Hf' | congruence].
Qed.

(** C3. After a call of [index_project] that returned [pid] for a root
    path, the store has a Project row with this root path whose id is
    [pid], the first with the root path, and the only one, with the name
    of the call, when the call found none.  After any further calls of
    [index_project], for this root path or others, returned or raised, a
    later call for the same root path, whatever its name, its modules and
    the faults it meets, leaves the Project table as it is, returns [pid]
    if it returns, and does return when the store raises nothing; and the
    Project rows with the root path are still the ones the store had after
    the first call: no second row is made. *)
Theorem index_project_reuses_project
    (fault1 fault2 : nat -> option Exception) (clock1 clock2 : nat -> Z)
    (import_time1 import_time2 : Z) (name1 name2 root_path : string)
    (modules1 modules2 : list ModuleInfo) (calls : list Call)
    (db db1 : Store) (pid : Z)
    (Hfirst : index_project fault1 clock1 import_time1 name1 root_path modules1 db
              = (db1, Returned pid)) :
  let db2 := run_calls calls db1 in
  (exists p,
     find (fun p => String.eqb (project_root_path p) root_path) (projects db1) = Some p
     /\ project_id p = pid
     /\ (rooted_at root_path db = [] ->
         rooted_at root_path db1 = [p] /\ project_name p = name1))
  /\ projects (fst (index_project fault2 clock2 import_time2 name2 root_path
                      modules2 db2))
     = projects db2
  /\ (forall pid2,
        snd (index_project fault2 clock2 import_time2 name2 root_path modules2 db2)
        = Returned pid2 -> pid2 = pid)
  /\ snd (index_project no_fault clock2 import_time2 name2 root_path modules2 db2)
     = Returned pid
  /\ rooted_at root_path
       (fst (index_project fault2 clock2 import_time2 name2 root_path modules2 db2))
     = rooted_at root_path db1.
Proof.
  intros db2.
  apply project_found_after_index in Hfirst.
  destruct Hfirst as (p & Hfind & Hid & Hnew).
  destruct (calls_keep_project calls root_path db1 p Hfind) as [Hfind2 Hrooted2].
  fold db2 in Hfind2, Hrooted2.
  assert (Hany : forall fault db3 r,
             index_project fault clock2 import_time2 name2 root_path modules2 db2
             = (db3, r) ->
             projects db3 = projects db2
             /\ forall pid2, r = Returned pid2 -> pid2 = pid).
  { intros fault db3 r Hrun. apply index_project_run in Hrun.
    destruct Hrun as [[-> [e ->]] | (project & Hpid & Hp)];
      [split; [reflexivity | discriminate]|].
    rewrite Hfind2 in Hp. destruct Hp as [-> Hp].
    split; [exact Hp|]. intros pid2 H. rewrite (Hpid pid2 H). exact Hid. }
  split; [|split; [|split; [|split]]].
  - exists p. split; [exact Hfind|]. split; [exact Hid|].
    intros Hnone.
    assert (Hq : find (fun p0 => String.eqb (project_root_path p0) root_path)
                      (projects db) = None).
    { unfold rooted_at in Hnone.
      destruct (find _ (projects db)) as [q|] eqn:Hq; [|reflexivity].
      apply find_some in Hq.
      assert (Hin : In q (filter (fun p0 => String.eqb (project_root_path p0) root_path)
                                 (projects db))) by (apply filter_In; exact Hq).
      rewrite Hnone in Hin. contradiction. }
    destruct (Hnew Hq) as (Hone & Hname & _). split; assumption.
  - destruct (index_project fault2 clock2 import_time2 name2 root_path modules2 db2)
      as [db3 r] eqn:Hrun.
    apply (Hany _ _ _ Hrun).
  - destruct (index_project fault2 clock2 import_time2 name2 root_path modules2 db2)
      as [db3 r] eqn:Hrun.
    apply (Hany _ _ _ Hrun).
  - destruct (index_project_returns clock2 import_time2 name2 root_path modules2 db2)
      as [pid2 Hret].
    destruct (index_project no_fault clock2 import_time2 name2 root_path modules2 db2)
      as [db3 r] eqn:Hrun.
    simpl in Hret. subst r. simpl.
    f_equal. apply (proj2 (Hany _ _ _ Hrun)). reflexivity.
  - destruct (index_project fault2 clock2 import_time2 name2 root_path modules2 db2)
      as [db3 r] eqn:Hrun.
    unfold rooted_at at 1. simpl. rewrite (proj1 (Hany _ _ _ Hrun)).
    exact Hrooted2.
Qed.

Lemma index_project_reuses_project_witness :
  index_project no_fault demo_clock 0 "demo" "/srv/demo" [shapes_info] empty_store
  = (demo_store, Returned 1)
  /\ map project_root_path (projects (run_calls [other_call; failing_call] demo_store))
     = ["/srv/demo"; "/srv/other"]
  /\ projects (fst (index_project no_fault demo_clock 0 "renamed" "/srv/demo"
                      [shapes_info_later]
                      (run_calls [other_call; failing_call] demo_store)))
     = projects (run_calls [other_call; failing_call] demo_store)
  /\ snd (index_project no_fault demo_clock 0 "renamed" "/srv/demo"
            [shapes_info_later] (run_calls [other_call; failing_call] demo_store))
     = Returned 1
  /\ map project_name
       (rooted_at "/srv/demo"
          (fst (index_project no_fault demo_clock 0 "renamed" "/srv/demo"
                  [shapes_info_later]
                  (run_calls [other_call; failing_call] demo_store))))
     = ["demo"].
Proof.
  assert (Hfirst : index_project no_fault demo_clock 0 "demo" "/srv/demo"
                     [shapes_info] empty_store = (demo_store, Returned 1))
    by (vm_compute; reflexivity).
  split; [exact Hfirst|].
  split; [vm_compute; reflexivity|].
  pose proof (index_project_reuses_project no_fault no_fault demo_clock demo_clock
                0 0 "demo" "renamed" "/srv/demo" [shapes_info] [shapes_info_later]
                [other_call; failing_call] empty_store demo_store 1 Hfirst) as H.
  cbv zeta in H. destruct H as (_ & Hsame & _ & Hret & Hrooted).
  split; [exact Hsame|]. split; [exact Hret|].
  rewrite Hrooted. vm_compute. reflexivity.
Defined.

(** The demo project keeps its first name and stays the only Project row. *)
Example project_reuse_demo :
  map project_name
    (projects (fst (index_project no_fault demo_clock 0 "renamed" "/srv/demo"
                      [shapes_info_later] demo_store)))
  = ["demo"].
Proof. vm_compute. reflexivity. Qed.

(** A store that fails on the flush of the new Module row: nothing of the
    call is left, not even the Project row flushed before. *)
Example index_project_rollback_demo :
  index_project disk_full demo_clock 0 "demo" "/srv/demo" [shapes_info] empty_store
  = (empty_store, Raised "database or disk is full").
Proof. vm_compute. reflexivity. Qed.

(** C1, at an input where the code departs from it.  The module is indexed
    with a class that has one method, then indexed again from a description
    without the class.  The Class row is deleted, the row of its method is
    not: it stays among the Function rows of the module, with the id of a
    class that is no more.  Indexed twice from the same description, the
    module has the method twice, and the file view lists it twice. *)
Theorem reindex_leaves_method_rows :
  map (fun f => (fn_name f, fn_class_id f)) (functions_of 1 demo_store)
  = [("radius", Some 1); ("area", None)]
  /\ map (fun f => (fn_name f, fn_class_id f)) (functions_of 1 demo_store_later)
     = [("radius", Some 1); ("area", None)]
  /\ classes_of 1 demo_store_later = []
  /\ map (fun f => (fn_name f, fn_class_id f)) (functions_of 1 demo_store_again)
     = [("radius", Some 1); ("radius", Some 1); ("area", None)]
  /\ map cls_name (classes_of 1 demo_store_again) = ["Circle"]
  /\ (exists content elements,
        snd (get_file_content readable demo_store_again "/srv/demo/shapes.py")
        = Some (content, elements)
        /\ map el_name elements
           = ["unit"; "Circle"; "Circle.radius"; "Circle.radius"; "area"]).
Proof.
  split; [vm_compute; reflexivity|].
  split; [vm_compute; reflexivity|].
  split; [vm_compute; reflexivity|].
  split; [vm_compute; reflexivity|].
  split; [vm_compute; reflexivity|].
  eexists. eexists. split; vm_compute; reflexivity.
Qed.

(** ** The writes of one module, as a function on the store *)

Section ModuleWrites.

Variable fault : nat -> option Exception.
Variable clock : nat -> Z.
Variable import_time : Z.

Lemma loop_imports_run (module_id : Z) (xs : list ImportInfo) (s s' : Session)
    (r : outcome unit) :
  for_each xs (fun import_info => _index_import module_id import_info ;; ret tt) s
  = (s', r) ->
  r = Returned tt
  /\ work s' = fold_left (insert_import module_id) xs (work s)
  /\ readings s' = readings s.
Proof.
  revert s. induction xs as [|x xs IH]; intros s H; simpl in H.
  - unfold ret in H. injection H as <- <-. repeat split.
  - unfold bind at 1 in H. unfold _index_import in H.
    cbv [bind ret get_work put_work] in H. simpl in H.
    apply IH in H. exact H.
Qed.

Lemma loop_variables_run (module_id : Z) (xs : list (string * (Z * string)))
    (s s' : Session) (r : outcome unit) :
  for_each xs
    (fun item =>
       let '(name, (lineno, value)) := item in
       _index_variable module_id name lineno value ;; ret tt) s
  = (s', r) ->
  r = Returned tt
  /\ work s' = fold_left (insert_variable module_id) xs (work s)
  /\ readings s' = readings s.
Proof.
  revert s. induction xs as [|[name [lineno value]] xs IH]; intros s H; simpl in H.
  - unfold ret in H. injection H as <- <-. repeat split.
  - unfold bind at 1 in H. unfold _index_variable in H.
    cbv [bind ret get_work put_work] in H. simpl in H.
    apply IH in H. exact H.
Qed.

Lemma loop_functions_run (module_id : Z) (class_id : option Z)
    (xs : list FunctionInfo) (s s' : Session) (r : outcome unit) :
  for_each xs
    (fun func_info => _index_function module_id class_id func_info ;; ret tt) s
  = (s', r) ->
  r = Returned tt
  /\ work s' = fold_left (insert_function module_id class_id) xs (work s)
  /\ readings s' = readings s.
Proof.
  revert s. induction xs as [|x xs IH]; intros s H; simpl in H.
  - unfold ret in H. injection H as <- <-. repeat split.
  - unfold bind at 1 in H. unfold _index_function in H.
    cbv [bind ret get_work put_work] in H. simpl in H.
    apply IH in H. exact H.
Qed.

Lemma index_class_run (module_id : Z) (class_info : ClassInfo) (s s' : Session)
    (c : Class_) :
  _index_class fault module_id class_info s = (s', Returned c) ->
  work s' = insert_class module_id (work s) class_info
  /\ readings s' = readings s.
Proof.
  unfold _index_class. intros H.
  unfold bind at 1 2 in H. unfold get_work, put_work in H.
  unfold bind at 1 in H. unfold flush, statement in H. simpl in H.
  destruct (fault (statements s)); [discriminate|].
  unfold bind at 1 in H.
  match type of H with
  | match ?loop ?s0 with _ => _ end = _ =>
      destruct (loop s0) as [s1 r1] eqn:Hloop
  end.
  apply loop_functions_run in Hloop. destruct Hloop as (-> & Hw & Hr).
  unfold ret in H. injection H as <- _.
  split; [exact Hw | exact Hr].
Qed.

Lemma loop_classes_run (module_id : Z) (xs : list ClassInfo) (s s' : Session) :
  for_each xs
    (fun class_info => _index_class fault module_id class_info ;; ret tt) s
  = (s', Returned tt) ->
  work s' = fold_left (insert_class module_id) xs (work s)
  /\ readings s' = readings s.
Proof.
  revert s. induction xs as [|x xs IH]; intros s H; simpl in H.
  - unfold ret in H. injection H as <-. split; reflexivity.
  - apply bind_returned in H. destruct H as (s1 & [] & Hx & H).
    apply bind_returned in Hx. destruct Hx as (s2 & c & Hc & Hret).
    unfold ret in Hret. injection Hret as <-.
    apply index_class_run in Hc. destruct Hc as [Hw Hr].
    apply IH in H. destruct H as [Hw' Hr'].
    simpl. split; congruence.
Qed.

Lemma clear_run (module x : Module_) (s s' : Session) :
  (delete_toplevel_functions fault (mod_id module) ;;
   delete_classes fault (mod_id module) ;;
   delete_imports fault (mod_id module) ;;
   delete_variables fault (mod_id module) ;;
   ret module) s = (s', Returned x) ->
  work s' = clear_module (mod_id module) (work s).
Proof.
  unfold delete_toplevel_functions, delete_classes, delete_imports, delete_variables.
  cbv [bind ret statement get_work put_work]. simpl.
  destruct (fault (statements s)); simpl; [discriminate|].
  destruct (fault (S (statements s))); simpl; [discriminate|].
  destruct (fault (S (S (statements s)))); simpl; [discriminate|].
  destruct (fault (S (S (S (statements s))))); simpl; [discriminate|].
  intros H. injection H as <- _. reflexivity.
Qed.

Lemma set_last_indexed_writes (module : Module_) (s s' : Session)
    (r : outcome Module_) :
  set_last_indexed clock module s = (s', r) ->
  work s' = stamp_module (mod_id module) (clock (readings s)) (work s).
Proof.
  unfold set_last_indexed. cbv [bind ret now get_work put_work]. intros H.
  injection H as <- _. reflexivity.
Qed.

(** The store a returning [_index_module] leaves: the rows of the module
    cleared when the Module row was there, or the Module row added when it
    was not; then the rows of the description inserted; then the time
    stamp. *)
Lemma index_module_writes_result (project_id : Z) (module_info : ModuleInfo)
    (s s' : Session) (result : Module_) :
  _index_module fault clock import_time project_id module_info s
  = (s', Returned result) ->
  match find (fun m => ((mod_project_id m =? project_id)
                        && String.eqb (mod_path m) (mi_path module_info))%bool)
             (modules (work s)) with
  | Some row =>
      work s'
      = stamp_module (mod_id row) (clock (readings s))
          (insert_children (mod_id row) module_info
             (clear_module (mod_id row) (work s)))
      /\ result = stamp (mod_id row) (clock (readings s)) row
  | None =>
      let row := new_module_row import_time project_id module_info (work s) in
      work s'
      = stamp_module (mod_id row) (clock (readings s))
          (insert_children (mod_id row) module_info
             (set_modules (work s) (modules (work s) ++ [row])))
      /\ result = stamp (mod_id row) (clock (readings s)) row
  end.
Proof.
  intros H. unfold _index_module in H.
  apply bind_returned in H. destruct H as (s1 & found & Hq & H).
  apply query_module_spec in Hq. destruct Hq as (Hw & Hr & _ & Hf).
  specialize (Hf found eq_refl). subst found.
  apply bind_returned in H. destruct H as (s2 & module & Hbranch & H).
  assert (Hstart :
    work s2
    = match find (fun m => ((mod_project_id m =? project_id)
                            && String.eqb (mod_path m) (mi_path module_info))%bool)
                 (modules (work s)) with
      | Some row => clear_module (mod_id row) (work s)
      | None =>
          set_modules (work s)
            (modules (work s)
             ++ [new_module_row import_time project_id module_info (work s)])
      end
    /\ readings s2 = readings s
    /\ module
       = match find (fun m => ((mod_project_id m =? project_id)
                               && String.eqb (mod_path m) (mi_path module_info))%bool)
                    (modules (work s)) with
         | Some row => row
         | None => new_module_row import_time project_id module_info (work s)
         end).
  { destruct (find _ (modules (work s))) as [row|].
    - pose proof (clear_returns fault _ _ _ _ Hbranch) as ->.
      pose proof (children_clear fault _ _ _ _ Hbranch) as Hframe.
      unfold same, outside_children in Hframe. injection Hframe as _ _ Hr2 _.
      apply clear_run in Hbranch. repeat split; congruence.
    - unfold add_module in Hbranch.
      cbv [bind ret statement flush get_work put_work] in Hbranch.
      simpl in Hbranch.
      destruct (fault (statements s1)); [discriminate|].
      injection Hbranch as <- <-. simpl. rewrite Hw.
      repeat split; try assumption. }
  destruct Hstart as (Hw2 & Hr2 & Hmodule).
  apply bind_returned in H. destruct H as (s3 & [] & H3 & H).
  apply loop_imports_run in H3. destruct H3 as (_ & Hw3 & Hr3).
  apply bind_returned in H. destruct H as (s4 & [] & H4 & H).
  apply loop_variables_run in H4. destruct H4 as (_ & Hw4 & Hr4).
  apply bind_returned in H. destruct H as (s5 & [] & H5 & H).
  apply loop_classes_run in H5. destruct H5 as (Hw5 & Hr5).
  apply bind_returned in H. destruct H as (s6 & [] & H6 & H).
  apply loop_functions_run in H6. destruct H6 as (_ & Hw6 & Hr6).
  pose proof (set_last_indexed_spec clock _ _ _ _ H) as (Hres & _).
  injection Hres as ->.
  apply set_last_indexed_writes in H.
  rewrite H, Hw6, Hw5, Hw4, Hw3, Hr6, Hr5, Hr4, Hr3, Hr2, Hmodule, Hw2.
  unfold insert_children.
  destruct (find _ (modules (work s))); split; reflexivity.
Qed.

Lemma index_module_writes (project_id : Z) (module_info : ModuleInfo)
    (s s' : Session) (result : Module_) :
  _index_module fault clock import_time project_id module_info s
  = (s', Returned result) ->
  work s'
  = match find (fun m => ((mod_project_id m =? project_id)
                          && String.eqb (mod_path m) (mi_path module_info))%bool)
               (modules (work s)) with
    | Some row =>
        stamp_module (mod_id row) (clock (readings s))
          (insert_children (mod_id row) module_info
             (clear_module (mod_id row) (work s)))
    | None =>
        let row := new_module_row import_time project_id module_info (work s) in
        stamp_module (mod_id row) (clock (readings s))
          (insert_children (mod_id row) module_info
             (set_modules (work s) (modules (work s) ++ [row])))
    end.
Proof.
  intros H. apply index_module_writes_result in H.
  destruct (find _ (modules (work s))); apply H.
Qed.

End ModuleWrites.

(** ** Rows appended to a table *)

Section AppendRows.

Context {Row X : Type}.
Variable id : Row -> Z.
Variable mk : Z -> X -> Row.
Hypothesis id_mk : forall i x, id (mk i x) = i.

Lemma next_id_above (ids : list Z) (i : Z) : In i ids -> i < next_id ids.
Proof.
  unfold next_id. induction ids as [|j ids IH]; cbn [fold_right In]; intros H.
  - contradiction.
  - destruct H as [->|H]; [lia|]. specialize (IH H). lia.
Qed.

Lemma next_id_fresh (ids : list Z) : ~ In (next_id ids) ids.
Proof. intros H. apply next_id_above in H. lia. Qed.

Lemma next_id_positive (ids : list Z) : 0 < next_id ids.
Proof.
  unfold next_id. assert (0 <= fold_right Z.max 0 ids); [|lia].
  induction ids as [|j ids IH]; cbn [fold_right]; lia.
Qed.

Lemma append_rows_app (xs : list X) (rows : list Row) :
  exists added,
    append_rows id mk xs rows = (rows ++ added)%list
    /\ List.length added = List.length xs
    /\ (forall (C : Type) (content : Row -> C) (described : X -> C),
          (forall i x, content (mk i x) = described x) ->
          map content added = map described xs)
    /\ (forall P : Row -> Prop, (forall i x, P (mk i x)) -> Forall P added).
Proof.
  revert rows. induction xs as [|x xs IH]; intros rows; simpl.
  - exists []. rewrite app_nil_r. repeat split; try reflexivity. constructor.
  - destruct (IH (rows ++ [mk (next_id (map id rows)) x])%list)
      as (added & Heq & Hlen & Hcontent & Hall).
    exists (mk (next_id (map id rows)) x :: added).
    rewrite Heq, <- app_assoc. simpl.
    split; [reflexivity|]. split; [now rewrite Hlen|]. split.
    + intros C content described H. rewrite H. f_equal. now apply Hcontent.
    + intros P HP. constructor; [apply HP | now apply Hall].
Qed.

Lemma append_rows_nodup (xs : list X) (rows : list Row) :
  NoDup (map id rows) -> NoDup (map id (append_rows id mk xs rows)).
Proof.
  revert rows. induction xs as [|x xs IH]; intros rows Hnd; simpl.
  - exact Hnd.
  - apply IH. rewrite map_app. simpl. rewrite id_mk.
    apply NoDup_app_remove_l with (l := []). simpl.
    apply Permutation_NoDup with (l := next_id (map id rows) :: map id rows).
    + apply Permutation_cons_append.
    + constructor; [apply next_id_fresh | exact Hnd].
Qed.

End AppendRows.

(** ** The tables after the rows of a description are inserted *)

Lemma fold_insert_import (module_id : Z) (xs : list ImportInfo) (w : Store) :
  imports (fold_left (insert_import module_id) xs w)
  = append_rows imp_id (fun id => import_row id module_id) xs (imports w)
  /\ projects (fold_left (insert_import module_id) xs w) = projects w
  /\ modules (fold_left (insert_import module_id) xs w) = modules w
  /\ functions (fold_left (insert_import module_id) xs w) = functions w
  /\ classes (fold_left (insert_import module_id) xs w) = classes w
  /\ variables (fold_left (insert_import module_id) xs w) = variables w.
Proof.
  revert w. induction xs as [|x xs IH]; intros w; simpl.
  - repeat split.
  - destruct (IH (insert_import module_id w x)) as (H1 & H2 & H3 & H4 & H5 & H6).
    rewrite H1, H2, H3, H4, H5, H6. repeat split.
Qed.

Lemma fold_insert_variable (module_id : Z) (xs : list (string * (Z * string)))
    (w : Store) :
  variables (fold_left (insert_variable module_id) xs w)
  = append_rows var_id (fun id => variable_row id module_id) xs (variables w)
  /\ projects (fold_left (insert_variable module_id) xs w) = projects w
  /\ modules (fold_left (insert_variable module_id) xs w) = modules w
  /\ functions (fold_left (insert_variable module_id) xs w) = functions w
  /\ classes (fold_left (insert_variable module_id) xs w) = classes w
  /\ imports (fold_left (insert_variable module_id) xs w) = imports w.
Proof.
  revert w. induction xs as [|x xs IH]; intros w; simpl.
  - repeat split.
  - destruct (IH (insert_variable module_id w x)) as (H1 & H2 & H3 & H4 & H5 & H6).
    rewrite H1, H2, H3, H4, H5, H6. repeat split.
Qed.

Lemma fold_insert_function (module_id : Z) (class_id : option Z)
    (xs : list FunctionInfo) (w : Store) :
  functions (fold_left (insert_function module_id class_id) xs w)
  = append_rows fn_id (fun id => function_row id module_id class_id) xs (functions w)
  /\ projects (fold_left (insert_function module_id class_id) xs w) = projects w
  /\ modules (fold_left (insert_function module_id class_id) xs w) = modules w
  /\ classes (fold_left (insert_function module_id class_id) xs w) = classes w
  /\ imports (fold_left (insert_function module_id class_id) xs w) = imports w
  /\ variables (fold_left (insert_function module_id class_id) xs w) = variables w.
Proof.
  revert w. induction xs as [|x xs IH]; intros w; simpl.
  - repeat split.
  - destruct (IH (insert_function module_id class_id w x))
      as (H1 & H2 & H3 & H4 & H5 & H6).
    rewrite H1, H2, H3, H4, H5, H6. repeat split.
Qed.

(** A method row: a Function row of the module with a class id. *)
Lemma fold_insert_class (module_id : Z) (cs : list ClassInfo) (w : Store) :
  classes (fold_left (insert_class module_id) cs w)
  = append_rows cls_id (fun id => class_row id module_id) cs (classes w)
  /\ projects (fold_left (insert_class module_id) cs w) = projects w
  /\ modules (fold_left (insert_class module_id) cs w) = modules w
  /\ imports (fold_left (insert_class module_id) cs w) = imports w
  /\ variables (fold_left (insert_class module_id) cs w) = variables w
  /\ (NoDup (map fn_id (functions w)) ->
      NoDup (map fn_id (functions (fold_left (insert_class module_id) cs w))))
  /\ exists added,
       functions (fold_left (insert_class module_id) cs w)
       = (functions w ++ added)%list
       /\ map function_content added
          = map function_info_content (flat_map ci_methods cs)
       /\ Forall (fun f => fn_module_id f = module_id /\ fn_class_id f <> None) added.
Proof.
  revert w. induction cs as [|c cs IH]; intros w; simpl.
  - repeat split; try tauto. exists []. rewrite app_nil_r.
    repeat split. constructor.
  - destruct (IH (insert_class module_id w c))
      as (H1 & H2 & H3 & H4 & H5 & H6 & added & H7 & H8 & H9).
    unfold insert_class in *.
    set (cid := next_id (map cls_id (classes w))) in *.
    set (w0 := set_classes w (classes w ++ [class_row cid module_id c])) in *.
    destruct (fold_insert_function module_id (Some cid) (ci_methods c) w0)
      as (F1 & F2 & F3 & F4 & F5 & F6).
    rewrite H1, H2, H3, H4, H5, F2, F3, F4, F5, F6.
    split; [reflexivity|]. repeat (split; [reflexivity|]).
    split.
    + intros Hnd. apply H6. rewrite F1.
      apply append_rows_nodup; [reflexivity | exact Hnd].
    + destruct (append_rows_app fn_id
                  (fun id => function_row id module_id (Some cid))
                  (ci_methods c) (functions w0))
        as (methods & Hm & _ & Hcontent & Hall).
      exists (methods ++ added)%list.
      rewrite H7, F1, Hm, <- app_assoc.
      split; [reflexivity|]. split.
      * rewrite !map_app, H8. f_equal.
        apply (Hcontent _ function_content function_info_content).
        reflexivity.
      * apply Forall_app. split; [|exact H9].
        apply Hall. intros i x. simpl. split; [reflexivity | discriminate].
Qed.

(** The Class rows and the method rows a list of classes adds: each method
    row names the row of its class. *)
Lemma fold_insert_class_methods (module_id : Z) (cs : list ClassInfo) (w : Store) :
  exists rows added,
    classes (fold_left (insert_class module_id) cs w) = (classes w ++ rows)%list
    /\ functions (fold_left (insert_class module_id) cs w)
       = (functions w ++ added)%list
    /\ map method_content added = methods_by_class rows cs
    /\ Forall (fun c => cls_module_id c = module_id) rows
    /\ Forall (fun f => fn_module_id f = module_id /\ fn_class_id f <> None) added.
Proof.
  revert w. induction cs as [|c cs IH]; intros w; simpl.
  - exists [], []. rewrite !app_nil_r. repeat split; constructor.
  - destruct (IH (insert_class module_id w c))
      as (rows & added & Hc & Hf & Htie & Hmod & Hall).
    unfold insert_class in *.
    set (cid := next_id (map cls_id (classes w))) in *.
    set (w0 := set_classes w (classes w ++ [class_row cid module_id c])) in *.
    destruct (fold_insert_function module_id (Some cid) (ci_methods c) w0)
      as (F1 & _ & _ & F4 & _ & _).
    destruct (append_rows_app fn_id
                (fun id => function_row id module_id (Some cid))
                (ci_methods c) (functions w0))
      as (methods & Hm & _ & Hcontent & Hallm).
    exists (class_row cid module_id c :: rows), (methods ++ added)%list.
    rewrite Hc, Hf, F4, F1, Hm.
    change (classes w0) with (classes w ++ [class_row cid module_id c])%list.
    change (functions w0) with (functions w).
    rewrite <- !app_assoc.
    split; [reflexivity|]. split; [reflexivity|]. split; [|split].
    + unfold methods_by_class. cbn [combine flat_map fst snd].
      rewrite map_app. f_equal; [|exact Htie].
      apply (Hcontent _ method_content
               (fun m => (Some cid, function_info_content m))).
      reflexivity.
    + constructor; [reflexivity | exact Hmod].
    + apply Forall_app. split; [|exact Hall].
      apply Hallm. intros i x. simpl. split; [reflexivity | discriminate].
Qed.

Lemma filter_all {A} (p : A -> bool) (l : list A) :
  Forall (fun x => p x = true) l -> filter p l = l.
Proof.
  induction 1 as [|x l Hx _ IH]; simpl; [reflexivity|]. now rewrite Hx, IH.
Qed.

Lemma filter_none {A} (p : A -> bool) (l : list A) :
  Forall (fun x => p x = false) l -> filter p l = [].
Proof.
  induction 1 as [|x l Hx _ IH]; simpl; [reflexivity|]. now rewrite Hx.
Qed.

Lemma filter_cleared {A} (p : A -> bool) (l : list A) :
  filter p (filter (fun x => negb (p x)) l) = [].
Proof.
  apply filter_none. apply Forall_forall. intros x Hx.
  apply filter_In in Hx. destruct Hx as [_ Hx]. now apply negb_true_iff in Hx.
Qed.

Lemma filter_filter_implied {A} (p q : A -> bool) (l : list A) :
  (forall x, p x = true -> q x = true) -> filter p (filter q l) = filter p l.
Proof.
  intros H. induction l as [|x l IH]; simpl; [reflexivity|].
  destruct (q x) eqn:Hq; simpl.
  - now rewrite IH.
  - destruct (p x) eqn:Hp; [|exact IH]. apply H in Hp. congruence.
Qed.

(** The rows of a module in a table that was cleared of them and then
    given new rows of that module: the new rows. *)
Lemma filter_replaced {Row X : Type} (id : Row -> Z) (mk : Z -> X -> Row)
    (p : Row -> bool) (xs : list X) (l : list Row) :
  (forall i x, p (mk i x) = true) ->
  exists added,
    filter p (append_rows id mk xs (filter (fun r => negb (p r)) l)) = added
    /\ forall (C : Type) (content : Row -> C) (described : X -> C),
         (forall i x, content (mk i x) = described x) ->
         map content added = map described xs.
Proof.
  intros Hp.
  destruct (append_rows_app id mk xs (filter (fun r => negb (p r)) l))
    as (added & Heq & _ & Hcontent & Hall).
  exists added. split; [|exact Hcontent].
  rewrite Heq, filter_app, filter_cleared. simpl.
  apply filter_all. apply Hall. exact Hp.
Qed.

(** The tables of a module once its rows were cleared and the rows of a
    description inserted. *)
Lemma replaced_children (module_id : Z) (module_info : ModuleInfo) (w : Store) :
  let w' := insert_children module_id module_info (clear_module module_id w) in
  map import_content (imports_of module_id w')
  = map import_info_content (mi_imports module_info)
  /\ map variable_content (variables_of module_id w')
     = map variable_item_content (mi_variables module_info)
  /\ map class_content (classes_of module_id w')
     = map class_info_content (mi_classes module_info)
  /\ map function_content (toplevel_functions_of module_id w')
     = map function_info_content (mi_functions module_info)
  /\ (exists added,
        methods_of module_id w' = (methods_of module_id w ++ added)%list
        /\ map function_content added
           = map function_info_content (described_methods module_info))
  /\ projects w' = projects w /\ modules w' = modules w.
Proof.
  intros w'. subst w'. unfold insert_children.
  set (w0 := clear_module module_id w).
  set (w1 := fold_left (insert_import module_id) (mi_imports module_info) w0).
  set (w2 := fold_left (insert_variable module_id) (mi_variables module_info) w1).
  set (w3 := fold_left (insert_class module_id) (mi_classes module_info) w2).
  destruct (fold_insert_import module_id (mi_imports module_info) w0)
    as (I1 & I2 & I3 & I4 & I5 & I6).
  destruct (fold_insert_variable module_id (mi_variables module_info) w1)
    as (V1 & V2 & V3 & V4 & V5 & V6).
  destruct (fold_insert_class module_id (mi_classes module_info) w2)
    as (C1 & C2 & C3 & C4 & C5 & _ & methods & C7 & C8 & C9).
  destruct (fold_insert_function module_id None (mi_functions module_info) w3)
    as (F1 & F2 & F3 & F4 & F5 & F6).
  fold w1 in I1, I2, I3, I4, I5, I6. fold w2 in V1, V2, V3, V4, V5, V6.
  fold w3 in C1, C2, C3, C4, C5, C7.
  split; [|split; [|split; [|split; [|split]]]].
  - unfold imports_of. rewrite F5, C4, V6, I1. unfold w0, clear_module. simpl.
    destruct (filter_replaced imp_id (fun id => import_row id module_id)
                (fun i => imp_module_id i =? module_id)
                (mi_imports module_info) (imports w)) as (added & -> & Hc).
    { intros i x. simpl. apply Z.eqb_refl. }
    apply Hc. reflexivity.
  - unfold variables_of. rewrite F6, C5, V1, I6. unfold w0, clear_module. simpl.
    destruct (filter_replaced var_id (fun id => variable_row id module_id)
                (fun v => var_module_id v =? module_id)
                (mi_variables module_info) (variables w)) as (added & -> & Hc).
    { intros i x. simpl. apply Z.eqb_refl. }
    apply Hc. reflexivity.
  - unfold classes_of. rewrite F4, C1, V5, I5. unfold w0, clear_module. simpl.
    destruct (filter_replaced cls_id (fun id => class_row id module_id)
                (fun c => cls_module_id c =? module_id)
                (mi_classes module_info) (classes w)) as (added & -> & Hc).
    { intros i x. simpl. apply Z.eqb_refl. }
    apply Hc. reflexivity.
  - unfold toplevel_functions_of. rewrite F1, C7, V4, I4.
    unfold w0, clear_module. simpl.
    destruct (append_rows_app fn_id (fun id => function_row id module_id None)
                (mi_functions module_info)
                (filter (fun f => negb ((fn_module_id f =? module_id)
                                        && optZ_eqb (fn_class_id f) None))
                        (functions w) ++ methods))
      as (added & -> & _ & Hc & Hall).
    rewrite !filter_app.
    rewrite (filter_cleared
               (fun f => ((fn_module_id f =? module_id)
                          && optZ_eqb (fn_class_id f) None)%bool)).
    rewrite (filter_none _ methods).
    + simpl. rewrite filter_all.
      * apply Hc. reflexivity.
      * apply Hall. intros i x. simpl. now rewrite Z.eqb_refl.
    + eapply Forall_impl; [|exact C9]. intros f [_ Hcls]. simpl in *.
      destruct (fn_class_id f); [|congruence]. simpl. apply andb_false_r.
  - unfold methods_of. rewrite F1, C7, V4, I4. unfold w0, clear_module. simpl.
    destruct (append_rows_app fn_id (fun id => function_row id module_id None)
                (mi_functions module_info)
                (filter (fun f => negb ((fn_module_id f =? module_id)
                                        && optZ_eqb (fn_class_id f) None))
                        (functions w) ++ methods))
      as (added & -> & _ & _ & Hall).
    exists methods. split; [|exact C8].
    rewrite !filter_app. rewrite (filter_none _ added).
    + rewrite app_nil_r. f_equal.
      * apply filter_filter_implied. intros f Hf.
        apply andb_prop in Hf. destruct Hf as [_ Hf].
        apply negb_true_iff in Hf. rewrite Hf. now rewrite andb_false_r.
      * apply filter_all. eapply Forall_impl; [|exact C9].
        intros f [Hm Hcls]. simpl in *. rewrite Hm, Z.eqb_refl.
        destruct (fn_class_id f); [reflexivity | congruence].
    + apply Hall. intros i x. simpl. now rewrite Z.eqb_refl.
  - split.
    + rewrite F2, C2, V2, I2. reflexivity.
    + rewrite F3, C3, V3, I3. reflexivity.
Qed.

(** The method rows of a module once its rows were cleared and the rows of
    a description inserted: the ones it had, and after them the methods of
    the description, each naming the row of its class among the Class rows
    the module has now. *)
Lemma replaced_methods_by_class (module_id : Z) (module_info : ModuleInfo)
    (w : Store) :
  let w' := insert_children module_id module_info (clear_module module_id w) in
  exists added,
    methods_of module_id w' = (methods_of module_id w ++ added)%list
    /\ map method_content added
       = methods_by_class (classes_of module_id w') (mi_classes module_info).
Proof.
  intros w'. subst w'. unfold insert_children.
  set (w0 := clear_module module_id w).
  set (w1 := fold_left (insert_import module_id) (mi_imports module_info) w0).
  set (w2 := fold_left (insert_variable module_id) (mi_variables module_info) w1).
  set (w3 := fold_left (insert_class module_id) (mi_classes module_info) w2).
  destruct (fold_insert_import module_id (mi_imports module_info) w0)
    as (_ & _ & _ & I4 & I5 & _).
  destruct (fold_insert_variable module_id (mi_variables module_info) w1)
    as (_ & _ & _ & V4 & V5 & _).
  destruct (fold_insert_class_methods module_id (mi_classes module_info) w2)
    as (rows & methods & Hc & Hf & Htie & Hmod & Hall).
  destruct (fold_insert_function module_id None (mi_functions module_info) w3)
    as (F1 & _ & _ & F4 & _ & _).
  fold w1 in I4, I5. fold w2 in V4, V5. fold w3 in Hc, Hf, F1, F4.
  exists methods. split.
  - unfold methods_of. rewrite F1, Hf, V4, I4. unfold w0, clear_module. simpl.
    destruct (append_rows_app fn_id (fun id => function_row id module_id None)
                (mi_functions module_info)
                (filter (fun f => negb ((fn_module_id f =? module_id)
                                        && optZ_eqb (fn_class_id f) None))
                        (functions w) ++ methods))
      as (added & -> & _ & _ & Hadded).
    rewrite !filter_app. rewrite (filter_none _ added).
    + rewrite app_nil_r. f_equal.
      * apply filter_filter_implied. intros f Hf0.
        apply andb_prop in Hf0. destruct Hf0 as [_ Hf0].
        apply negb_true_iff in Hf0. rewrite Hf0. now rewrite andb_false_r.
      * apply filter_all. eapply Forall_impl; [|exact Hall].
        intros f [Hm Hcls]. simpl in *. rewrite Hm, Z.eqb_refl.
        destruct (fn_class_id f); [reflexivity | congruence].
    + apply Hadded. intros i x. simpl. now rewrite Z.eqb_refl.
  - rewrite Htie. f_equal.
    unfold classes_of. rewrite F4, Hc, V5, I5. unfold w0, clear_module. simpl.
    rewrite filter_app.
    rewrite (filter_cleared (fun c => cls_module_id c =? module_id)). simpl.
    symmetry. apply filter_all. eapply Forall_impl; [|exact Hmod].
    intros c Hcm. simpl in *. rewrite Hcm. apply Z.eqb_refl.
Qed.

(** ** What a re-index does to the rows of the module *)

(** When [_index_module] finds the Module row and returns, the Import,
    Variable and Class rows of the module and its top-level Function rows
    are, in order and in every column but the rowid (the lists of
    arguments, decorators and base classes as their JSON text), the ones
    the description gives: nothing of the earlier rows of these four kinds
    is left and nothing is there twice. *)
Theorem reindex_replaces_direct_children (fault : nat -> option Exception)
    (clock : nat -> Z) (import_time : Z) (project_id : Z)
    (module_info : ModuleInfo) (s s' : Session) (row result : Module_)
    (Hfound : find (fun m => ((mod_project_id m =? project_id)
                              && String.eqb (mod_path m) (mi_path module_info))%bool)
                   (modules (work s)) = Some row)
    (Hrun : _index_module fault clock import_time project_id module_info s
            = (s', Returned result)) :
  map import_content (imports_of (mod_id row) (work s'))
  = map import_info_content (mi_imports module_info)
  /\ map variable_content (variables_of (mod_id row) (work s'))
     = map variable_item_content (mi_variables module_info)
  /\ map class_content (classes_of (mod_id row) (work s'))
     = map class_info_content (mi_classes module_info)
  /\ map function_content (toplevel_functions_of (mod_id row) (work s'))
     = map function_info_content (mi_functions module_info).
Proof.
  rewrite (index_module_writes _ _ _ _ _ _ _ _ Hrun), Hfound.
  destruct (replaced_children (mod_id row) module_info (work s))
    as (H1 & H2 & H3 & H4 & _).
  repeat split; assumption.
Qed.

Lemma reindex_replaces_direct_children_witness :
  find (fun m => ((mod_project_id m =? 1)
                  && String.eqb (mod_path m) (mi_path shapes_info))%bool)
       (modules (work (open_session demo_store))) = Some demo_module_row
  /\ _index_module no_fault demo_clock 0 1 shapes_info (open_session demo_store)
     = (fst demo_reindex_same, Returned (stamp 1 1000 demo_module_row))
  /\ map class_content
       (classes_of (mod_id demo_module_row) (work (fst demo_reindex_same)))
     = map class_info_content (mi_classes shapes_info)
  /\ map function_content
       (toplevel_functions_of (mod_id demo_module_row) (work (fst demo_reindex_same)))
     = map function_info_content (mi_functions shapes_info)
  /\ map cls_id (classes_of (mod_id demo_module_row) (work (fst demo_reindex_same)))
     = [1].
Proof.
  assert (Hfound : find (fun m => ((mod_project_id m =? 1)
                  && String.eqb (mod_path m) (mi_path shapes_info))%bool)
       (modules (work (open_session demo_store))) = Some demo_module_row)
    by (vm_compute; reflexivity).
  assert (Hrun : _index_module no_fault demo_clock 0 1 shapes_info
                   (open_session demo_store)
                 = (fst demo_reindex_same, Returned (stamp 1 1000 demo_module_row)))
    by (vm_compute; reflexivity).
  split; [exact Hfound|]. split; [exact Hrun|].
  pose proof (reindex_replaces_direct_children no_fault demo_clock 0 1
                shapes_info (open_session demo_store) (fst demo_reindex_same)
                demo_module_row (stamp 1 1000 demo_module_row) Hfound Hrun) as H.
  split; [exact (proj1 (proj2 (proj2 H)))|].
  split; [exact (proj2 (proj2 (proj2 H)))|].
  vm_compute. reflexivity.
Defined.

(** When [_index_module] finds the Module row and returns, the method rows
    of the module are the method rows it had before, followed by one row
    for each method of the description: the bulk deletes remove no method
    row. *)
Theorem reindex_appends_method_rows (fault : nat -> option Exception)
    (clock : nat -> Z) (import_time : Z) (project_id : Z)
    (module_info : ModuleInfo) (s s' : Session) (row result : Module_)
    (Hfound : find (fun m => ((mod_project_id m =? project_id)
                              && String.eqb (mod_path m) (mi_path module_info))%bool)
                   (modules (work s)) = Some row)
    (Hrun : _index_module fault clock import_time project_id module_info s
            = (s', Returned result)) :
  exists added,
    methods_of (mod_id row) (work s')
    = (methods_of (mod_id row) (work s) ++ added)%list
    /\ map function_content added
       = map function_info_content (described_methods module_info).
Proof.
  rewrite (index_module_writes _ _ _ _ _ _ _ _ Hrun), Hfound.
  destruct (replaced_children (mod_id row) module_info (work s))
    as (_ & _ & _ & _ & H & _).
  exact H.
Qed.

Lemma reindex_appends_method_rows_witness :
  find (fun m => ((mod_project_id m =? 1)
                  && String.eqb (mod_path m) (mi_path shapes_info))%bool)
       (modules (work (open_session demo_store))) = Some demo_module_row
  /\ _index_module no_fault demo_clock 0 1 shapes_info (open_session demo_store)
     = (fst demo_reindex_same, Returned (stamp 1 1000 demo_module_row))
  /\ exists added,
       methods_of (mod_id demo_module_row) (work (fst demo_reindex_same))
       = (methods_of (mod_id demo_module_row) (work (open_session demo_store))
          ++ added)%list
       /\ map function_content added
          = map function_info_content (described_methods shapes_info).
Proof.
  assert (Hfound : find (fun m => ((mod_project_id m =? 1)
                  && String.eqb (mod_path m) (mi_path shapes_info))%bool)
       (modules (work (open_session demo_store))) = Some demo_module_row)
    by (vm_compute; reflexivity).
  assert (Hrun : _index_module no_fault demo_clock 0 1 shapes_info
                   (open_session demo_store)
                 = (fst demo_reindex_same, Returned (stamp 1 1000 demo_module_row)))
    by (vm_compute; reflexivity).
  split; [exact Hfound|]. split; [exact Hrun|].
  exact (reindex_appends_method_rows no_fault demo_clock 0 1 shapes_info
           (open_session demo_store) (fst demo_reindex_same) demo_module_row
           (stamp 1 1000 demo_module_row) Hfound Hrun).
Defined.

(** ** The rows of the other modules *)

Lemma filter_appended_others {Row X : Type} (id : Row -> Z) (mk : Z -> X -> Row)
    (q : Row -> bool) (xs : list X) (l : list Row) :
  (forall i x, q (mk i x) = false) ->
  filter q (append_rows id mk xs l) = filter q l.
Proof.
  intros Hq.
  destruct (append_rows_app id mk xs l) as (added & -> & _ & _ & Hall).
  rewrite filter_app, (filter_none q added), app_nil_r; [reflexivity|].
  apply Hall. exact Hq.
Qed.

Lemma other_children_inserted (module_id other : Z) (module_info : ModuleInfo)
    (w : Store) :
  other <> module_id ->
  functions_of other (insert_children module_id module_info w) = functions_of other w
  /\ classes_of other (insert_children module_id module_info w) = classes_of other w
  /\ imports_of other (insert_children module_id module_info w) = imports_of other w
  /\ variables_of other (insert_children module_id module_info w)
     = variables_of other w.
Proof.
  intros Hother. unfold insert_children.
  set (w1 := fold_left (insert_import module_id) (mi_imports module_info) w).
  set (w2 := fold_left (insert_variable module_id) (mi_variables module_info) w1).
  set (w3 := fold_left (insert_class module_id) (mi_classes module_info) w2).
  destruct (fold_insert_import module_id (mi_imports module_info) w)
    as (I1 & I2 & I3 & I4 & I5 & I6).
  destruct (fold_insert_variable module_id (mi_variables module_info) w1)
    as (V1 & V2 & V3 & V4 & V5 & V6).
  destruct (fold_insert_class module_id (mi_classes module_info) w2)
    as (C1 & C2 & C3 & C4 & C5 & _ & methods & C7 & C8 & C9).
  destruct (fold_insert_function module_id None (mi_functions module_info) w3)
    as (F1 & F2 & F3 & F4 & F5 & F6).
  fold w1 in I1, I2, I3, I4, I5, I6. fold w2 in V1, V2, V3, V4, V5, V6.
  fold w3 in C1, C2, C3, C4, C5, C7.
  assert (Hne : (module_id =? other) = false) by (apply Z.eqb_neq; congruence).
  split; [|split; [|split]].
  - unfold functions_of. rewrite F1, filter_appended_others.
    + rewrite C7, filter_app, V4, I4, (filter_none _ methods), app_nil_r;
        [reflexivity|].
      eapply Forall_impl; [|exact C9]. intros f [Hm _]. simpl in *.
      now rewrite Hm.
    + intros i x. simpl. exact Hne.
  - unfold classes_of. rewrite F4, C1, filter_appended_others.
    + now rewrite V5, I5.
    + intros i x. simpl. exact Hne.
  - unfold imports_of. rewrite F5, C4, V6, I1, filter_appended_others.
    + reflexivity.
    + intros i x. simpl. exact Hne.
  - unfold variables_of. rewrite F6, C5, V1, filter_appended_others.
    + now rewrite I6.
    + intros i x. simpl. exact Hne.
Qed.

Lemma other_children_cleared (module_id other : Z) (w : Store) :
  other <> module_id ->
  functions_of other (clear_module module_id w) = functions_of other w
  /\ classes_of other (clear_module module_id w) = classes_of other w
  /\ imports_of other (clear_module module_id w) = imports_of other w
  /\ variables_of other (clear_module module_id w) = variables_of other w.
Proof.
  intros Hother.
  unfold functions_of, classes_of, imports_of, variables_of, clear_module. simpl.
  repeat split; apply filter_filter_implied; intros x Hx; apply Z.eqb_eq in Hx;
    rewrite Hx;
    (replace (other =? module_id) with false
       by (symmetry; apply Z.eqb_neq; exact Hother));
    reflexivity.
Qed.

(** A returning [_index_module] leaves the Function, Class, Import and
    Variable rows of every other module as they are, in their order. *)
Theorem index_module_leaves_other_modules (fault : nat -> option Exception)
    (clock : nat -> Z) (import_time : Z) (project_id : Z)
    (module_info : ModuleInfo) (s s' : Session) (result : Module_) (other : Z)
    (Hrun : _index_module fault clock import_time project_id module_info s
            = (s', Returned result))
    (Hother : other <> target_module_id project_id module_info (work s)) :
  functions_of other (work s') = functions_of other (work s)
  /\ classes_of other (work s') = classes_of other (work s)
  /\ imports_of other (work s') = imports_of other (work s)
  /\ variables_of other (work s') = variables_of other (work s).
Proof.
  rewrite (index_module_writes _ _ _ _ _ _ _ _ Hrun).
  unfold target_module_id in Hother.
  destruct (find _ (modules (work s))) as [row|].
  - destruct (other_children_inserted (mod_id row) other module_info
                (clear_module (mod_id row) (work s)) Hother) as (H1 & H2 & H3 & H4).
    destruct (other_children_cleared (mod_id row) other (work s) Hother)
      as (G1 & G2 & G3 & G4).
    unfold functions_of, classes_of, imports_of, variables_of, stamp_module in *.
    simpl. repeat split; congruence.
  - cbv zeta.
    set (row := new_module_row import_time project_id module_info (work s)).
    destruct (other_children_inserted (mod_id row) other module_info
                (set_modules (work s) (modules (work s) ++ [row])) Hother)
      as (H1 & H2 & H3 & H4).
    unfold functions_of, classes_of, imports_of, variables_of, stamp_module in *.
    simpl. repeat split; assumption.
Qed.

Lemma index_module_leaves_other_modules_witness :
  _index_module no_fault demo_clock 0 1 shapes_info_later
    (open_session demo_store_two)
  = (fst demo_reindex_two, Returned (snd_module demo_reindex_two))
  /\ 2 <> target_module_id 1 shapes_info_later (work (open_session demo_store_two))
  /\ functions_of 2 (work (fst demo_reindex_two))
     = functions_of 2 (work (open_session demo_store_two))
  /\ variables_of 2 (work (fst demo_reindex_two))
     = variables_of 2 (work (open_session demo_store_two)).
Proof.
  assert (Hrun : _index_module no_fault demo_clock 0 1 shapes_info_later
                   (open_session demo_store_two)
                 = (fst demo_reindex_two, Returned (snd_module demo_reindex_two)))
    by (vm_compute; reflexivity).
  assert (Hother : 2 <> target_module_id 1 shapes_info_later
                          (work (open_session demo_store_two)))
    by (vm_compute; discriminate).
  split; [exact Hrun|]. split; [exact Hother|].
  pose proof (index_module_leaves_other_modules no_fault demo_clock 0 1
                shapes_info_later (open_session demo_store_two)
                (fst demo_reindex_two) (snd_module demo_reindex_two) 2
                Hrun Hother) as H.
  split; [exact (proj1 H) | exact (proj2 (proj2 (proj2 H)))].
Defined.

(** ** The first index of a path *)

Lemma filter_negb_nothing {A} (p : A -> bool) (l : list A) :
  filter p l = [] -> filter (fun x => negb (p x)) l = l.
Proof.
  induction l as [|x l IH]; simpl; [reflexivity|].
  destruct (p x); simpl; [discriminate|]. intros H. now rewrite IH.
Qed.

Lemma filter_nothing_weaker {A} (p q : A -> bool) (l : list A) :
  (forall x, q x = true -> p x = true) -> filter p l = [] -> filter q l = [].
Proof.
  intros Hqp Hp. apply filter_none. apply Forall_forall. intros x Hx.
  destruct (q x) eqn:Hq; [|reflexivity].
  assert (Hin : In x (filter p l)) by (apply filter_In; split; auto).
  rewrite Hp in Hin. contradiction.
Qed.

Lemma clear_module_nothing (module_id : Z) (w : Store) :
  functions_of module_id w = [] -> classes_of module_id w = [] ->
  imports_of module_id w = [] -> variables_of module_id w = [] ->
  clear_module module_id w = w.
Proof.
  unfold functions_of, classes_of, imports_of, variables_of, clear_module.
  intros Hf Hc Hi Hv. destruct w as [ps ms fs cs ims vs]. simpl in *.
  f_equal; try (apply filter_negb_nothing; assumption).
  apply filter_negb_nothing.
  apply (filter_nothing_weaker (fun f => fn_module_id f =? module_id)); [|exact Hf].
  intros f H. apply andb_prop in H. tauto.
Qed.

Lemma map_stamp_fresh (module_id t : Z) (l : list Module_) :
  ~ In module_id (map mod_id l) -> map (stamp module_id t) l = l.
Proof.
  induction l as [|m l IH]; simpl; intros H; [reflexivity|].
  rewrite IH by tauto. unfold stamp.
  destruct (mod_id m =? module_id) eqn:E; [|reflexivity].
  apply Z.eqb_eq in E. tauto.
Qed.

Lemma no_rows_of_missing_module (w : Store) (module_id : Z) :
  owners_exist w -> ~ In module_id (map mod_id (modules w)) ->
  functions_of module_id w = [] /\ classes_of module_id w = []
  /\ imports_of module_id w = [] /\ variables_of module_id w = [].
Proof.
  intros (_ & Hf & Hc & Hi & Hv) Hfresh.
  unfold functions_of, classes_of, imports_of, variables_of.
  repeat split; apply filter_none; apply Forall_forall; intros x Hx;
    apply Z.eqb_neq; intros E; apply Hfresh; rewrite <- E; auto.
Qed.

(** In a catalog where every row names a Module row that is there, a
    returning [_index_module] of a path the project does not have adds one
    Module row, after the others, named after the stem of the path, with
    the docstring of the description and the clock as its time stamp; and
    the rows of the new module are the rows the description gives, column
    by column, methods included, each method row naming the row of its
    class. *)
Theorem index_module_first_index (fault : nat -> option Exception)
    (clock : nat -> Z) (import_time : Z) (project_id : Z)
    (module_info : ModuleInfo) (s s' : Session) (result : Module_)
    (Hnew : find (fun m => ((mod_project_id m =? project_id)
                            && String.eqb (mod_path m) (mi_path module_info))%bool)
                 (modules (work s)) = None)
    (Howners : owners_exist (work s))
    (Hrun : _index_module fault clock import_time project_id module_info s
            = (s', Returned result)) :
  modules (work s') = (modules (work s) ++ [result])%list
  /\ mod_id result = next_id (map mod_id (modules (work s)))
  /\ mod_project_id result = project_id
  /\ mod_name result = Py.stem (mi_path module_info)
  /\ mod_path result = mi_path module_info
  /\ mod_docstring result = mi_docstring module_info
  /\ mod_last_indexed result = clock (readings s)
  /\ map import_content (imports_of (mod_id result) (work s'))
     = map import_info_content (mi_imports module_info)
  /\ map variable_content (variables_of (mod_id result) (work s'))
     = map variable_item_content (mi_variables module_info)
  /\ map class_content (classes_of (mod_id result) (work s'))
     = map class_info_content (mi_classes module_info)
  /\ map function_content (toplevel_functions_of (mod_id result) (work s'))
     = map function_info_content (mi_functions module_info)
  /\ map function_content (methods_of (mod_id result) (work s'))
     = map function_info_content (described_methods module_info)
  /\ map method_content (methods_of (mod_id result) (work s'))
     = methods_by_class (classes_of (mod_id result) (work s'))
         (mi_classes module_info).
Proof.
  apply index_module_writes_result in Hrun. rewrite Hnew in Hrun. cbv zeta in Hrun.
  set (row := new_module_row import_time project_id module_info (work s)) in *.
  set (w0 := set_modules (work s) (modules (work s) ++ [row])) in *.
  destruct Hrun as [Hwork Hres].
  assert (Hid : mod_id row = next_id (map mod_id (modules (work s)))) by reflexivity.
  assert (Hfresh : ~ In (mod_id row) (map mod_id (modules (work s))))
    by (rewrite Hid; apply next_id_fresh).
  assert (Hstamped : mod_id result = mod_id row).
  { rewrite Hres. unfold stamp. destruct (mod_id row =? mod_id row); reflexivity. }
  destruct (no_rows_of_missing_module (work s) (mod_id row) Howners Hfresh)
    as (Nf & Nc & Ni & Nv).
  assert (Hclear : clear_module (mod_id row) w0 = w0).
  { apply clear_module_nothing; assumption. }
  destruct (replaced_children (mod_id row) module_info w0)
    as (H1 & H2 & H3 & H4 & (added & H5 & H6) & _ & H8).
  destruct (replaced_methods_by_class (mod_id row) module_info w0)
    as (tied & T1 & T2).
  rewrite Hclear in H1, H2, H3, H4, H5, H8, T1, T2.
  rewrite Hstamped, Hwork.
  split.
  { change (modules (stamp_module (mod_id row) (clock (readings s))
                       (insert_children (mod_id row) module_info w0)))
      with (map (stamp (mod_id row) (clock (readings s)))
              (modules (insert_children (mod_id row) module_info w0))).
    rewrite H8.
    change (modules w0) with (modules (work s) ++ [row])%list.
    rewrite map_app, map_stamp_fresh by exact Hfresh. simpl. now rewrite Hres. }
  rewrite Hres. unfold stamp. rewrite Z.eqb_refl. simpl.
  repeat (split; [reflexivity|]).
  split; [exact H1|]. split; [exact H2|]. split; [exact H3|]. split; [exact H4|].
  assert (Hnone : methods_of (mod_id row) w0 = []).
  { unfold methods_of.
    apply (filter_nothing_weaker (fun f => fn_module_id f =? mod_id row));
      [|exact Nf].
    intros f H. apply andb_prop in H. tauto. }
  split.
  - transitivity
      (map function_content
         (methods_of (mod_id row) (insert_children (mod_id row) module_info w0)));
      [reflexivity|].
    rewrite H5, Hnone. exact H6.
  - transitivity
      (map method_content
         (methods_of (mod_id row) (insert_children (mod_id row) module_info w0)));
      [reflexivity|].
    rewrite T1, Hnone. exact T2.
Qed.

(** ** Invariants of the catalog *)

Lemma nodup_map_filter {A} (f : A -> Z) (p : A -> bool) (l : list A) :
  NoDup (map f l) -> NoDup (map f (filter p l)).
Proof.
  induction l as [|x l IH]; simpl; intros H; [constructor|].
  inversion H as [|? ? Hnotin Hnd]; subst.
  destruct (p x); simpl; [|apply IH; exact Hnd].
  constructor; [|apply IH; exact Hnd].
  intros Hin. apply Hnotin. apply in_map_iff in Hin.
  destruct Hin as (y & Hy & Hin). apply filter_In in Hin.
  apply in_map_iff. exists y. tauto.
Qed.

Lemma map_id_stamp (module_id t : Z) (l : list Module_) :
  map mod_id (map (stamp module_id t) l) = map mod_id l
  /\ map mod_project_id (map (stamp module_id t) l) = map mod_project_id l.
Proof.
  rewrite !map_map. split; apply map_ext; intros m; unfold stamp;
    destruct (mod_id m =? module_id); reflexivity.
Qed.

Lemma unique_ids_cleared (module_id : Z) (w : Store) :
  unique_ids w -> unique_ids (clear_module module_id w).
Proof.
  intros (H1 & H2 & H3 & H4 & H5 & H6). unfold unique_ids, clear_module. simpl.
  repeat split; try assumption; apply nodup_map_filter; assumption.
Qed.

Lemma unique_ids_inserted (module_id : Z) (module_info : ModuleInfo) (w : Store) :
  unique_ids w -> unique_ids (insert_children module_id module_info w).
Proof.
  intros (H1 & H2 & H3 & H4 & H5 & H6). unfold insert_children.
  set (w1 := fold_left (insert_import module_id) (mi_imports module_info) w).
  set (w2 := fold_left (insert_variable module_id) (mi_variables module_info) w1).
  set (w3 := fold_left (insert_class module_id) (mi_classes module_info) w2).
  destruct (fold_insert_import module_id (mi_imports module_info) w)
    as (I1 & I2 & I3 & I4 & I5 & I6).
  destruct (fold_insert_variable module_id (mi_variables module_info) w1)
    as (V1 & V2 & V3 & V4 & V5 & V6).
  destruct (fold_insert_class module_id (mi_classes module_info) w2)
    as (C1 & C2 & C3 & C4 & C5 & C6 & _).
  destruct (fold_insert_function module_id None (mi_functions module_info) w3)
    as (F1 & F2 & F3 & F4 & F5 & F6).
  fold w1 in I1, I2, I3, I4, I5, I6. fold w2 in V1, V2, V3, V4, V5, V6.
  fold w3 in C1, C2, C3, C4, C5, C6.
  unfold unique_ids.
  rewrite F1, F2, F3, F4, F5, F6, C1, C2, C3, C4, C5, V1, V2, V3, V5, V6,
    I1, I2, I3, I5.
  repeat split; try assumption.
  - apply append_rows_nodup; [reflexivity|]. apply C6. rewrite V4, I4. exact H3.
  - apply append_rows_nodup; [reflexivity | exact H4].
  - apply append_rows_nodup; [reflexivity | exact H5].
  - apply append_rows_nodup; [reflexivity|]. rewrite I6. exact H6.
Qed.

Lemma nodup_next_id {A} (f : A -> Z) (l : list A) (x : A) :
  f x = next_id (map f l) -> NoDup (map f l) -> NoDup (map f (l ++ [x])).
Proof.
  intros Hx Hnd. rewrite map_app. simpl.
  apply Permutation_NoDup with (l := f x :: map f l).
  - apply Permutation_cons_append.
  - constructor; [rewrite Hx; apply next_id_fresh | exact Hnd].
Qed.

Lemma owners_cleared (module_id : Z) (w : Store) :
  owners_exist w -> owners_exist (clear_module module_id w).
Proof.
  intros (H1 & H2 & H3 & H4 & H5). unfold owners_exist, clear_module. simpl.
  repeat split; try assumption; intros x Hx; apply filter_In in Hx;
    destruct Hx as [Hx _]; auto.
Qed.

Lemma in_append_rows {Row X : Type} (id : Row -> Z) (mk : Z -> X -> Row)
    (P : Row -> Prop) (xs : list X) (l : list Row) :
  (forall i x, P (mk i x)) -> (forall r, In r l -> P r) ->
  forall r, In r (append_rows id mk xs l) -> P r.
Proof.
  intros Hmk Hl r Hin.
  destruct (append_rows_app id mk xs l) as (added & Heq & _ & _ & Hall).
  rewrite Heq in Hin. apply in_app_or in Hin. destruct Hin as [Hin|Hin].
  - apply Hl. exact Hin.
  - specialize (Hall P Hmk). rewrite Forall_forall in Hall. apply Hall. exact Hin.
Qed.

Lemma owners_inserted (module_id : Z) (module_info : ModuleInfo) (w : Store) :
  In module_id (map mod_id (modules w)) ->
  owners_exist w -> owners_exist (insert_children module_id module_info w).
Proof.
  intros Hmod (H1 & H2 & H3 & H4 & H5). unfold insert_children.
  set (w1 := fold_left (insert_import module_id) (mi_imports module_info) w).
  set (w2 := fold_left (insert_variable module_id) (mi_variables module_info) w1).
  set (w3 := fold_left (insert_class module_id) (mi_classes module_info) w2).
  destruct (fold_insert_import module_id (mi_imports module_info) w)
    as (I1 & I2 & I3 & I4 & I5 & I6).
  destruct (fold_insert_variable module_id (mi_variables module_info) w1)
    as (V1 & V2 & V3 & V4 & V5 & V6).
  destruct (fold_insert_class module_id (mi_classes module_info) w2)
    as (C1 & C2 & C3 & C4 & C5 & _ & methods & C7 & _ & C9).
  destruct (fold_insert_function module_id None (mi_functions module_info) w3)
    as (F1 & F2 & F3 & F4 & F5 & F6).
  fold w1 in I1, I2, I3, I4, I5, I6. fold w2 in V1, V2, V3, V4, V5, V6.
  fold w3 in C1, C2, C3, C4, C5, C7.
  unfold owners_exist.
  rewrite F1, F2, F3, F4, F5, F6, C1, C2, C3, C4, C5, C7, V1, V2, V3, V4, V5, V6,
    I1, I2, I3, I4, I5, I6.
  repeat split; try assumption.
  - apply in_append_rows; [intros i x; exact Hmod|].
    intros f Hf. apply in_app_or in Hf. destruct Hf as [Hf|Hf]; [auto|].
    rewrite Forall_forall in C9. destruct (C9 f Hf) as [-> _]. exact Hmod.
  - apply in_append_rows; [intros i x; exact Hmod | exact H3].
  - apply in_append_rows; [intros i x; exact Hmod | exact H4].
  - apply in_append_rows; [intros i x; exact Hmod | exact H5].
Qed.

Lemma well_formed_stamped (module_id t : Z) (w : Store) :
  well_formed w -> well_formed (stamp_module module_id t w).
Proof.
  intros [(U1 & U2 & U3 & U4 & U5 & U6) (O1 & O2 & O3 & O4 & O5)].
  destruct (map_id_stamp module_id t (modules w)) as [Hid Hpid].
  unfold well_formed, unique_ids, owners_exist, stamp_module. simpl.
  rewrite Hid. repeat split; try assumption.
  intros m Hm. apply in_map_iff in Hm. destruct Hm as (m0 & <- & Hm0).
  specialize (O1 m0 Hm0). unfold stamp.
  destruct (mod_id m0 =? module_id); exact O1.
Qed.

Lemma well_formed_new_module (import_time pid : Z)
    (module_info : ModuleInfo) (w : Store) :
  In pid (map project_id (projects w)) ->
  well_formed w ->
  well_formed
    (set_modules w
       (modules w ++ [new_module_row import_time pid module_info w])).
Proof.
  intros Hp [(U1 & U2 & U3 & U4 & U5 & U6) (O1 & O2 & O3 & O4 & O5)].
  unfold well_formed, unique_ids, owners_exist. simpl.
  assert (Hsub : forall i, In i (map mod_id (modules w)) ->
                   In i (map mod_id
                           (modules w
                            ++ [new_module_row import_time pid module_info w]))).
  { intros i Hi. rewrite map_app. apply in_or_app. now left. }
  repeat split; try assumption; auto.
  - apply nodup_next_id; [reflexivity | exact U2].
  - intros m Hm. apply in_app_or in Hm. destruct Hm as [Hm|[<-|[]]]; auto.
Qed.

Section InvariantRuns.

Variable fault : nat -> option Exception.
Variable clock : nat -> Z.
Variable import_time : Z.

Lemma well_formed_index_module (pid : Z) (module_info : ModuleInfo)
    (s s' : Session) (result : Module_) :
  _index_module fault clock import_time pid module_info s
  = (s', Returned result) ->
  In pid (map project_id (projects (work s))) ->
  well_formed (work s) -> well_formed (work s').
Proof.
  intros Hrun Hp Hwf. rewrite (index_module_writes _ _ _ _ _ _ _ _ Hrun).
  destruct (find _ (modules (work s))) as [row|] eqn:Hfind.
  - apply find_some in Hfind. destruct Hfind as [Hin _].
    apply well_formed_stamped. destruct Hwf as [Hu Ho]. split.
    + apply unique_ids_inserted, unique_ids_cleared. exact Hu.
    + apply owners_inserted; [|apply owners_cleared; exact Ho].
      simpl. apply in_map. exact Hin.
  - cbv zeta. apply well_formed_stamped.
    destruct (well_formed_new_module import_time pid module_info (work s)
                Hp Hwf) as [Hu Ho].
    split.
    + apply unique_ids_inserted. exact Hu.
    + apply owners_inserted; [|exact Ho].
      simpl. rewrite map_app. apply in_or_app. right. left. reflexivity.
Qed.

Lemma well_formed_loop (pid : Z) (modules : list ModuleInfo)
    (s s' : Session) :
  for_each modules
    (fun module_info =>
       _index_module fault clock import_time pid module_info ;; ret tt) s
  = (s', Returned tt) ->
  In pid (map project_id (projects (work s))) ->
  well_formed (work s) -> well_formed (work s').
Proof.
  revert s. induction modules as [|m modules IH]; intros s H Hp Hwf; simpl in H.
  - unfold ret in H. injection H as <-. exact Hwf.
  - apply bind_returned in H. destruct H as (s1 & [] & Hm & H).
    apply bind_returned in Hm. destruct Hm as (s2 & r & Hm & Hret).
    unfold ret in Hret. injection Hret as <-.
    pose proof (index_module_run fault clock import_time _ _ _ _ _ Hm)
      as (Hproj & _).
    apply IH in H; [exact H | rewrite Hproj; exact Hp|].
    eapply well_formed_index_module; eassumption.
Qed.

Lemma add_project_writes (name root_path : string) (s s' : Session)
    (project : Project) :
  (project <- add_project clock name root_path ;;
   flush fault ;;
   ret project) s = (s', Returned project) ->
  work s' = set_projects (work s) (projects (work s) ++ [project])
  /\ project_id project = next_id (map project_id (projects (work s))).
Proof.
  unfold add_project. cbv [bind ret statement flush get_work put_work now]. simpl.
  intros H. destruct (fault (statements s)); [discriminate|].
  injection H as <- <-. split; reflexivity.
Qed.

Lemma well_formed_transaction (name root_path : string)
    (modules : list ModuleInfo) (s s' : Session) (result : Project) :
  index_project_transaction fault clock import_time name root_path modules s
  = (s', Returned result) ->
  well_formed (work s) -> well_formed (work s').
Proof.
  intros H Hwf. unfold index_project_transaction in H.
  apply bind_returned in H. destruct H as (s1 & found & Hq & H).
  apply query_project_spec in Hq. destruct Hq as (Hw & _ & _ & Hf).
  specialize (Hf found eq_refl).
  apply bind_returned in H. destruct H as (s2 & project & Hbranch & H).
  apply bind_returned in H. destruct H as (s3 & [] & Hloop & H).
  apply bind_returned in H. destruct H as (s4 & [] & Hcommit & H).
  unfold ret in H. injection H as <- _.
  apply commit_spec in Hcommit. destruct Hcommit as [Hcw _]. rewrite Hcw.
  apply (well_formed_loop _ _ _ _ Hloop).
  - destruct found as [p|].
    + unfold ret in Hbranch. injection Hbranch as <- <-. rewrite Hw.
      symmetry in Hf. apply find_some in Hf. apply in_map. tauto.
    + apply add_project_writes in Hbranch. destruct Hbranch as [-> _]. simpl.
      rewrite map_app. apply in_or_app. right. left. reflexivity.
  - destruct found as [p|].
    + unfold ret in Hbranch. injection Hbranch as <- _. rewrite Hw. exact Hwf.
    + apply add_project_writes in Hbranch. destruct Hbranch as [-> Hid].
      rewrite Hw in *.
      destruct Hwf as [(U1 & U2 & U3 & U4 & U5 & U6) (O1 & O2 & O3 & O4 & O5)].
      unfold well_formed, unique_ids, owners_exist. simpl.
      repeat split; try assumption.
      * apply nodup_next_id; assumption.
      * intros m Hm. rewrite map_app. apply in_or_app. left. auto.
Qed.

Lemma well_formed_index_project (name root_path : string)
    (modules : list ModuleInfo) (db : Store) :
  well_formed db ->
  well_formed (fst (index_project fault clock import_time name root_path modules db)).
Proof.
  intros Hwf. unfold index_project.
  destruct (index_project_body fault clock import_time name root_path modules
              (open_session db)) as [s r] eqn:Hbody.
  apply index_project_body_cases in Hbody.
  destruct Hbody as [(e & -> & Ht) | (s4 & project & Ht & Hd & _ & _ & _)].
  - apply index_project_transaction_run in Ht. simpl. rewrite Ht. exact Hwf.
  - pose proof (index_project_transaction_run _ _ _ _ _ _ _ _ _ Ht) as [Hd4 _].
    assert (Hs : durable s = work s4) by congruence.
    destruct r; simpl; rewrite Hs;
      apply (well_formed_transaction _ _ _ _ _ _ Ht); exact Hwf.
Qed.

End InvariantRuns.

Lemma well_formed_empty : well_formed empty_store.
Proof.
  unfold well_formed, unique_ids, owners_exist. simpl.
  repeat split; try constructor; intros ? [].
Qed.

(** Every call of [index_project], returning or raising, keeps the catalog
    well formed: the rowids of each table stay distinct, each Module row
    names a Project row that is there, and each Function, Class, Import
    and Variable row names a Module row that is there. *)
Theorem index_project_keeps_well_formed (fault : nat -> option Exception)
    (clock : nat -> Z) (import_time : Z) (name root_path : string)
    (modules : list ModuleInfo) (db : Store)
    (Hids : unique_ids db) (Howners : owners_exist db) :
  unique_ids (fst (index_project fault clock import_time name root_path modules db))
  /\ owners_exist
       (fst (index_project fault clock import_time name root_path modules db)).
Proof.
  apply (well_formed_index_project fault clock import_time name root_path modules db).
  split; assumption.
Qed.

Lemma index_project_keeps_well_formed_witness :
  unique_ids empty_store /\ owners_exist empty_store
  /\ unique_ids
       (fst (index_project no_fault demo_clock 0 "demo" "/srv/demo"
               [shapes_info; tools_info] empty_store))
  /\ owners_exist
       (fst (index_project no_fault demo_clock 0 "demo" "/srv/demo"
               [shapes_info; tools_info] empty_store)).
Proof.
  destruct well_formed_empty as [Hids Howners].
  split; [exact Hids|]. split; [exact Howners|].
  exact (index_project_keeps_well_formed no_fault demo_clock 0 "demo" "/srv/demo"
           [shapes_info; tools_info] empty_store Hids Howners).
Defined.

Lemma demo_project_store_well_formed : well_formed demo_project_store.
Proof.
  exact (well_formed_index_project no_fault demo_clock 0 "demo" "/srv/demo"
           [] empty_store well_formed_empty).
Qed.

Lemma index_module_first_index_witness :
  find (fun m => ((mod_project_id m =? 1)
                  && String.eqb (mod_path m) (mi_path shapes_info))%bool)
       (modules (work (open_session demo_project_store))) = None
  /\ owners_exist (work (open_session demo_project_store))
  /\ _index_module no_fault demo_clock 0 1 shapes_info
       (open_session demo_project_store)
     = (fst demo_index_shapes, Returned (snd_module demo_index_shapes))
  /\ mod_name (snd_module demo_index_shapes) = Py.stem (mi_path shapes_info)
  /\ map class_content
       (classes_of (mod_id (snd_module demo_index_shapes))
          (work (fst demo_index_shapes)))
     = map class_info_content (mi_classes shapes_info)
  /\ map method_content
       (methods_of (mod_id (snd_module demo_index_shapes))
          (work (fst demo_index_shapes)))
     = methods_by_class
         (classes_of (mod_id (snd_module demo_index_shapes))
            (work (fst demo_index_shapes)))
         (mi_classes shapes_info)
  /\ methods_by_class
       (classes_of (mod_id (snd_module demo_index_shapes))
          (work (fst demo_index_shapes)))
       (mi_classes shapes_info)
     = [(Some 1, function_info_content radius_info)].
Proof.
  assert (Hnew : find (fun m => ((mod_project_id m =? 1)
                  && String.eqb (mod_path m) (mi_path shapes_info))%bool)
       (modules (work (open_session demo_project_store))) = None)
    by (vm_compute; reflexivity).
  assert (Howners : owners_exist (work (open_session demo_project_store)))
    by (exact (proj2 demo_project_store_well_formed)).
  assert (Hrun : _index_module no_fault demo_clock 0 1 shapes_info
                   (open_session demo_project_store)
                 = (fst demo_index_shapes, Returned (snd_module demo_index_shapes)))
    by (vm_compute; reflexivity).
  split; [exact Hnew|]. split; [exact Howners|]. split; [exact Hrun|].
  pose proof (index_module_first_index no_fault demo_clock 0 1 shapes_info
                (open_session demo_project_store) (fst demo_index_shapes)
                (snd_module demo_index_shapes) Hnew Howners Hrun) as H.
  split; [exact (proj1 (proj2 (proj2 (proj2 H))))|].
  destruct H as (_ & _ & _ & _ & _ & _ & _ & _ & _ & Hc & _ & _ & Hm).
  split; [exact Hc|]. split; [exact Hm|].
  vm_compute. reflexivity.
Defined.

(** ** Module rows are never removed *)

Section ModuleRows.

Variable fault : nat -> option Exception.
Variable clock : nat -> Z.
Variable import_time : Z.

Lemma module_rows_loop (pid : Z) (modules : list ModuleInfo) (s s' : Session) :
  for_each modules
    (fun module_info =>
       _index_module fault clock import_time pid module_info ;; ret tt) s
  = (s', Returned tt) ->
  exists extra,
    map module_identity (Database.modules (work s'))
    = (map module_identity (Database.modules (work s)) ++ extra)%list.
Proof.
  revert s. induction modules as [|m modules IH]; intros s H; simpl in H.
  - unfold ret in H. injection H as <-. exists []. now rewrite app_nil_r.
  - apply bind_returned in H. destruct H as (s1 & [] & Hm & H).
    apply bind_returned in Hm. destruct Hm as (s2 & r & Hm & Hret).
    unfold ret in Hret. injection Hret as <-.
    apply index_module_run in Hm. destruct Hm as (_ & _ & Hm).
    apply IH in H. destruct H as [extra2 H].
    destruct (find _ (Database.modules (work s))).
    + destruct Hm as [Hm _]. exists extra2. congruence.
    + destruct Hm as [extra1 Hm]. exists (extra1 ++ extra2)%list.
      rewrite H, Hm, app_assoc. reflexivity.
Qed.

(** The parts of a run of the transaction that returned: the session the
    loop over the modules started from, with the Project row found or
    added, and the session it left, which the commit made durable. *)
Lemma transaction_work (name root_path : string) (modules : list ModuleInfo)
    (s s' : Session) (result : Project) :
  index_project_transaction fault clock import_time name root_path modules s
  = (s', Returned result) ->
  exists s2 s3,
    for_each modules
      (fun module_info =>
         _index_module fault clock import_time (project_id result) module_info ;;
         ret tt) s2
    = (s3, Returned tt)
    /\ work s' = work s3
    /\ durable s' = work s3
    /\ match find (fun p => String.eqb (project_root_path p) root_path)
                  (projects (work s)) with
       | Some p =>
           work s2 = work s /\ readings s2 = readings s /\ result = p
       | None =>
           work s2 = set_projects (work s) (projects (work s) ++ [result])
           /\ readings s2 = S (S (readings s))
           /\ result
              = {| project_id := next_id (map project_id (projects (work s)));
                   project_name := name;
                   project_root_path := root_path;
                   project_created_at := clock (readings s);
                   project_updated_at := clock (S (readings s)) |}
       end.
Proof.
  intros H. unfold index_project_transaction in H.
  apply bind_returned in H. destruct H as (s1 & found & Hq & H).
  apply query_project_spec in Hq. destruct Hq as (Hw & Hr & _ & Hf).
  specialize (Hf found eq_refl). subst found.
  apply bind_returned in H. destruct H as (s2 & project & Hbranch & H).
  apply bind_returned in H. destruct H as (s3 & [] & Hloop & H).
  apply bind_returned in H. destruct H as (s4 & [] & Hcommit & H).
  unfold ret in H. injection H as <- <-.
  apply commit_spec in Hcommit. destruct Hcommit as [Hcw Hcd].
  exists s2, s3. split; [exact Hloop|]. split; [exact Hcw|]. split; [exact Hcd|].
  destruct (find _ (projects (work s))) as [p|].
  - unfold ret in Hbranch. injection Hbranch as <- <-.
    split; [exact Hw|]. split; [exact Hr | reflexivity].
  - unfold add_project in Hbranch.
    cbv [bind ret statement flush get_work put_work now] in Hbranch.
    simpl in Hbranch.
    destruct (fault (statements s1)); [discriminate|].
    injection Hbranch as <- <-. simpl. rewrite Hw, Hr. repeat split.
Qed.

End ModuleRows.

Lemma module_rows_grow (fault : nat -> option Exception)
    (clock : nat -> Z) (import_time : Z) (name root_path : string)
    (modules : list ModuleInfo) (db : Store) :
  exists extra,
    map module_identity
      (Database.modules
         (fst (index_project fault clock import_time name root_path modules db)))
    = (map module_identity (Database.modules db) ++ extra)%list.
Proof.
  unfold index_project.
  destruct (index_project_body fault clock import_time name root_path modules
              (open_session db)) as [s r] eqn:Hbody.
  apply index_project_body_cases in Hbody.
  destruct Hbody as [(e & -> & Ht) | (s4 & project & Ht & Hd4 & _ & _ & _)].
  - apply index_project_transaction_run in Ht. simpl. rewrite Ht. simpl.
    exists []. now rewrite app_nil_r.
  - apply transaction_work in Ht.
    destruct Ht as (s2 & s3 & Hloop & _ & Hd & Hstart).
    apply module_rows_loop in Hloop. destruct Hloop as [extra Hloop].
    exists extra.
    assert (Hs : durable s = work s3) by congruence.
    assert (Hstart2 : Database.modules (work s2) = Database.modules db).
    { simpl in Hstart. destruct (find _ (projects db)).
      - destruct Hstart as [-> _]. reflexivity.
      - destruct Hstart as [-> _]. reflexivity. }
    destruct r; simpl; rewrite Hs, Hloop, Hstart2; reflexivity.
Qed.

(** A call of [index_project], returning or raising, removes no Module row
    and changes the id, project, name, path and docstring of none: the
    rows the store had are still there, in their order, before any row the
    call added. *)
Theorem index_project_keeps_module_rows (fault : nat -> option Exception)
    (clock : nat -> Z) (import_time : Z) (name root_path : string)
    (modules : list ModuleInfo) (db : Store) :
  exists extra,
    map module_identity
      (Database.modules
         (fst (index_project fault clock import_time name root_path modules db)))
    = (map module_identity (Database.modules db) ++ extra)%list.
Proof. apply module_rows_grow. Qed.


(** A returning call of [index_project] with no module leaves the Module,
    Function, Class, Import and Variable tables as they are; the Project
    table is as it was when a row has the root path, and has one more row,
    with the name and root path of the call, when none has. *)
Theorem index_project_no_modules (fault : nat -> option Exception)
    (clock : nat -> Z) (import_time : Z) (name root_path : string)
    (db db' : Store) (pid : Z)
    (Hrun : index_project fault clock import_time name root_path [] db
            = (db', Returned pid)) :
  Database.modules db' = Database.modules db
  /\ functions db' = functions db
  /\ classes db' = classes db
  /\ imports db' = imports db
  /\ variables db' = variables db
  /\ match find (fun p => String.eqb (project_root_path p) root_path)
                (projects db) with
     | Some p => projects db' = projects db /\ pid = project_id p
     | None =>
         exists p,
           projects db' = (projects db ++ [p])%list
           /\ pid = project_id p
           /\ project_root_path p = root_path
           /\ project_name p = name
     end.
Proof.
  unfold index_project in Hrun.
  destruct (index_project_body fault clock import_time name root_path []
              (open_session db)) as [s [x|e]] eqn:Hbody; [|discriminate].
  injection Hrun as <- <-.
  apply index_project_body_cases in Hbody.
  destruct Hbody as [(e & He & _) | (s4 & project & Ht & Hd4 & _ & _ & -> & _)];
    [discriminate|].
  apply transaction_work in Ht. destruct Ht as (s2 & s3 & Hloop & _ & Hd & Hstart).
  simpl in Hloop. unfold ret in Hloop. injection Hloop as <-.
  rewrite Hd4, Hd. simpl in Hstart.
  destruct (find _ (projects db)) as [p|].
  - destruct Hstart as (-> & _ & ->). repeat split.
  - destruct Hstart as (-> & _ & Hp). simpl.
    repeat split. exists project. rewrite Hp. repeat split.
Qed.

Lemma index_project_no_modules_witness :
  index_project no_fault demo_clock 0 "empty" "/srv/empty" [] demo_store
  = (fst (index_project no_fault demo_clock 0 "empty" "/srv/empty" [] demo_store),
     Returned 2)
  /\ Database.modules
       (fst (index_project no_fault demo_clock 0 "empty" "/srv/empty" [] demo_store))
     = Database.modules demo_store
  /\ functions
       (fst (index_project no_fault demo_clock 0 "empty" "/srv/empty" [] demo_store))
     = functions demo_store.
Proof.
  assert (Hrun : index_project no_fault demo_clock 0 "empty" "/srv/empty" []
                   demo_store
                 = (fst (index_project no_fault demo_clock 0 "empty" "/srv/empty"
                           [] demo_store), Returned 2))
    by (vm_compute; reflexivity).
  split; [exact Hrun|].
  pose proof (index_project_no_modules no_fault demo_clock 0 "empty" "/srv/empty"
                demo_store _ 2 Hrun) as H.
  split; [exact (proj1 H) | exact (proj1 (proj2 H))].
Defined.

(** ** All the writes of a call, or none *)

Section CallWrites.

Variable fault : nat -> option Exception.
Variable clock : nat -> Z.
Variable import_time : Z.

Lemma index_module_readings (project_id : Z) (module_info : ModuleInfo)
    (s s' : Session) (result : Module_) :
  _index_module fault clock import_time project_id module_info s
  = (s', Returned result) ->
  readings s' = S (readings s).
Proof.
  intros H. unfold _index_module in H.
  apply bind_returned in H. destruct H as (s1 & found & Hq & H).
  apply query_module_spec in Hq. destruct Hq as (_ & Hr & _ & _).
  apply bind_returned in H. destruct H as (s2 & module & Hbranch & H).
  assert (Hr2 : readings s2 = readings s1).
  { destruct found as [row|].
    - pose proof (children_clear fault _ _ _ _ Hbranch) as Hframe.
      unfold same, outside_children in Hframe. injection Hframe as _ _ Hr2 _.
      exact Hr2.
    - unfold add_module in Hbranch.
      cbv [bind ret statement flush get_work put_work] in Hbranch.
      simpl in Hbranch.
      destruct (fault (statements s1)); [discriminate|].
      injection Hbranch as <- _. reflexivity. }
  apply bind_returned in H. destruct H as (s3 & [] & H3 & H).
  apply loop_imports_run in H3. destruct H3 as (_ & _ & Hr3).
  apply bind_returned in H. destruct H as (s4 & [] & H4 & H).
  apply loop_variables_run in H4. destruct H4 as (_ & _ & Hr4).
  apply bind_returned in H. destruct H as (s5 & [] & H5 & H).
  apply loop_classes_run in H5. destruct H5 as (_ & Hr5).
  apply bind_returned in H. destruct H as (s6 & [] & H6 & H).
  apply loop_functions_run in H6. destruct H6 as (_ & _ & Hr6).
  unfold set_last_indexed in H. cbv [bind ret now get_work put_work] in H.
  injection H as <- _. simpl. congruence.
Qed.

Lemma loop_modules_writes (pid : Z) (infos : list ModuleInfo) (s s' : Session) :
  for_each infos
    (fun module_info =>
       _index_module fault clock import_time pid module_info ;; ret tt) s
  = (s', Returned tt) ->
  work s' = modules_writes clock import_time pid (readings s) infos (work s).
Proof.
  revert s. induction infos as [|m infos IH]; intros s H; simpl in H.
  - unfold ret in H. injection H as <-. reflexivity.
  - apply bind_returned in H. destruct H as (s1 & [] & Hm & H).
    apply bind_returned in Hm. destruct Hm as (s2 & r & Hm & Hret).
    unfold ret in Hret. injection Hret as <-.
    apply IH in H. rewrite H.
    rewrite (index_module_readings _ _ _ _ _ Hm).
    rewrite (index_module_writes fault clock import_time _ _ _ _ _ Hm).
    reflexivity.
Qed.

(** A run of the transaction that returned in a session that had read no
    clock left, committed, the store of all the writes of the call. *)
Lemma transaction_writes (name root_path : string) (infos : list ModuleInfo)
    (s s' : Session) (result : Project) :
  index_project_transaction fault clock import_time name root_path infos s
  = (s', Returned result) ->
  readings s = 0%nat ->
  (durable s', project_id result)
  = project_writes clock import_time name root_path infos (work s).
Proof.
  intros H Hr. apply transaction_work in H.
  destruct H as (s2 & s3 & Hloop & _ & Hd & Hstart).
  apply loop_modules_writes in Hloop. rewrite Hd, Hloop.
  unfold project_writes.
  destruct (find _ (projects (work s))) as [p|].
  - destruct Hstart as (-> & -> & ->). rewrite Hr. reflexivity.
  - destruct Hstart as (-> & -> & ->). rewrite Hr. reflexivity.
Qed.

End CallWrites.

(** The transaction of a call on a store that raises nothing: it returns,
    with the store of all the writes committed, and the call sends one
    statement more. *)
Lemma call_statements_spec (clock : nat -> Z) (import_time : Z)
    (name root_path : string) (infos : list ModuleInfo) (db : Store) :
  exists s4 project,
    index_project_transaction no_fault clock import_time name root_path infos
      (open_session db)
    = (s4, Returned project)
    /\ call_statements clock import_time name root_path infos db = S (statements s4)
    /\ (durable s4, project_id project)
       = project_writes clock import_time name root_path infos db.
Proof.
  destruct (faithful_index_project_transaction clock import_time name root_path infos
              no_fault (open_session db)) as ([project Hp] & _).
  destruct (index_project_transaction no_fault clock import_time name root_path infos
              (open_session db)) as [s4 r] eqn:Ht.
  simpl in Hp. subst r. exists s4, project. split; [reflexivity|]. split.
  - unfold call_statements, index_project_body. unfold bind at 1. rewrite Ht.
    reflexivity.
  - apply (transaction_writes _ _ _ _ _ _ _ _ _ Ht). reflexivity.
Qed.

(** A call of [index_project] leaves all its writes or none, and raises
    the first fault the store raised.  When no statement of the call meets
    a fault, the call returns, and the store it leaves is the one with all
    the writes of the call.  Otherwise it raises the fault of the first
    statement that met one; the store is then the one the call found,
    unless that statement is the last of the call, the one that loads the
    Project row again after the commit to read its id: then the call
    raises and the store has all the writes of the call. *)
Theorem index_project_all_or_nothing (fault : nat -> option Exception)
    (clock : nat -> Z) (import_time : Z) (name root_path : string)
    (infos : list ModuleInfo) (db : Store) :
  let written := project_writes clock import_time name root_path infos db in
  let N := call_statements clock import_time name root_path infos db in
  match index_project fault clock import_time name root_path infos db with
  | (db', Returned pid) =>
      db' = fst written /\ pid = snd written
      /\ forall m, (m < N)%nat -> fault m = None
  | (db', Raised e) =>
      exists n,
        (n < N)%nat /\ fault n = Some e
        /\ (forall m, (m < n)%nat -> fault m = None)
        /\ db' = if Nat.eqb (S n) N then fst written else db
  end.
Proof.
  intros written N.
  destruct (call_statements_spec clock import_time name root_path infos db)
    as (s4n & projectn & Htn & HN & Hwritten).
  fold N in HN. fold written in Hwritten.
  destruct (faithful_index_project_transaction clock import_time name root_path infos
              fault (open_session db)) as (_ & _ & Hrun).
  rewrite Htn in Hrun.
  unfold index_project.
  destruct (index_project_body fault clock import_time name root_path infos
              (open_session db)) as [s r] eqn:Hbody.
  apply index_project_body_cases in Hbody.
  destruct Hbody as [(e & -> & Ht) | (s4 & project & Ht & Hd & _ & _ & Hout)].
  - pose proof (index_project_transaction_run _ _ _ _ _ _ _ _ _ Ht) as Hsame.
    rewrite Ht in Hrun. simpl in Hrun, Hsame.
    destruct Hrun as (n & _ & Hrange & Hfault & Hnone).
    exists n. split; [lia|]. split; [exact Hfault|].
    split; [intros m Hm; apply Hnone; lia|].
    replace (Nat.eqb (S n) N) with false by (symmetry; apply Nat.eqb_neq; lia).
    exact Hsame.
  - rewrite Ht in Hrun. simpl in Hrun. destruct Hrun as [Heq Hnone].
    injection Heq as <- <-.
    assert (Hdb : durable s = fst written) by (rewrite Hd, <- Hwritten; reflexivity).
    assert (Hpid : project_id projectn = snd written)
      by (rewrite <- Hwritten; reflexivity).
    destruct r as [pid|e].
    + destruct Hout as [-> Hlast]. split; [exact Hdb|]. split; [exact Hpid|].
      intros m Hm. destruct (Nat.eq_dec m (statements s4n)) as [->|Hne];
        [exact Hlast | apply Hnone; simpl; lia].
    + exists (statements s4n). split; [lia|]. split; [exact Hout|].
      split; [intros m Hm; apply Hnone; simpl; lia|].
      rewrite HN, Nat.eqb_refl. exact Hdb.
Qed.

(** C2, at an input where the code departs from it.  The first index of
    the demo project sends seven statements; the sixth is the commit and
    the seventh loads the Project row again, which the commit expired, to
    read the id that [index_project] returns.  On a store that fails on
    the seventh statement the call raises, as it does on one that fails on
    the commit; but the commit was made, and the store has every row of the
    call, as after the call that returned: the failure is surfaced and
    nothing was rolled back. *)
Theorem index_project_raises_after_commit :
  call_statements demo_clock 0 "demo" "/srv/demo" [shapes_info] empty_store = 7%nat
  /\ index_project (fails_at 6 "disk I/O error") demo_clock 0 "demo" "/srv/demo"
       [shapes_info] empty_store
     = (demo_store, Raised "disk I/O error")
  /\ index_project no_fault demo_clock 0 "demo" "/srv/demo" [shapes_info] empty_store
     = (demo_store, Returned 1)
  /\ map project_name (projects demo_store) = ["demo"]
  /\ map mod_path (modules demo_store) = ["/srv/demo/shapes.py"]
  /\ map fn_name (functions demo_store) = ["radius"; "area"]
  /\ index_project (fails_at 5 "disk I/O error") demo_clock 0 "demo" "/srv/demo"
       [shapes_info] empty_store
     = (empty_store, Raised "disk I/O error").
Proof.
  split; [vm_compute; reflexivity|].
  split; [vm_compute; reflexivity|].
  split; [vm_compute; reflexivity|].
  split; [vm_compute; reflexivity|].
  split; [vm_compute; reflexivity|].
  split; vm_compute; reflexivity.
Qed.

(** ** The branches of a search *)

(** What holds of the result of each branch of [_structured_search] holds
    of its result. *)
Lemma structured_search_cases (P : Results -> Prop) (db : Store) (query : string)
    (project_id : option Z) (limit : Z) :
  (forall q, P (_free_text_search db q project_id limit)) ->
  (forall pattern,
     P {| r_modules :=
            select_modules db (fun m => name_condition pattern (mod_name m))
              project_id limit;
          r_classes := []; r_functions := []; r_variables := [] |}) ->
  (forall pattern,
     P {| r_modules := [];
          r_classes :=
            map class_hit
              (select_joined cls_module_id (classes db) db
                 (fun c => name_condition pattern (cls_name c)) project_id limit);
          r_functions := []; r_variables := [] |}) ->
  (forall pattern,
     P {| r_modules := []; r_classes := [];
          r_functions :=
            map (function_hit db)
              (select_joined fn_module_id (functions db) db
                 (fun f => name_condition pattern (fn_name f)) project_id limit);
          r_variables := [] |}) ->
  (forall pattern,
     P {| r_modules := []; r_classes := []; r_functions := [];
          r_variables :=
            map variable_hit
              (select_joined var_module_id (variables db) db
                 (fun v => name_condition pattern (var_name v)) project_id limit) |}) ->
  (forall pattern,
     P {| r_modules :=
            map import_hit
              (select_joined imp_module_id (imports db) db
                 (import_condition pattern) project_id limit);
          r_classes := []; r_functions := []; r_variables := [] |}) ->
  (forall pattern,
     P {| r_modules :=
            select_modules db (fun m => doc_condition pattern (mod_docstring m))
              project_id limit;
          r_classes :=
            map class_hit
              (select_joined cls_module_id (classes db) db
                 (fun c => doc_condition pattern (cls_docstring c)) project_id limit);
          r_functions :=
            map (function_hit db)
              (select_joined fn_module_id (functions db) db
                 (fun f => doc_condition pattern (fn_docstring f)) project_id limit);
          r_variables := [] |}) ->
  P (_structured_search db query project_id limit).
Proof.
  intros Hfree Hmodule Hclass Hfunction Hvariable Himport Hdoc.
  unfold _structured_search.
  destruct (Py.re_match query) as [[search_type search_term]|]; [|apply Hfree].
  destruct (String.eqb search_type "module"); [apply Hmodule|].
  destruct (String.eqb search_type "class"); [apply Hclass|].
  destruct (String.eqb search_type "function" || String.eqb search_type "method")%bool;
    [apply Hfunction|].
  destruct (String.eqb search_type "var" || String.eqb search_type "variable")%bool;
    [apply Hvariable|].
  destruct (String.eqb search_type "import"); [apply Himport|].
  destruct (String.eqb search_type "doc" || String.eqb search_type "docstring")%bool;
    [apply Hdoc|].
  apply Hfree.
Qed.

Lemma search_code_cases (P : Results -> Prop) (db : Store) (query : string)
    (project_id : option Z) (limit : Z) :
  (forall q, P (_free_text_search db q project_id limit)) ->
  (forall q, P (_structured_search db q project_id limit)) ->
  P (search_code db query project_id limit).
Proof.
  intros Hfree Hstructured. unfold search_code.
  destruct (Py.contains ":" query); [apply Hstructured | apply Hfree].
Qed.

(** ** Limits and projects in a search *)

Lemma length_sql_limit {A} (limit : Z) (l : list A) :
  0 <= limit -> Z.of_nat (List.length (sql_limit limit l)) <= limit.
Proof.
  intros H. unfold sql_limit.
  destruct (limit <? 0) eqn:E; [apply Z.ltb_lt in E; lia|].
  rewrite length_firstn. lia.
Qed.

Lemma length_select_modules (db : Store) (condition : Module_ -> option bool)
    (project_id : option Z) (limit : Z) :
  0 <= limit ->
  Z.of_nat (List.length (select_modules db condition project_id limit)) <= limit.
Proof.
  intros H. unfold select_modules. rewrite length_map. now apply length_sql_limit.
Qed.

Lemma length_select_joined {A B} (f : A * Module_ -> B) (module_id : A -> Z)
    (table : list A) (db : Store) (condition : A -> option bool)
    (project_id : option Z) (limit : Z) :
  0 <= limit ->
  Z.of_nat (List.length
              (map f (select_joined module_id table db condition project_id limit)))
  <= limit.
Proof.
  intros H. unfold select_joined. rewrite length_map. now apply length_sql_limit.
Qed.

Ltac limit_goal :=
  repeat match goal with
         | |- _ /\ _ => split
         end;
  cbn [r_modules r_classes r_functions r_variables List.length];
  first [ apply length_select_modules; assumption
        | apply length_select_joined; assumption
        | simpl; lia ].

Lemma free_text_limit (db : Store) (query : string) (project_id : option Z)
    (limit : Z) :
  0 <= limit ->
  Z.of_nat (List.length (r_modules (_free_text_search db query project_id limit)))
  <= limit
  /\ Z.of_nat (List.length (r_classes (_free_text_search db query project_id limit)))
     <= limit
  /\ Z.of_nat (List.length (r_functions (_free_text_search db query project_id limit)))
     <= limit
  /\ Z.of_nat (List.length (r_variables (_free_text_search db query project_id limit)))
     <= limit.
Proof. intros H. unfold _free_text_search. limit_goal. Qed.

Lemma search_code_limit_helper (db : Store) (query : string)
    (project_id : option Z) (limit : Z) (Hlimit : 0 <= limit) :
  Z.of_nat (List.length (r_modules (search_code db query project_id limit))) <= limit
  /\ Z.of_nat (List.length (r_classes (search_code db query project_id limit)))
     <= limit
  /\ Z.of_nat (List.length (r_functions (search_code db query project_id limit)))
     <= limit
  /\ Z.of_nat (List.length (r_variables (search_code db query project_id limit)))
     <= limit.
Proof.
  apply search_code_cases; [intros q; now apply free_text_limit|].
  intros q.
  apply structured_search_cases;
    [intros q'; now apply free_text_limit | intros pattern; limit_goal ..].
Qed.

(** With a limit that is not negative, no category of a search has more
    results than the limit. *)
Theorem search_code_limit (db : Store) (query : string) (project_id : option Z)
    (limit : Z) (Hlimit : 0 <= limit) :
  Z.of_nat (List.length (r_modules (search_code db query project_id limit))) <= limit
  /\ Z.of_nat (List.length (r_classes (search_code db query project_id limit)))
     <= limit
  /\ Z.of_nat (List.length (r_functions (search_code db query project_id limit)))
     <= limit
  /\ Z.of_nat (List.length (r_variables (search_code db query project_id limit)))
     <= limit.
Proof.
  exact (search_code_limit_helper db query project_id limit Hlimit).
Qed.

Lemma search_code_limit_witness :
  0 <= 1
  /\ Z.of_nat (List.length (r_modules (search_code demo_store_two "s" None 1))) <= 1
  /\ List.length (r_modules (search_code demo_store_two "s" None 20)) = 2%nat.
Proof.
  split; [lia|]. split.
  - exact (proj1 (search_code_limit demo_store_two "s" None 1 ltac:(lia))).
  - vm_compute. reflexivity.
Defined.

(** A negative limit is no limit. *)
Remark search_code_negative_limit :
  List.length (r_modules (search_code demo_store_two "s" None (-1))) = 2%nat.
Proof. vm_compute. reflexivity. Qed.

Section ProjectFilter.

Variable db : Store.
Variable p : Z.
Variable limit : Z.

(** A path that a Module row of the project has. *)
Let in_the_project (path : string) : Prop :=
  exists m, In m (modules db) /\ mod_project_id m = p /\ mod_path m = path.

Lemma holds_project (c : option bool) (m : Module_) :
  holds (sql_and c (base_filters (Some p) m)) = true -> mod_project_id m = p.
Proof.
  rewrite holds_and_base. intros H. apply andb_prop in H. destruct H as [_ H].
  simpl in H. now apply Z.eqb_eq in H.
Qed.

Lemma paths_select_modules (condition : Module_ -> option bool) (h : ModuleHit) :
  In h (select_modules db condition (Some p) limit) -> in_the_project (mh_path h).
Proof.
  unfold select_modules. intros H. apply in_map_iff in H.
  destruct H as (m & <- & H). apply in_sql_limit in H. apply filter_In in H.
  destruct H as [Hin Hc]. exists m. split; [exact Hin|]. split; [|reflexivity].
  eapply holds_project. exact Hc.
Qed.

Lemma rows_select_joined {A} (module_id : A -> Z) (table : list A)
    (condition : A -> option bool) (row : A * Module_) :
  In row (select_joined module_id table db condition (Some p) limit) ->
  in_the_project (mod_path (snd row)).
Proof.
  unfold select_joined. intros H. apply in_sql_limit in H. apply filter_In in H.
  destruct H as [Hin Hc]. destruct row as [r m].
  apply in_join_module in Hin. destruct Hin as (_ & Hm & _).
  exists m. split; [exact Hm|]. split; [|reflexivity].
  eapply holds_project. exact Hc.
Qed.

Lemma paths_joined {A H} (hit : A * Module_ -> H) (path : H -> string)
    (module_id : A -> Z) (table : list A) (condition : A -> option bool) (h : H) :
  (forall row, path (hit row) = mod_path (snd row)) ->
  In h (map hit (select_joined module_id table db condition (Some p) limit)) ->
  in_the_project (path h).
Proof.
  intros Hpath Hin. apply in_map_iff in Hin. destruct Hin as (row & <- & Hin).
  rewrite Hpath. eapply rows_select_joined. exact Hin.
Qed.

Lemma paths_of_results (r : Results) :
  (forall h, In h (r_modules r) -> in_the_project (mh_path h)) ->
  (forall h, In h (r_classes r) -> in_the_project (ch_path h)) ->
  (forall h, In h (r_functions r) -> in_the_project (fh_path h)) ->
  (forall h, In h (r_variables r) -> in_the_project (vh_path h)) ->
  forall path, In path (result_paths r) -> in_the_project path.
Proof.
  intros Hm Hc Hf Hv path Hin. unfold result_paths in Hin.
  repeat (apply in_app_or in Hin; destruct Hin as [Hin|Hin]);
    apply in_map_iff in Hin; destruct Hin as (h & <- & Hin); auto.
Qed.

Ltac project_goal :=
  apply paths_of_results; cbn [r_modules r_classes r_functions r_variables];
  intros h Hin;
  first
    [ contradiction
    | eapply paths_select_modules; exact Hin
    | eapply (paths_joined class_hit ch_path); [intros [? ?]; reflexivity | exact Hin]
    | eapply (paths_joined (function_hit db) fh_path);
        [intros [? ?]; reflexivity | exact Hin]
    | eapply (paths_joined variable_hit vh_path);
        [intros [? ?]; reflexivity | exact Hin]
    | eapply (paths_joined import_hit mh_path);
        [intros [? ?]; reflexivity | exact Hin] ].

Lemma free_text_project (query path : string) :
  In path (result_paths (_free_text_search db query (Some p) limit)) ->
  in_the_project path.
Proof. revert path. unfold _free_text_search. project_goal. Qed.

Lemma search_code_project_paths (query path : string) :
  In path (result_paths (search_code db query (Some p) limit)) ->
  in_the_project path.
Proof.
  revert path.
  apply search_code_cases; [intros q path; apply free_text_project|].
  intros q.
  apply structured_search_cases;
    [intros q' path; apply free_text_project | intros pattern; project_goal ..].
Qed.

End ProjectFilter.

(** In a search restricted to a project, every result, of any category,
    has the path of a Module row of that project. *)
Theorem search_code_within_project (db : Store) (query : string) (p limit : Z)
    (path : string)
    (Hin : In path (result_paths (search_code db query (Some p) limit))) :
  exists m, In m (modules db) /\ mod_project_id m = p /\ mod_path m = path.
Proof. exact (search_code_project_paths db p limit query path Hin). Qed.

Lemma search_code_within_project_witness :
  In "/srv/demo/tools.py" (result_paths (search_code demo_store_two "s" (Some 1) 20))
  /\ exists m, In m (modules demo_store_two) /\ mod_project_id m = 1
               /\ mod_path m = "/srv/demo/tools.py".
Proof.
  assert (Hin : In "/srv/demo/tools.py"
                  (result_paths (search_code demo_store_two "s" (Some 1) 20)))
    by (vm_compute; auto).
  split; [exact Hin|].
  exact (search_code_within_project demo_store_two "s" 1 20 "/srv/demo/tools.py" Hin).
Defined.

(** ** The kinds of a structured search *)

Lemma structured_kind (db : Store) (kind term : string) (project_id : option Z)
    (limit : Z) :
  is_kind kind = true -> is_term term = true ->
  search_code db (kind ++ String ":" term) project_id limit
  = _structured_search db (kind ++ String ":" term) project_id limit
  /\ Py.re_match (kind ++ String ":" term) = Some (kind, term).
Proof.
  intros Hk Ht. unfold search_code. rewrite contains_colon.
  split; [reflexivity | now apply re_match_kind_term].
Qed.

(** [function] and [method] are one kind, as are [var] and [variable], and
    [doc] and [docstring]: a [method:] search selects top-level functions
    as a [function:] search does. *)
Theorem structured_kind_synonyms (db : Store) (term : string)
    (project_id : option Z) (limit : Z) (Hterm : is_term term = true) :
  search_code db ("method:" ++ term) project_id limit
  = search_code db ("function:" ++ term) project_id limit
  /\ search_code db ("variable:" ++ term) project_id limit
     = search_code db ("var:" ++ term) project_id limit
  /\ search_code db ("docstring:" ++ term) project_id limit
     = search_code db ("doc:" ++ term) project_id limit.
Proof.
  change ("method:" ++ term) with ("method" ++ String ":" term).
  change ("function:" ++ term) with ("function" ++ String ":" term).
  change ("variable:" ++ term) with ("variable" ++ String ":" term).
  change ("var:" ++ term) with ("var" ++ String ":" term).
  change ("docstring:" ++ term) with ("docstring" ++ String ":" term).
  change ("doc:" ++ term) with ("doc" ++ String ":" term).
  destruct (structured_kind db "method" term project_id limit eq_refl Hterm)
    as [H1 R1].
  destruct (structured_kind db "function" term project_id limit eq_refl Hterm)
    as [H2 R2].
  destruct (structured_kind db "variable" term project_id limit eq_refl Hterm)
    as [H3 R3].
  destruct (structured_kind db "var" term project_id limit eq_refl Hterm)
    as [H4 R4].
  destruct (structured_kind db "docstring" term project_id limit eq_refl Hterm)
    as [H5 R5].
  destruct (structured_kind db "doc" term project_id limit eq_refl Hterm)
    as [H6 R6].
  rewrite H1, H2, H3, H4, H5, H6. unfold _structured_search.
  rewrite R1, R2, R3, R4, R5, R6.
  cbv [String.eqb Ascii.eqb Bool.eqb orb].
  split; [reflexivity|]. split; reflexivity.
Qed.

Lemma structured_kind_synonyms_witness :
  is_term "a" = true
  /\ search_code demo_store_two "method:a" None 20
     = search_code demo_store_two "function:a" None 20
  /\ map fh_name (r_functions (search_code demo_store_two "method:a" None 20))
     = ["radius"; "area"; "main"].
Proof.
  split; [reflexivity|]. split.
  - exact (proj1 (structured_kind_synonyms demo_store_two "a" None 20 eq_refl)).
  - vm_compute. reflexivity.
Defined.

(** ** What [LIKE] selects *)

Lemma like_percent_unfold (p t : string) :
  Py.like_text (String "%" p) t
  = (Py.like_text p t
     || match t with
        | EmptyString => false
        | String _ t' => Py.like_text (String "%" p) t'
        end)%bool.
Proof. destruct t; reflexivity. Qed.

Lemma like_percent_iff (p t : string) :
  Py.like_text (String "%" p) t = true
  <-> exists a t', t = a ++ t' /\ Py.like_text p t' = true.
Proof.
  induction t as [|c t IH]; rewrite like_percent_unfold.
  - rewrite orb_false_r. split.
    + intros H. exists EmptyString, EmptyString. split; [reflexivity | exact H].
    + intros (a & t' & Heq & H). destruct a; simpl in Heq; [|discriminate].
      subst t'. exact H.
  - rewrite orb_true_iff, IH. split.
    + intros [H | (a & t' & -> & H)].
      * exists EmptyString, (String c t). split; [reflexivity | exact H].
      * exists (String c a), t'. split; [reflexivity | exact H].
    + intros (a & t' & Heq & H). destruct a as [|d a]; simpl in Heq.
      * subst t'. left. exact H.
      * injection Heq as -> ->. right. exists a, t'. split; [reflexivity | exact H].
Qed.

Lemma like_percent_all (t : string) : Py.like_text "%" t = true.
Proof.
  apply like_percent_iff. exists t, EmptyString. split; [|reflexivity].
  induction t as [|c t IH]; simpl; [reflexivity | now rewrite <- IH].
Qed.

Lemma like_two_percents (t : string) : Py.like "%%" t = true.
Proof.
  unfold Py.like. change (Py.until_nul "%%") with "%%".
  apply like_percent_iff. exists EmptyString, (Py.until_nul t).
  split; [reflexivity | apply like_percent_all].
Qed.

Lemma like_literal (q p t : string) :
  no_wildcard q = true ->
  (Py.like_text (q ++ p) t = true
   <-> exists m t', t = m ++ t' /\ Py.sqlite_lower q = Py.sqlite_lower m
                    /\ Py.like_text p t' = true).
Proof.
  revert t. induction q as [|c q IH]; intros t Hq.
  - simpl. split.
    + intros H. exists EmptyString, t. repeat split. exact H.
    + intros (m & t' & -> & Hm & H). destruct m; [exact H | discriminate].
  - simpl in Hq. apply andb_prop in Hq. destruct Hq as [Hc Hq].
    apply andb_prop in Hc. destruct Hc as [Hpercent Hunder].
    apply negb_true_iff in Hpercent, Hunder.
    change (Py.like_text (String c q ++ p) t)
      with (if Ascii.eqb c "%" then
              (fix skip (t0 : string) : bool :=
                 (Py.like_text (q ++ p) t0 ||
                  match t0 with
                  | EmptyString => false
                  | String _ t' => skip t'
                  end)%bool) t
            else
              match t with
              | EmptyString => false
              | String d t' =>
                  ((Ascii.eqb c "_"
                    || Ascii.eqb (Py.sqlite_lower_char c) (Py.sqlite_lower_char d))
                   && Py.like_text (q ++ p) t')%bool
              end).
    rewrite Hpercent. destruct t as [|d t].
    + split; [discriminate|]. intros (m & t' & Heq & Hm & _).
      destruct m; simpl in *; discriminate.
    + rewrite Hunder. simpl orb. rewrite andb_true_iff, Ascii.eqb_eq, (IH t Hq).
      split.
      * intros [Hcd (m & t' & -> & Hm & H)].
        exists (String d m), t'. simpl. rewrite Hcd, Hm. repeat split. exact H.
      * intros (m & t' & Heq & Hm & H). destruct m as [|e m]; [discriminate|].
        simpl in Heq, Hm. injection Heq as -> ->. injection Hm as Hcd Hm.
        split; [exact Hcd|]. exists m, t'. repeat split; assumption.
Qed.

Lemma lower_char_wildcard (c : ascii) :
  Ascii.eqb (Py.lower_char c) "%" = Ascii.eqb c "%"
  /\ Ascii.eqb (Py.lower_char c) "_" = Ascii.eqb c "_"
  /\ Py.is_nul (Py.lower_char c) = Py.is_nul c
  /\ Py.sqlite_lower_char (Py.lower_char c) = Py.lower_char c.
Proof. destruct c as [[] [] [] [] [] [] [] []]; repeat split; reflexivity. Qed.

Lemma sqlite_lower_char_idempotent (c : ascii) :
  Py.sqlite_lower_char (Py.sqlite_lower_char c) = Py.sqlite_lower_char c
  /\ Py.is_nul (Py.sqlite_lower_char c) = Py.is_nul c.
Proof. destruct c as [[] [] [] [] [] [] [] []]; split; reflexivity. Qed.

Lemma sqlite_lower_lower (s : string) : Py.sqlite_lower (Py.lower s) = Py.lower s.
Proof.
  induction s as [|c s IH]; simpl; [reflexivity|].
  destruct (lower_char_wildcard c) as (_ & _ & _ & ->). now rewrite IH.
Qed.

Lemma sqlite_lower_idempotent (s : string) :
  Py.sqlite_lower (Py.sqlite_lower s) = Py.sqlite_lower s.
Proof.
  induction s as [|c s IH]; simpl; [reflexivity|].
  destruct (sqlite_lower_char_idempotent c) as [-> _]. now rewrite IH.
Qed.

Lemma sqlite_lower_append (a b : string) :
  Py.sqlite_lower (a ++ b) = Py.sqlite_lower a ++ Py.sqlite_lower b.
Proof. induction a as [|c a IH]; simpl; [reflexivity | now rewrite IH]. Qed.

Lemma sqlite_lower_length (s : string) :
  String.length (Py.sqlite_lower s) = String.length s.
Proof. induction s as [|c s IH]; simpl; [reflexivity | now rewrite IH]. Qed.

(** The part of a text before its first NUL, in lower case, is the part
    of the lower-case text before its first NUL. *)
Lemma until_nul_sqlite_lower (s : string) :
  Py.until_nul (Py.sqlite_lower s) = Py.sqlite_lower (Py.until_nul s).
Proof.
  induction s as [|c s IH]; simpl; [reflexivity|].
  destruct (sqlite_lower_char_idempotent c) as [_ ->].
  destruct (Py.is_nul c); simpl; [reflexivity | now rewrite IH].
Qed.

Lemma no_wildcard_lower (s : string) :
  no_wildcard (Py.lower s) = no_wildcard s.
Proof.
  induction s as [|c s IH]; simpl; [reflexivity|].
  destruct (lower_char_wildcard c) as (-> & -> & _). now rewrite IH.
Qed.

Lemma no_nul_lower (s : string) : no_nul (Py.lower s) = no_nul s.
Proof.
  induction s as [|c s IH]; simpl; [reflexivity|].
  destruct (lower_char_wildcard c) as (_ & _ & -> & _). now rewrite IH.
Qed.

Lemma until_nul_no_nul (s : string) : no_nul s = true -> Py.until_nul s = s.
Proof.
  induction s as [|c s IH]; simpl; [reflexivity|].
  intros H. apply andb_prop in H. destruct H as [Hc Hs].
  apply negb_true_iff in Hc. rewrite Hc, IH by exact Hs. reflexivity.
Qed.

Lemma until_nul_pattern (q : string) :
  no_nul q = true -> Py.until_nul ("%" ++ q ++ "%") = "%" ++ q ++ "%".
Proof.
  intros H. apply until_nul_no_nul.
  change (no_nul (String "%" (q ++ "%")) = true). cbn [no_nul].
  change (Py.is_nul "%") with false. cbn [negb andb].
  induction q as [|c q IH]; simpl; [reflexivity|].
  simpl in H. apply andb_prop in H. destruct H as [-> H]. now apply IH.
Qed.

Lemma append_inj_length (a a' r r' : string) :
  String.length a = String.length a' -> a ++ r = a' ++ r' -> a = a' /\ r = r'.
Proof.
  revert a'. induction a as [|c a IH]; intros [|c' a'] Hlen Heq;
    simpl in *; try discriminate.
  - split; [reflexivity | exact Heq].
  - injection Heq as -> Heq. injection Hlen as Hlen.
    destruct (IH a' Hlen Heq) as [-> ->]. split; reflexivity.
Qed.

Lemma sqlite_lower_part (s a m b : string) :
  Py.sqlite_lower s = a ++ m ++ b -> Py.sqlite_lower m = m.
Proof.
  intros H. pose proof (sqlite_lower_idempotent s) as Hs. rewrite H in Hs.
  rewrite !sqlite_lower_append in Hs.
  apply append_inj_length in Hs; [|apply sqlite_lower_length].
  destruct Hs as [_ Hs].
  apply append_inj_length in Hs; [|apply sqlite_lower_length].
  tauto.
Qed.

Lemma holds_name_condition (pattern name : string) :
  holds (name_condition pattern name) = Py.like pattern (Py.sqlite_lower name).
Proof.
  unfold name_condition, sql_like, sql_lower, option_map, holds.
  destruct (Py.like pattern (Py.sqlite_lower name)); reflexivity.
Qed.

(** For a query without the wild cards [%] and [_] and without a NUL, the
    condition on a name that every search uses selects a row exactly when
    the name as SQLite reads it (its letters A to Z in lower case, up to
    its first NUL) contains the query as Python's [lower()] leaves it. *)
Theorem name_condition_is_substring (query name : string)
    (Hplain : no_wildcard query = true) (Hnul : no_nul query = true) :
  holds (name_condition ("%" ++ Py.lower query ++ "%") name) = true
  <-> exists a b, Py.until_nul (Py.sqlite_lower name) = a ++ Py.lower query ++ b.
Proof.
  rewrite holds_name_condition. unfold Py.like.
  rewrite until_nul_pattern by (now rewrite no_nul_lower).
  rewrite until_nul_sqlite_lower.
  change ("%" ++ Py.lower query ++ "%") with (String "%" (Py.lower query ++ "%")).
  rewrite like_percent_iff. split.
  - intros (a & t' & Heq & H).
    apply like_literal in H; [|now rewrite no_wildcard_lower].
    destruct H as (m & b & -> & Hm & _). rewrite sqlite_lower_lower in Hm.
    exists a, b. rewrite Heq, Hm. f_equal. f_equal.
    symmetry. apply (sqlite_lower_part (Py.until_nul name) a m b). exact Heq.
  - intros (a & b & Heq). exists a, (Py.lower query ++ b). split; [exact Heq|].
    apply like_literal; [now rewrite no_wildcard_lower|].
    exists (Py.lower query), b. repeat split. apply like_percent_all.
Qed.

Lemma name_condition_is_substring_witness :
  no_wildcard "IRC" = true /\ no_nul "IRC" = true
  /\ holds (name_condition ("%" ++ Py.lower "IRC" ++ "%") "Circle") = true
  /\ exists a b, Py.until_nul (Py.sqlite_lower "Circle") = a ++ Py.lower "IRC" ++ b.
Proof.
  split; [reflexivity|]. split; [reflexivity|]. split; [reflexivity|].
  apply (proj1 (name_condition_is_substring "IRC" "Circle" eq_refl eq_refl)).
  reflexivity.
Defined.

(** The wild cards of a query are not escaped: [_] stands for any
    character. *)
Remark name_condition_wildcard :
  holds (name_condition ("%" ++ Py.lower "c_r" ++ "%") "Circle") = true.
Proof. reflexivity. Qed.

(** A NUL ends the pattern: of the query [c], NUL, [zzz] only [%c] is
    read, which selects the names that end in [c] and no other. *)
Remark name_condition_nul :
  let query := String "c" (String zero "zzz") in
  holds (name_condition ("%" ++ Py.lower query ++ "%") "arc") = true
  /\ holds (name_condition ("%" ++ Py.lower query ++ "%") "Circle") = false.
Proof. split; reflexivity. Qed.

(** Python lowers the capital letters of the supplement in the query and
    SQLite leaves them in the name as they are: the query of the two
    letters E-acute (201) and [T] selects the name that has the small
    e-acute (233) and not the name in capitals. *)
Remark name_condition_latin :
  let query := String (ascii_of_nat 201) "T" in
  let small := String (ascii_of_nat 233) (String "t" (String (ascii_of_nat 233) EmptyString)) in
  let capital := String (ascii_of_nat 201) (String "T" (String (ascii_of_nat 201) EmptyString)) in
  holds (name_condition ("%" ++ Py.lower query ++ "%") small) = true
  /\ holds (name_condition ("%" ++ Py.lower query ++ "%") capital) = false.
Proof. split; reflexivity. Qed.

(** ** The empty query *)

Lemma name_matches_empty_query (name : string) : name_matches "%%" name = true.
Proof. unfold name_matches. apply like_two_percents. Qed.

(** The empty query selects every row: each category holds the first
    [limit] rows of its table that belong to the project, if one is
    given, and to a Module row. *)
Theorem empty_query_selects_all (db : Store) (project_id : option Z) (limit : Z) :
  r_modules (search_code db EmptyString project_id limit)
  = map module_hit (sql_limit limit (filter (in_project project_id) (modules db)))
  /\ r_classes (search_code db EmptyString project_id limit)
     = map class_hit
         (sql_limit limit
            (filter (fun row => in_project project_id (snd row))
                    (join_module cls_module_id db (classes db))))
  /\ r_functions (search_code db EmptyString project_id limit)
     = map (function_hit db)
         (sql_limit limit
            (filter (fun row => in_project project_id (snd row))
                    (join_module fn_module_id db (functions db))))
  /\ r_variables (search_code db EmptyString project_id limit)
     = map variable_hit
         (sql_limit limit
            (filter (fun row => in_project project_id (snd row))
                    (join_module var_module_id db (variables db)))).
Proof.
  change (search_code db EmptyString project_id limit)
    with (_free_text_search db EmptyString project_id limit).
  unfold _free_text_search.
  change ("%" ++ Py.lower EmptyString ++ "%") with "%%".
  cbn [r_modules r_classes r_functions r_variables].
  unfold select_modules, select_joined.
  split; [|split; [|split]]; f_equal; f_equal; apply filter_ext_eq.
  - intros m. rewrite holds_and_base.
    unfold free_module_condition, attribute_is_none. cbn [negb].
    rewrite holds_name_or_docstring, name_matches_empty_query. reflexivity.
  - intros [c m]. rewrite holds_and_base.
    unfold free_class_condition, attribute_is_none. cbn [fst snd].
    rewrite holds_name_or_docstring, name_matches_empty_query. reflexivity.
  - intros [f m]. rewrite holds_and_base.
    unfold free_function_condition, attribute_is_none. cbn [negb fst snd].
    rewrite holds_name_or_docstring, name_matches_empty_query. reflexivity.
  - intros [v m]. rewrite holds_and_base. cbn [fst snd].
    rewrite holds_name_condition.
    change (Py.like "%%" (Py.sqlite_lower (var_name v)))
      with (name_matches "%%" (var_name v)).
    rewrite name_matches_empty_query. reflexivity.
Qed.

(** ** Searches by name *)

Lemma joined_names_match {A} (module_id : A -> Z) (table : list A) (db : Store)
    (name : A -> string) (pattern : string) (project_id : option Z) (limit : Z)
    (row : A * Module_) :
  In row (select_joined module_id table db
            (fun r => name_condition pattern (name r)) project_id limit) ->
  name_matches pattern (name (fst row)) = true.
Proof.
  unfold select_joined. intros H. apply in_sql_limit in H. apply filter_In in H.
  destruct H as [_ H]. rewrite holds_and_base in H. apply andb_prop in H.
  destruct H as [H _]. rewrite holds_name_condition in H. exact H.
Qed.

(** A [class:term] search has results in the class category only, and the
    name of each matches the trimmed term; likewise a [function:term]
    search in the function category, a [var:term] search in the variable
    category and a [module:term] search in the module category. *)
Theorem structured_name_search (db : Store) (term : string)
    (project_id : option Z) (limit : Z) (Hterm : is_term term = true) :
  let pattern := "%" ++ Py.lower (Py.strip term) ++ "%" in
  (let r := search_code db ("class:" ++ term) project_id limit in
   r_modules r = [] /\ r_functions r = [] /\ r_variables r = []
   /\ forall h, In h (r_classes r) -> name_matches pattern (ch_name h) = true)
  /\ (let r := search_code db ("function:" ++ term) project_id limit in
      r_modules r = [] /\ r_classes r = [] /\ r_variables r = []
      /\ forall h, In h (r_functions r) -> name_matches pattern (fh_name h) = true)
  /\ (let r := search_code db ("var:" ++ term) project_id limit in
      r_modules r = [] /\ r_classes r = [] /\ r_functions r = []
      /\ forall h, In h (r_variables r) -> name_matches pattern (vh_name h) = true)
  /\ (let r := search_code db ("module:" ++ term) project_id limit in
      r_classes r = [] /\ r_functions r = [] /\ r_variables r = []
      /\ forall h, In h (r_modules r) -> name_matches pattern (mh_name h) = true).
Proof.
  intros pattern.
  change ("class:" ++ term) with ("class" ++ String ":" term).
  change ("function:" ++ term) with ("function" ++ String ":" term).
  change ("var:" ++ term) with ("var" ++ String ":" term).
  change ("module:" ++ term) with ("module" ++ String ":" term).
  destruct (structured_kind db "class" term project_id limit eq_refl Hterm)
    as [H1 R1].
  destruct (structured_kind db "function" term project_id limit eq_refl Hterm)
    as [H2 R2].
  destruct (structured_kind db "var" term project_id limit eq_refl Hterm)
    as [H3 R3].
  destruct (structured_kind db "module" term project_id limit eq_refl Hterm)
    as [H4 R4].
  cbv zeta. rewrite H1, H2, H3, H4. unfold _structured_search.
  rewrite R1, R2, R3, R4.
  cbv [String.eqb Ascii.eqb Bool.eqb orb].
  cbn [r_modules r_classes r_functions r_variables].
  repeat split.
  - intros h Hin. apply in_map_iff in Hin. destruct Hin as ([c m] & <- & Hin).
    apply (joined_names_match cls_module_id (classes db) db cls_name) in Hin.
    exact Hin.
  - intros h Hin. apply in_map_iff in Hin. destruct Hin as ([f m] & <- & Hin).
    apply (joined_names_match fn_module_id (functions db) db fn_name) in Hin.
    exact Hin.
  - intros h Hin. apply in_map_iff in Hin. destruct Hin as ([v m] & <- & Hin).
    apply (joined_names_match var_module_id (variables db) db var_name) in Hin.
    exact Hin.
  - intros h Hin. unfold select_modules in Hin. apply in_map_iff in Hin.
    destruct Hin as (m & <- & Hin). apply in_sql_limit in Hin.
    apply filter_In in Hin. destruct Hin as [_ Hin].
    rewrite holds_and_base in Hin. apply andb_prop in Hin. destruct Hin as [Hin _].
    rewrite holds_name_condition in Hin. exact Hin.
Qed.

Lemma structured_name_search_witness :
  is_term " circ " = true
  /\ map ch_name (r_classes (search_code demo_store_two "class: circ " None 20))
     = ["Circle"]
  /\ r_functions (search_code demo_store_two "class: circ " None 20) = [].
Proof.
  split; [reflexivity|]. split; [vm_compute; reflexivity|].
  destruct (structured_name_search demo_store_two " circ " None 20 eq_refl)
    as [(_ & H & _) _].
  exact H.
Defined.

(** ** Projects and their file counts *)

Import Server Cli.

Lemma file_count_by_identity (db : Store) (p : Z) :
  file_count db p
  = Z.of_nat
      (List.length
         (filter (fun i => snd (fst (fst (fst i))) =? p)
                 (map module_identity (modules db)))).
Proof.
  unfold file_count. f_equal.
  induction (modules db) as [|m l IH]; simpl; [reflexivity|].
  destruct (mod_project_id m =? p); simpl; now rewrite IH.
Qed.

(** A call of [index_project], returning or raising, lowers the file count
    of no project. *)
Theorem index_project_file_counts (fault : nat -> option Exception)
    (clock : nat -> Z) (import_time : Z) (name root_path : string)
    (modules : list ModuleInfo) (db : Store) (p : Z) :
  file_count db p
  <= file_count
       (fst (index_project fault clock import_time name root_path modules db)) p.
Proof.
  destruct (module_rows_grow fault clock import_time name root_path modules db)
    as [extra H].
  rewrite !file_count_by_identity, H, filter_app, length_app. lia.
Qed.

(** The resource of one project answers "not found" exactly when no
    Project row has the id, and otherwise gives an entry that
    [get_projects] lists, with that id and the file count of that id. *)
Theorem get_project_agrees (isoformat : Z -> string) (db : Store) (pid : Z) :
  match get_project isoformat db pid with
  | inl message =>
      ~ In pid (map project_id (projects db))
      /\ message = "Project not found: " ++ Py.str_of_int pid
  | inr entry =>
      In entry (get_projects isoformat db)
      /\ pe_id entry = pid
      /\ pe_file_count entry = file_count db pid
  end.
Proof.
  unfold get_project.
  destruct (find (fun p => project_id p =? pid) (projects db)) as [project|] eqn:Hfind.
  - apply find_some in Hfind. destruct Hfind as [Hin Hid]. apply Z.eqb_eq in Hid.
    split; [|split; [exact Hid | reflexivity]].
    unfold get_projects. apply in_map_iff. exists project.
    split; [now rewrite Hid | exact Hin].
  - split; [|reflexivity]. intros Hin. apply in_map_iff in Hin.
    destruct Hin as (project & Hid & Hin).
    apply (find_none _ _ Hfind) in Hin. apply Z.eqb_neq in Hin. contradiction.
Qed.

(** ** Formatted results *)

Lemma or_else_not_empty (text : option string) (default : string) :
  default <> EmptyString -> Py.or_else text default <> EmptyString.
Proof.
  intros H. destruct text as [[|c r]|]; simpl; try exact H. discriminate.
Qed.

Lemma format_function_description (f : FunctionHit) :
  fo_description (format_function f) <> EmptyString.
Proof.
  unfold format_function.
  destruct (Py.truthy (fh_class_name f)); simpl;
    apply or_else_not_empty; discriminate.
Qed.

(** The formatted results hold one entry for each result of the search,
    modules first, then classes, functions and variables, each with a
    description that is not empty; an entry is a method exactly when the
    function has a class name, and is then named after the class and the
    function. *)
Theorem format_search_results_entries (results : Results) :
  List.length (_format_search_results results) = result_count results
  /\ map fo_type (_format_search_results results)
     = (map (fun _ => "module") (r_modules results)
        ++ map (fun _ => "class") (r_classes results)
        ++ map (fun f => if Py.truthy (fh_class_name f) then "method" else "function")
             (r_functions results)
        ++ map (fun _ => "variable") (r_variables results))%list
  /\ Forall (fun e => fo_description e <> EmptyString)
       (_format_search_results results)
  /\ forall f, In f (r_functions results) -> Py.truthy (fh_class_name f) = true ->
       In {| fo_type := "method";
             fo_name := Py.fmt (fh_class_name f) ++ "." ++ fh_name f;
             fo_path := fh_path f;
             fo_line := Some (fh_lineno f);
             fo_description :=
               Py.or_else (fh_docstring f)
                 ("Method " ++ (Py.fmt (fh_class_name f) ++ "." ++ fh_name f)
                  ++ " in " ++ fh_module_name f) |}
          (_format_search_results results).
Proof.
  unfold _format_search_results, result_count.
  split; [|split; [|split]].
  - rewrite !length_app, !length_map. lia.
  - rewrite !map_app, !map_map. f_equal. f_equal. f_equal.
    apply map_ext. intros f. unfold format_function.
    destruct (Py.truthy (fh_class_name f)); reflexivity.
  - repeat (apply Forall_app; split); apply Forall_forall; intros e Hin;
      apply in_map_iff in Hin; destruct Hin as (h & <- & _).
    + apply or_else_not_empty. discriminate.
    + apply or_else_not_empty. discriminate.
    + apply format_function_description.
    + discriminate.
  - intros f Hin Hcls. apply in_or_app. right. apply in_or_app. right.
    apply in_or_app. left. apply in_map_iff. exists f. split; [|exact Hin].
    unfold format_function. rewrite Hcls. reflexivity.
Qed.

(** The search tool of the server searches with the limit 20: it gives at
    most 80 formatted results, whatever the catalog holds. *)
Theorem search_code_tool_bound (db : Store) (query : string) (project_id : option Z) :
  (List.length (snd (search_code_tool db query project_id)) <= 80)%nat.
Proof.
  unfold search_code_tool. simpl snd.
  destruct (format_search_results_entries (search_code db query project_id 20))
    as [Hlen _].
  rewrite Hlen. unfold result_count.
  destruct (search_code_limit_helper db query project_id 20 ltac:(lia))
    as (H1 & H2 & H3 & H4).
  lia.
Qed.

Lemma format_search_results_entries_witness :
  In radius_hit (r_functions (search_code demo_store "function:radius" None 20))
  /\ Py.truthy (fh_class_name radius_hit) = true
  /\ In {| fo_type := "method"; fo_name := "Circle.radius";
           fo_path := "/srv/demo/shapes.py"; fo_line := Some 7;
           fo_description := "Method Circle.radius in shapes" |}
        (snd (search_code_tool demo_store "function:radius" None)).
Proof.
  assert (Hin : In radius_hit
                  (r_functions (search_code demo_store "function:radius" None 20)))
    by (vm_compute; auto).
  split; [exact Hin|]. split; [reflexivity|].
  exact (proj2 (proj2 (proj2
           (format_search_results_entries
              (search_code demo_store "function:radius" None 20))))
           radius_hit Hin eq_refl).
Defined.

(** ** The view command *)

Lemma substring_length_le (n : nat) (s : string) :
  (String.length (substring 0 n s) <= n)%nat.
Proof.
  revert n. induction s as [|c s IH]; intros [|n]; simpl; try lia.
  specialize (IH n). lia.
Qed.

Lemma append_length (a b : string) :
  String.length (a ++ b) = (String.length a + String.length b)%nat.
Proof. induction a as [|c a IH]; simpl; [reflexivity | now rewrite IH]. Qed.

Lemma info_cell_length (text cell : string) :
  info_cell (Some text) = inl cell -> (String.length cell <= 53)%nat.
Proof.
  unfold info_cell. intros H. injection H as <-. rewrite append_length.
  unfold Py.slice_to. change (50 <? 0) with false. cbv iota.
  change (Z.to_nat 50) with 50%nat.
  pose proof (substring_length_le 50 text) as Hs.
  match goal with
  | |- context [if ?b then _ else _] => destruct b
  end.
  - change (String.length "...") with 3%nat. lia.
  - change (String.length EmptyString) with 0%nat. lia.
Qed.

Lemma table_rows_all (elements : list Element) :
  Forall (fun e => element_info e <> None) elements ->
  exists rows,
    table_rows elements = inl rows
    /\ List.length rows = List.length elements
    /\ Forall (fun row => (String.length (snd row) <= 53)%nat) rows.
Proof.
  induction 1 as [|e elements He _ IH]; simpl.
  - exists []. repeat split. constructor.
  - destruct IH as (rows & -> & Hlen & Hall).
    destruct (element_info e) as [text|] eqn:Hinfo; [|congruence].
    destruct (info_cell (Some text)) as [cell|error] eqn:Hcell;
      [|unfold info_cell in Hcell; discriminate].
    eexists. split; [reflexivity|]. split; [simpl; now rewrite Hlen|].
    constructor; [|exact Hall]. simpl. eapply info_cell_length. exact Hcell.
Qed.

Lemma table_rows_none (elements : list Element) :
  Exists (fun e => element_info e = None) elements ->
  table_rows elements = inr "'NoneType' object is not subscriptable".
Proof.
  induction elements as [|e elements IH]; intros H; [inversion H|].
  simpl. destruct (element_info e) as [text|] eqn:Hinfo; [|reflexivity].
  inversion H as [? ? He|? ? Hrest]; subst; [congruence|].
  rewrite (IH Hrest). unfold info_cell. reflexivity.
Qed.

(** What [view] prints for a path.  Not indexed: one line that says so.
    Indexed, and every element has its docstring or value: the panel of
    the content, a heading and a table with one row for each element,
    whose last cell is at most 53 characters long.  Indexed, and some
    element has no docstring (a function, class or method whose docstring
    is absent): the panel, the heading and, in place of the table, one
    line that reports the [TypeError]. *)
Theorem view_prints (read_text : string -> string + string)
    (resolve : string -> string) (db : Store) (path : string) :
  match get_file_content read_text db (resolve path) with
  | (printed, None) =>
      view read_text resolve db path
      = (map Line printed
         ++ [Line ("[bold red]File not found or not indexed: " ++ path ++ "[/]")])%list
  | (printed, Some (content, elements)) =>
      (elements <> [] ->
       Forall (fun e => element_info e <> None) elements ->
       exists rows,
         view read_text resolve db path
         = (map Line printed
            ++ [Panel content ("File: " ++ path);
                Line (Py.newline ++ "[bold green]File Elements:[/]" ++ Py.newline);
                Table rows])%list
         /\ List.length rows = List.length elements
         /\ Forall (fun row => (String.length (snd row) <= 53)%nat) rows)
      /\ (Exists (fun e => element_info e = None) elements ->
          view read_text resolve db path
          = (map Line printed
             ++ [Panel content ("File: " ++ path);
                 Line (Py.newline ++ "[bold green]File Elements:[/]" ++ Py.newline);
                 Line ("[bold red]Error viewing file:[/] "
                       ++ "'NoneType' object is not subscriptable")])%list)
  end.
Proof.
  unfold view.
  destruct (get_file_content read_text db (resolve path))
    as [printed [[content elements]|]]; [|reflexivity].
  split.
  - intros Hne Hall. destruct (table_rows_all elements Hall) as (rows & Hrows & H).
    exists rows. split; [|exact H].
    destruct elements as [|e rest]; [congruence|]. now rewrite Hrows.
  - intros Hex. rewrite (table_rows_none elements Hex).
    destruct elements as [|e rest]; [inversion Hex | reflexivity].
Qed.

Lemma view_prints_witness :
  get_file_content readable demo_store "/srv/demo/shapes.py"
  = ([], Some ("unit = 1", demo_elements))
  /\ Exists (fun e => element_info e = None) demo_elements
  /\ view readable (fun path => path) demo_store "/srv/demo/shapes.py"
     = [Panel "unit = 1" "File: /srv/demo/shapes.py";
        Line (Py.newline ++ "[bold green]File Elements:[/]" ++ Py.newline);
        Line "[bold red]Error viewing file:[/] 'NoneType' object is not subscriptable"].
Proof.
  assert (Hview : get_file_content readable demo_store "/srv/demo/shapes.py"
                  = ([], Some ("unit = 1", demo_elements)))
    by (vm_compute; reflexivity).
  assert (Hex : Exists (fun e => element_info e = None) demo_elements).
  { unfold demo_elements. apply Exists_cons_tl. apply Exists_cons_hd. reflexivity. }
  split; [exact Hview|]. split; [exact Hex|].
  pose proof (view_prints readable (fun path => path) demo_store
                "/srv/demo/shapes.py") as H.
  cbv beta in H. rewrite Hview in H. exact (proj2 H Hex).
Defined.

(** ** The parser *)

Lemma dict_get_set {V} (key key' : string) (value : V) (d : list (string * V)) :
  Py.dict_get key (Py.dict_set key' value d)
  = if String.eqb key' key then Some value else Py.dict_get key d.
Proof.
  induction d as [|[k v] d IH]; simpl.
  - reflexivity.
  - destruct (String.eqb k key') eqn:Hk; simpl.
    + apply String.eqb_eq in Hk. subst k. destruct (String.eqb key' key); reflexivity.
    + rewrite IH. destruct (String.eqb key' key) eqn:Hkey; [|reflexivity].
      apply String.eqb_eq in Hkey. subst key'. now rewrite Hk.
Qed.

Lemma dict_set_keys {V} (key : string) (value : V) (d : list (string * V)) (k : string) :
  In k (map fst (Py.dict_set key value d)) -> k = key \/ In k (map fst d).
Proof.
  induction d as [|[k0 v0] d IH]; simpl.
  - intros [H|[]]. left. now symmetry.
  - destruct (String.eqb k0 key) eqn:Hk; simpl.
    + intros [H|H]; [left; now symmetry | right; right; exact H].
    + intros [H|H]; [right; left; exact H|].
      destruct (IH H) as [H'|H']; [left; exact H' | right; right; exact H'].
Qed.

Lemma dict_set_nodup {V} (key : string) (value : V) (d : list (string * V)) :
  NoDup (map fst d) -> NoDup (map fst (Py.dict_set key value d)).
Proof.
  induction d as [|[k0 v0] d IH]; simpl; intros H.
  - constructor; [intros [] | constructor].
  - inversion H as [|? ? Hnotin Hnd]; subst.
    destruct (String.eqb k0 key) eqn:Hk; simpl.
    + apply String.eqb_eq in Hk. subst k0. constructor; assumption.
    + constructor; [|apply IH; exact Hnd].
      intros Hin. apply dict_set_keys in Hin. destruct Hin as [->|Hin].
      * rewrite String.eqb_refl in Hk. discriminate.
      * contradiction.
Qed.

Lemma dict_get_app {V} (key : string) (d d' : list (string * V)) :
  Py.dict_get key (d ++ d')
  = match Py.dict_get key d with
    | Some v => Some v
    | None => Py.dict_get key d'
    end.
Proof.
  induction d as [|[k v] d IH]; simpl; [reflexivity|].
  destruct (String.eqb k key); [reflexivity | exact IH].
Qed.

Lemma fold_dict_set (bs : list (string * (Z * string)))
    (d : list (string * (Z * string))) :
  NoDup (map fst d) ->
  NoDup (map fst
           (fold_left (fun variables binding =>
                         Py.dict_set (fst binding) (snd binding) variables) bs d))
  /\ forall name,
       Py.dict_get name
         (fold_left (fun variables binding =>
                       Py.dict_set (fst binding) (snd binding) variables) bs d)
       = match Py.dict_get name (rev bs) with
         | Some v => Some v
         | None => Py.dict_get name d
         end.
Proof.
  revert d. induction bs as [|[k v] bs IH]; intros d Hnd; simpl.
  - split; [exact Hnd | reflexivity].
  - destruct (IH (Py.dict_set k v d) (dict_set_nodup k v d Hnd)) as [Hnd' Hget].
    split; [exact Hnd'|]. intros name. rewrite Hget, dict_get_app, dict_get_set.
    simpl. destruct (Py.dict_get name (rev bs)); [reflexivity|].
    destruct (String.eqb k name); reflexivity.
Qed.

(** The variables of a module body form a dict: no name is there twice,
    and each name has the line and text of its last binding in the body,
    an assignment to an [AssignName] target or an annotated assignment to a
    [Name] target. *)
Theorem parse_variables_last_binding (body : list Node) :
  NoDup (map fst (_parse_variables body))
  /\ forall name,
       Py.dict_get name (_parse_variables body)
       = Py.dict_get name (rev (bindings body)).
Proof.
  unfold _parse_variables.
  destruct (fold_dict_set (bindings body) [] (NoDup_nil _)) as [Hnd Hget].
  split; [exact Hnd|]. intros name. rewrite Hget.
  destruct (Py.dict_get name (rev (bindings body))); reflexivity.
Qed.

(** The body of the demo: [limit] is bound on lines 3, 5 and 6 and keeps
    its first place with its last binding; the annotated [ratio], whose
    target is an [AssignName], is not recorded. *)
Example parse_variables_demo :
  _parse_variables demo_body
  = [("limit", (6, "int")); ("debug", (4, "False"))].
Proof. reflexivity. Qed.



Lemma doc_or_none_not_empty (doc : option string) :
  doc_or_none doc <> Some EmptyString.
Proof. destruct doc as [[|c r]|]; simpl; discriminate. Qed.

(** No docstring the parser describes is the empty text: an empty
    docstring of a module, a function, a class or a method is described
    as absent. *)
Theorem parse_module_docstrings (path : string) (doc : option string)
    (body : list Node) :
  mi_docstring (parse_module path doc body) <> Some EmptyString
  /\ Forall (fun f => fi_docstring f <> Some EmptyString)
       (mi_functions (parse_module path doc body))
  /\ Forall (fun c => ci_docstring c <> Some EmptyString
                      /\ Forall (fun f => fi_docstring f <> Some EmptyString)
                           (ci_methods c))
       (mi_classes (parse_module path doc body)).
Proof.
  simpl. split; [apply doc_or_none_not_empty|]. split.
  - unfold _parse_functions. apply Forall_forall. intros f Hin.
    apply in_map_iff in Hin. destruct Hin as (node & <- & _).
    apply doc_or_none_not_empty.
  - unfold _parse_classes. apply Forall_forall. intros c Hin.
    apply in_flat_map in Hin. destruct Hin as (node & _ & Hin).
    destruct node; simpl in Hin; try contradiction.
    destruct Hin as [<-|[]]. simpl. split; [apply doc_or_none_not_empty|].
    apply Forall_forall. intros f Hin. apply in_map_iff in Hin.
    destruct Hin as (fd & <- & _). apply doc_or_none_not_empty.
Qed.

(** ** From the index to the view *)

Lemma modules_inserted (module_id : Z) (module_info : ModuleInfo) (w : Store) :
  modules (insert_children module_id module_info w) = modules w.
Proof.
  unfold insert_children.
  destruct (fold_insert_function module_id None (mi_functions module_info)
              (fold_left (insert_class module_id) (mi_classes module_info)
                 (fold_left (insert_variable module_id) (mi_variables module_info)
                    (fold_left (insert_import module_id) (mi_imports module_info) w))))
    as (_ & _ & -> & _).
  destruct (fold_insert_class module_id (mi_classes module_info)
              (fold_left (insert_variable module_id) (mi_variables module_info)
                 (fold_left (insert_import module_id) (mi_imports module_info) w)))
    as (_ & _ & -> & _).
  destruct (fold_insert_variable module_id (mi_variables module_info)
              (fold_left (insert_import module_id) (mi_imports module_info) w))
    as (_ & _ & -> & _).
  destruct (fold_insert_import module_id (mi_imports module_info) w)
    as (_ & _ & -> & _).
  reflexivity.
Qed.

Lemma map_path_stamp (module_id t : Z) (l : list Module_) :
  map mod_path (map (stamp module_id t) l) = map mod_path l.
Proof.
  rewrite map_map. apply map_ext. intros m. unfold stamp.
  destruct (mod_id m =? module_id); reflexivity.
Qed.

Lemma paths_by_identity (l : list Module_) :
  map mod_path l = map (fun i => snd (fst i)) (map module_identity l).
Proof. rewrite map_map. reflexivity. Qed.

Section IndexedPaths.

Variable fault : nat -> option Exception.
Variable clock : nat -> Z.
Variable import_time : Z.

Lemma index_module_has_path (pid : Z) (module_info : ModuleInfo)
    (s s' : Session) (result : Module_) :
  _index_module fault clock import_time pid module_info s = (s', Returned result) ->
  In (mi_path module_info) (map mod_path (modules (work s'))).
Proof.
  intros Hrun. rewrite (index_module_writes _ _ _ _ _ _ _ _ Hrun).
  destruct (find _ (modules (work s))) as [row|] eqn:Hfind.
  - unfold stamp_module. cbn [modules set_modules].
    rewrite map_path_stamp, modules_inserted. cbn [modules clear_module].
    apply find_some in Hfind. destruct Hfind as [Hin Hrow].
    apply andb_prop in Hrow. destruct Hrow as [_ Hpath].
    apply String.eqb_eq in Hpath. rewrite <- Hpath. apply in_map. exact Hin.
  - cbv zeta. unfold stamp_module. cbn [modules set_modules].
    rewrite map_path_stamp, modules_inserted. cbn [modules set_modules].
    rewrite map_app. apply in_or_app. right. left. reflexivity.
Qed.

Lemma loop_has_paths (pid : Z) (module_infos : list ModuleInfo) (s s' : Session) :
  for_each module_infos
    (fun module_info =>
       _index_module fault clock import_time pid module_info ;; ret tt) s
  = (s', Returned tt) ->
  forall module_info, In module_info module_infos ->
    In (mi_path module_info) (map mod_path (modules (work s'))).
Proof.
  revert s. induction module_infos as [|m rest IH]; intros s H module_info Hin.
  - contradiction.
  - simpl in H. apply bind_returned in H. destruct H as (s1 & [] & Hm & H).
    apply bind_returned in Hm. destruct Hm as (s2 & r & Hm & Hret).
    unfold ret in Hret. injection Hret as <-.
    destruct Hin as [<-|Hin]; [|exact (IH _ H _ Hin)].
    apply index_module_has_path in Hm.
    apply module_rows_loop in H. destruct H as [extra H].
    rewrite paths_by_identity, H, map_app. apply in_or_app. left.
    rewrite <- paths_by_identity. exact Hm.
Qed.

End IndexedPaths.

(** After a call of [index_project] that returned, the view of the path
    of every module of the call is found: [get_file_content] gives the
    content and the elements, not the not-found value. *)
Theorem index_project_then_view (fault : nat -> option Exception)
    (clock : nat -> Z) (import_time : Z) (name root_path : string)
    (module_infos : list ModuleInfo) (db db' : Store) (pid : Z)
    (module_info : ModuleInfo) (read_text : string -> string + string)
    (Hrun : index_project fault clock import_time name root_path module_infos db
            = (db', Returned pid))
    (Hin : In module_info module_infos) :
  exists printed content elements,
    get_file_content read_text db' (mi_path module_info)
    = (printed, Some (content, elements)).
Proof.
  unfold index_project in Hrun.
  destruct (index_project_body fault clock import_time name root_path module_infos
              (open_session db)) as [s [x|e]] eqn:Hbody; [|discriminate].
  injection Hrun as <- <-.
  apply index_project_body_cases in Hbody.
  destruct Hbody as [(e & He & _) | (s4 & project & Ht & Hd4 & _)]; [discriminate|].
  apply transaction_work in Ht. destruct Ht as (s2 & s3 & Hloop & _ & Hd & _).
  pose proof (loop_has_paths _ _ _ _ _ _ _ Hloop module_info Hin) as Hpath.
  rewrite Hd4, Hd. unfold get_file_content.
  destruct (find (fun m => String.eqb (mod_path m) (mi_path module_info))
              (modules (work s3))) as [row|] eqn:Hfind.
  - destruct (read_text (mi_path module_info)); eexists; eexists; eexists; reflexivity.
  - exfalso. apply in_map_iff in Hpath. destruct Hpath as (row & Hrow & Hin').
    apply (find_none _ _ Hfind) in Hin'. rewrite Hrow, String.eqb_refl in Hin'.
    discriminate.
Qed.

Lemma index_project_then_view_witness :
  index_project no_fault demo_clock 0 "demo" "/srv/demo" [shapes_info; tools_info]
    empty_store
  = (demo_store_two, Returned 1)
  /\ In tools_info [shapes_info; tools_info]
  /\ exists printed content elements,
       get_file_content unreadable demo_store_two (mi_path tools_info)
       = (printed, Some (content, elements)).
Proof.
  assert (Hrun : index_project no_fault demo_clock 0 "demo" "/srv/demo"
                   [shapes_info; tools_info] empty_store
                 = (demo_store_two, Returned 1)) by (vm_compute; reflexivity).
  assert (Hin : In tools_info [shapes_info; tools_info])
    by (right; left; reflexivity).
  split; [exact Hrun|]. split; [exact Hin|].
  exact (index_project_then_view no_fault demo_clock 0 "demo" "/srv/demo"
           [shapes_info; tools_info] empty_store demo_store_two 1 tools_info
           unreadable Hrun Hin).
Defined.
